(** * Medguard: a shallow embedding of the backend and its alerting rules

    The development follows the Python sources of the repository:

    - [backend/main.py]: the heuristic scorer, the alert evaluator with its
      best-effort persistence and broadcast, the alert table and the
      time-bounded stream task;
    - [backend/alerts.py] and [backend/db.py]: the older evaluator and its
      store;
    - [backend/simulator.py]: the scorer of the simulator, the simulated
      hardware test, the stream worker and the registry of running streams.

    Python floats are modelled by rationals ([Q]); a comparison such as
    [score >= 0.8] is then the comparison of the real values, which agrees
    with the float comparison on every float that is not NaN.  Random draws,
    clocks and identifiers are inputs of the functions that consume them. *)

From stdpp Require Import base strings gmap list pretty.
From Stdlib Require Import Ascii QArith Qabs Qround Lia Lqa.

Local Open Scope Z_scope.

(** ** Python numerics *)

Module PyNum.

(** [round_half_even q] is the integer nearest to [q], ties going to the
    even neighbour, as Python's [round] and its [.3f] formatting do. *)
Definition round_half_even (q : Q) : Z :=
  let n := Qnum q in
  let d := Z.pos (Qden q) in
  let fl := n / d in
  let r2 := 2 * (n mod d) in
  if r2 <? d then fl
  else if d <? r2 then fl + 1
  else if Z.even fl then fl else fl + 1.

(** [round(q, nd)] for a non-negative number of digits. *)
Definition py_round (q : Q) (nd : nat) : Q :=
  let scale := 10 ^ Z.of_nat nd in
  Qmake (round_half_even (q * inject_Z scale)) (Z.to_pos scale).

(** [np.clip(q, lo, hi)]. *)
Definition clip (q lo hi : Q) : Q :=
  if Qle_bool q lo then lo else if Qle_bool hi q then hi else q.

(** [max(a, b)] on floats. *)
Definition py_max (a b : Q) : Q := if Qle_bool a b then b else a.

(** Left padding with zeros up to three characters. *)
Definition pad3 (s : string) : string :=
  match String.length s with
  | O => "000" | 1%nat => "00" +:+ s | 2%nat => "0" +:+ s | _ => s
  end.

(** [f"{q:.3f}"]. *)
Definition format_3f (q : Q) : string :=
  let m := round_half_even (Qabs q * inject_Z 1000) in
  (if Qle_bool 0 q then "" else "-")
    +:+ pretty (m / 1000) +:+ "." +:+ pad3 (pretty (m mod 1000)).

(** [random.uniform(a, b)], from the draw [u] of [random.random()]. *)
Definition uniform (u a b : Q) : Q := (a + (b - a) * u)%Q.

End PyNum.

(** ** Values of the fields that hold a string or [None] *)

Inductive pyval : Type :=
  | PyNone
  | PyStr (s : string).

#[global] Instance pyval_eq_dec : EqDecision pyval.
Proof. solve_decision. Defined.

(** [str(v)]. *)
Definition py_str (v : pyval) : string :=
  match v with PyNone => "None" | PyStr s => s end.

(** Truth value of [v]: [None] and the empty string are false. *)
Definition truthy (v : pyval) : bool :=
  match v with PyNone => false | PyStr s => negb (String.eqb s "") end.

(** [d.get(k)] on a field that may be missing: a missing key reads [None]. *)
Definition py_get (f : option pyval) : pyval := default PyNone f.

(** [a or b]. *)
Definition py_or (a b : pyval) : pyval := if truthy a then a else b.

(** [s] occurs in [t]. *)
Definition mentions (s t : string) : Prop :=
  ∃ pre post : string, t = pre +:+ s +:+ post.

(** Alert levels. *)
Inductive level : Type := WARNING | CRITICAL.

#[global] Instance level_eq_dec : EqDecision level.
Proof. solve_decision. Defined.

Definition level_str (l : level) : string :=
  match l with WARNING => "WARNING" | CRITICAL => "CRITICAL" end.

(** ** Calendar

    A naive [datetime] is the number of microseconds since the epoch; a
    [date] is a number of days. *)

Module Calendar.

Definition day_us : Z := 86400 * 1000000.

(** [dt.date()]. *)
Definition date_of (dt : Z) : Z := dt / day_us.

(** [(a - b).days] for two datetimes: [timedelta] normalises the
    microseconds into [0, day), so the days are the floor. *)
Definition delta_days (a b : Z) : Z := (a - b) / day_us.

(** Days from the civil date [y-m-d] to 1970-01-01. *)
Definition days_from_civil (y m d : Z) : Z :=
  let y' := if m <=? 2 then y - 1 else y in
  let era := y' / 400 in
  let yoe := y' - era * 400 in
  let mp := (m + 9) mod 12 in
  let doy := (153 * mp + 2) / 5 + d - 1 in
  let doe := yoe * 365 + yoe / 4 - yoe / 100 + doy in
  era * 146097 + doe - 719468.

Definition digit (c : Ascii.ascii) : option Z :=
  let n := Z.of_nat (Ascii.nat_of_ascii c) in
  if (48 <=? n) && (n <=? 57) then Some (n - 48) else None.

Fixpoint digits (acc : Z) (cs : list Ascii.ascii) : option Z :=
  match cs with
  | [] => Some acc
  | c :: cs' => d ← digit c; digits (10 * acc + d) cs'
  end.

(** [datetime.fromisoformat] on the date-only texts [YYYY-MM-DD] (midnight
    of that day); the other formats the library reads are left out, and
    read as a failure here.  It instantiates the parser in the examples. *)
Definition fromisoformat_date (s : string) : option Z :=
  match String.list_ascii_of_string s with
  | [y1; y2; y3; y4; "-"%char; m1; m2; "-"%char; d1; d2] =>
      y ← digits 0 [y1; y2; y3; y4];
      m ← digits 0 [m1; m2];
      d ← digits 0 [d1; d2];
      if (1 <=? m) && (m <=? 12) && (1 <=? d) && (d <=? 31)
      then Some (days_from_civil y m d * day_us) else None
  | _ => None
  end.

End Calendar.

(** ** Outcomes of calls that may raise *)

Inductive outcome (A : Type) : Type :=
  | Returned (a : A)
  | Raised (e : string).
Arguments Returned {A} a.
Arguments Raised {A} e.

(** ** The alert table

    Both modules keep their alerts in an SQLite table [alerts] whose primary
    key is [id].  A table is the list of its rows in insertion order. *)

Module Sql.

Record row : Type := mk_row {
  row_id : string;
  row_timestamp : Q;
  row_level : string;
  row_manufacturer : pyval;
  row_manufacturer_phone : pyval;
  row_message : string;
  row_data : pyval
}.

(** Preparing [INSERT INTO t (columns) VALUES (?, ..., ?)] fails unless
    there is one placeholder per column, and executing it fails unless
    there is one parameter per placeholder. *)
Definition insert_compiles (columns placeholders params : nat) : bool :=
  (columns =? placeholders)%nat && (placeholders =? params)%nat.

(** [INSERT OR REPLACE]: a row with the same primary key is deleted first. *)
Definition insert_or_replace (r : row) (t : list row) : list row :=
  filter (λ x, row_id x ≠ row_id r) t ++ [r].

(** Plain [INSERT]: a duplicate primary key raises. *)
Definition insert (r : row) (t : list row) : option (list row) :=
  if decide (row_id r ∈ map row_id t) then None else Some (t ++ [r]).

(** [ORDER BY timestamp DESC], as an insertion sort that keeps rows of equal
    timestamp in table order (SQLite leaves their order open). *)
Fixpoint insert_desc (r : row) (sorted : list row) : list row :=
  match sorted with
  | [] => [r]
  | x :: rest =>
      if Qle_bool (row_timestamp r) (row_timestamp x)
      then x :: insert_desc r rest
      else r :: x :: rest
  end.

Definition order_by_timestamp_desc (t : list row) : list row :=
  foldr insert_desc [] (reverse t).

(** [LIMIT n]: a negative [n] is no limit. *)
Definition sql_limit (n : Z) (t : list row) : list row :=
  if n <? 0 then t else take (Z.to_nat n) t.

Definition select_recent (limit : Z) (t : list row) : list row :=
  sql_limit limit (order_by_timestamp_desc t).

(** Rows in descending order of timestamp. *)
Definition newest_first (l : list row) : Prop :=
  ∀ i j x y, (i < j)%nat → l !! i = Some x → l !! j = Some y →
             (row_timestamp y <= row_timestamp x)%Q.

End Sql.

(** ** JSON values, as [json.loads] returns them *)

#[local] Unset Elimination Schemes.
Inductive json : Type :=
  | JNull
  | JBool (b : bool)
  | JNum (q : Q)
  | JStr (s : string)
  | JList (l : list json)
  | JDict (kvs : list (string * json)).
#[local] Set Elimination Schemes.

(** ** backend/main.py *)

Module Main.

Definition AUTO_ALERT_THRESHOLD : Q := 0.8.
Definition WARN_THRESHOLD : Q := 0.5.

(** [heuristic_fake_score]; [u] is the draw of [random.random()] that
    [random.uniform] consumes. *)
Definition heuristic_fake_score (u : Q) (days_to_expiry : option Z) : Q :=
  match days_to_expiry with
  | None => PyNum.py_round (PyNum.uniform u 0.0 0.25) 3
  | Some d =>
      if d <=? 0 then 0.95
      else if d <=? 90 then 0.85
      else if d <=? 120 then 0.6
      else PyNum.py_round (PyNum.uniform u 0.0 0.35) 3
  end.

(** The dict [result] handed to the evaluator.  A field is [None] when the
    key is missing. *)
Record result : Type := mk_result {
  r_expiry : option pyval;
  r_expiry_date : option pyval;
  r_exp_date : option pyval;
  r_manufacturer : option pyval;
  r_manufacturer_name : option pyval;
  r_manufacturer_phone : option pyval;
  r_fake_score : option Q;
  r_predicted_fake : option Z
}.

(** The alert dict built by the evaluator. *)
Record alert : Type := mk_alert {
  a_id : string;
  a_timestamp : Q;
  a_level : level;
  a_manufacturer : pyval;
  a_manufacturer_phone : pyval;
  a_message : string;
  a_data : pyval
}.

(** An alert as [load_alerts] returns it: [data] is decoded. *)
Record loaded_alert : Type := mk_loaded {
  l_id : string;
  l_timestamp : Q;
  l_level : string;
  l_manufacturer : pyval;
  l_manufacturer_phone : pyval;
  l_message : string;
  l_data : json
}.

(** The payload of a [test_result] message of the stream task. *)
Record payload : Type := mk_payload {
  p_batch : pyval;
  p_manufacturer : option pyval;
  p_expiry : option pyval;
  p_expiry_date : option pyval;
  p_test_metrics : option Q;
  p_fake_score : Q;
  p_predicted_fake : Z;
  p_days_to_expiry : option Z
}.

Inductive message : Type :=
  | TestResultMsg (p : payload)
  | AlertMsg (a : alert).

(** A row of the catalog of the simulator, as the phone lookup reads it. *)
Record catalog_row : Type := mk_catalog_row {
  c_manufacturer : pyval;
  c_manufacturer_phone : pyval
}.

(** What the process holds: the alert table, the websockets of the
    connection manager, what each socket received, and the faults of the
    environment ([db_fails]: sqlite3 raises; [dumps_fails]: serialising a
    message raises; [send_fails ws]: sending to [ws] raises). *)
Record world : Type := mk_world {
  db : list Sql.row;
  active : list nat;
  sent : list (nat * message);
  db_fails : bool;
  dumps_fails : bool;
  send_fails : nat → bool
}.

Definition set_db (t : list Sql.row) (w : world) : world :=
  mk_world t (active w) (sent w) (db_fails w) (dumps_fails w) (send_fails w).

Definition set_net (act : list nat) (s : list (nat * message)) (w : world)
  : world :=
  mk_world (db w) act s (db_fails w) (dumps_fails w) (send_fails w).

Definition row_of_alert (a : alert) : Sql.row :=
  Sql.mk_row (a_id a) (a_timestamp a) (level_str (a_level a))
    (a_manufacturer a) (a_manufacturer_phone a) (a_message a) (a_data a).

(** [save_alert_to_db]: seven columns, seven placeholders, seven values. *)
Definition save_alert_to_db (a : alert) (w : world) : outcome unit * world :=
  if db_fails w then (Raised "sqlite3.Error", w)
  else if Sql.insert_compiles 7 7 7
  then (Returned (), set_db (Sql.insert_or_replace (row_of_alert a) (db w)) w)
  else (Raised "sqlite3.OperationalError", w).

(** [ConnectionManager.broadcast]: the sockets of a snapshot of [active] are
    served in order; those whose send raises are disconnected afterwards. *)
Definition broadcast (m : message) (w : world) : outcome unit * world :=
  if dumps_fails w then (Raised "TypeError", w)
  else
    let snapshot := active w in
    let remove := filter (λ ws, send_fails w ws = true) snapshot in
    let delivered := filter (λ ws, send_fails w ws = false) snapshot in
    (Returned (),
     set_net (filter (λ ws, ws ∉ remove) (active w))
             (sent w ++ map (λ ws, (ws, m)) delivered) w).

(** [ConnectionManager.connect]: the socket is accepted and appended. *)
Definition connect (ws : nat) (w : world) : world :=
  set_net (active w ++ [ws]) (sent w) w.

(** [list.remove]: the first occurrence goes. *)
Fixpoint list_remove (ws : nat) (l : list nat) : list nat :=
  match l with
  | [] => []
  | x :: rest => if decide (x = ws) then rest else x :: list_remove ws rest
  end.

(** [ConnectionManager.disconnect]: a socket that is not there is left
    alone. *)
Definition disconnect (ws : nat) (w : world) : world :=
  if decide (ws ∈ active w)
  then set_net (list_remove ws (active w)) (sent w) w
  else w.

(** The messages a socket received, oldest first. *)
Definition received (ws : nat) (w : world) : list message :=
  omap (λ p : nat * message, if decide (p.1 = ws) then Some p.2 else None)
       (sent w).

(** A row of the catalog is of the manufacturer that is looked up. *)
Definition catalog_match (manufacturer : pyval) (c : catalog_row) : Prop :=
  py_str (match c_manufacturer c with PyNone => PyStr "" | v => v end)
  = py_str manufacturer.

(** *** JSON values as Python values *)

(** Truth value: [None], [False], zero, and the empty text, list and dict
    are false. *)
Definition json_truthy (j : json) : bool :=
  match j with
  | JNull => false
  | JBool b => b
  | JNum q => negb (Qeq_bool q 0)
  | JStr s => negb (String.eqb s "")
  | JList l => match l with [] => false | _ => true end
  | JDict kvs => match kvs with [] => false | _ => true end
  end.

(** [a or b]. *)
Definition json_or (a b : json) : json := if json_truthy a then a else b.

(** [d.get(k)] on the items of a dict: [None] for a missing key. *)
Fixpoint dict_get (kvs : list (string * json)) (k : string) : json :=
  match kvs with
  | [] => JNull
  | (k', v) :: rest => if String.eqb k' k then v else dict_get rest k
  end.

(** [d.get(k, default)]. *)
Fixpoint dict_get_default (kvs : list (string * json)) (k : string)
    (dflt : json) : json :=
  match kvs with
  | [] => dflt
  | (k', v) :: rest =>
      if String.eqb k' k then v else dict_get_default rest k dflt
  end.

Definition json_of_pyval (v : pyval) : json :=
  match v with PyNone => JNull | PyStr s => JStr s end.

(** The dict [_alert_to_highrisk] returns. *)
Record highrisk_item : Type := mk_highrisk {
  h_id : string;
  h_timestamp : Q;
  h_name : json;
  h_batch : json;
  h_quality : Z;
  h_risk : string;
  h_supplier : json;
  h_manufacturer_phone : json;
  h_message : string
}.

Section Evaluator.

(** Library functions: [datetime.fromisoformat], [pandas.to_datetime] with
    [errors="coerce"] (both give a naive datetime or fail), [json.dumps] on
    a result and [json.loads]. *)
Variable fromisoformat : string → option Z.
Variable pd_to_datetime : string → option Z.
Variable json_dumps : result → string.
Variable json_loads : string → option json.

(** [parse_days_to_expiry], with [today] the date of the call. *)
Definition parse_days_to_expiry (today : Z) (expiry_date : pyval) : option Z :=
  if truthy expiry_date then
    match expiry_date with
    | PyStr s => ed ← fromisoformat s; Some (Calendar.date_of ed - today)
    | PyNone => None
    end
  else None.

(** Lines 203-228 of [evaluate_and_handle_alert]: the days the evaluator
    derives from the expiry text and the clock [now]. *)
Definition expiry_raw (r : result) : pyval :=
  py_or (py_or (py_get (r_expiry r)) (py_get (r_expiry_date r)))
        (py_get (r_exp_date r)).

Definition days_of (now : Z) (r : result) : option Z :=
  match expiry_raw r with
  | PyStr s =>
      if truthy (PyStr s) then
        ed ← match fromisoformat s with
             | Some ed => Some ed
             | None => pd_to_datetime s
             end;
        Some (Calendar.delta_days ed now)
      else None
  | PyNone => None
  end.

(** Lines 230-238: the expiry rules. *)
Definition expiry_rule (days : option Z) : option (level * string) :=
  match days with
  | Some d =>
      if d <=? 90 then
        Some (CRITICAL,
              "Expiry within 3 months (days_to_expiry=" +:+ pretty d +:+ ")")
      else if d <=? 120 then
        Some (WARNING,
              "Expiry within 4 months (days_to_expiry=" +:+ pretty d +:+ ")")
      else None
  | None => None
  end.

(** Lines 243-249: the score rules, consulted when no expiry rule fired. *)
Definition score_rule (score : Q) (ml_pred : Z) : option (level * string) :=
  if (ml_pred =? 1) || Qle_bool AUTO_ALERT_THRESHOLD score then
    Some (CRITICAL, "ML anomaly (score=" +:+ PyNum.format_3f score +:+ ")")
  else if Qle_bool WARN_THRESHOLD score then
    Some (WARNING, "ML suspicious (score=" +:+ PyNum.format_3f score +:+ ")")
  else None.

Definition rule (now : Z) (r : result) : option (level * string) :=
  let score := default 0.0%Q (r_fake_score r) in
  let ml_pred := default 0 (r_predicted_fake r) in
  match expiry_rule (days_of now r) with
  | Some lr => Some lr
  | None => score_rule score ml_pred
  end.

(** [lookup_manufacturer_phone]; [catalog] is [None] when there is no
    simulator or its table has no manufacturer or phone column. *)
Definition lookup_manufacturer_phone (catalog : option (list catalog_row))
    (manufacturer : pyval) : pyval :=
  match catalog with
  | None => PyNone
  | Some rows =>
      let matches :=
        filter (λ c, py_str (match c_manufacturer c with
                             | PyNone => PyStr ""
                             | v => v
                             end) = py_str manufacturer) rows in
      let ph := filter (λ v, v ≠ PyNone) (map c_manufacturer_phone matches) in
      match ph with
      | v :: _ => PyStr (py_str v)
      | [] => PyNone
      end
  end.

(** [evaluate_and_handle_alert].  [now] is [datetime.now()], [uuid] the
    fresh identifier and [ts] the reading of [time.time()]. *)
Definition evaluate_and_handle_alert (catalog : option (list catalog_row))
    (now : Z) (uuid : string) (ts : Q) (r : result) (w : world)
  : outcome (option alert) * world :=
  match rule now r with
  | None => (Returned None, w)
  | Some (lvl, reason) =>
      let manufacturer :=
        match r_manufacturer r with
        | Some v => v
        | None => py_or (py_get (r_manufacturer_name r)) (PyStr "Unknown")
        end in
      let man_phone :=
        if truthy (py_get (r_manufacturer_phone r))
        then py_get (r_manufacturer_phone r)
        else lookup_manufacturer_phone catalog manufacturer in
      let a := mk_alert uuid ts lvl manufacturer man_phone
                 (level_str lvl +:+ ": " +:+ reason +:+ " | supplier="
                    +:+ py_str manufacturer)
                 (PyStr (json_dumps r)) in
      (* try: save_alert_to_db(alert) / except Exception: pass *)
      let w1 := snd (save_alert_to_db a w) in
      (* try: await manager.broadcast(...) / except Exception: pass *)
      let w2 := snd (broadcast (AlertMsg a) w1) in
      (Returned (Some a), w2)
  end.

(** [load_alerts]: the rows of the query, each with its [data] decoded when
    it is a non-empty text.  A text that does not decode raises. *)
Definition decode_data (d : pyval) : option json :=
  if truthy d then
    match d with PyStr s => json_loads s | PyNone => Some JNull end
  else Some JNull.

Definition load_row (r : Sql.row) : option loaded_alert :=
  j ← decode_data (Sql.row_data r);
  Some (mk_loaded (Sql.row_id r) (Sql.row_timestamp r) (Sql.row_level r)
          (Sql.row_manufacturer r) (Sql.row_manufacturer_phone r)
          (Sql.row_message r) j).

Definition load_alerts (limit : Z) (w : world) : outcome (list loaded_alert) :=
  if db_fails w then Raised "sqlite3.Error"
  else match mapM load_row (Sql.select_recent limit (db w)) with
       | Some l => Returned l
       | None => Raised "json.JSONDecodeError"
       end.

(** *** The display shape of the alerts *)

(** [float] on a text, for the scores that were stored as texts. *)
Variable float_of_text : string → option Q.

(** [float(v)]: [None] when it raises. *)
Definition py_float (v : json) : option Q :=
  match v with
  | JNum q => Some q
  | JBool b => Some (if b then 1.0 else 0.0)%Q
  | JStr s => float_of_text s
  | JNull | JList _ | JDict _ => None
  end.

(** Lines 425-430: the dict the fields are read from.  [None]: [data] is
    a true value that is neither a dict nor a text, and [data.get] will
    raise. *)
Definition highrisk_data (data : json) : option (list (string * json)) :=
  match json_or data (JDict []) with
  | JDict kvs => Some kvs
  | JStr s =>
      match json_loads s with
      | Some (JDict kvs) => Some kvs
      | Some _ => None
      | None => Some []
      end
  | _ => None
  end.

(** [_alert_to_highrisk], on an alert of [load_alerts]. *)
Definition _alert_to_highrisk (a : loaded_alert) : outcome highrisk_item :=
  match highrisk_data (l_data a) with
  | None => Raised "AttributeError"
  | Some data =>
      match py_float (dict_get_default data "fake_score" (JNum 0.0)) with
      | None => Raised "TypeError"
      | Some fake_score =>
          let quality :=
            Z.max 0 (Z.min 100
                       (PyNum.round_half_even ((1.0 - fake_score) * 100)%Q)) in
          let level := l_level a in
          let risk :=
            if String.eqb level "CRITICAL" then "high" else "medium" in
          Returned
            (mk_highrisk (l_id a) (l_timestamp a)
               (json_or (dict_get data "medicine")
                  (json_or (dict_get data "name")
                     (json_or (dict_get data "product_name")
                        (json_or (dict_get data "manufacturer")
                           (JStr "Unknown")))))
               (json_or (dict_get data "batch")
                  (json_or (dict_get data "batch_no")
                     (json_or (dict_get data "id")
                        (json_or (dict_get data "batch_id") (JStr "N/A")))))
               quality risk
               (json_or (json_of_pyval (l_manufacturer a))
                  (json_or (dict_get data "manufacturer") (JStr "Unknown")))
               (json_or (json_of_pyval (l_manufacturer_phone a))
                  (dict_get data "manufacturer_phone"))
               (l_message a))
      end
  end.

(** The list comprehension of [highrisk]: the first item that raises
    aborts it. *)
Fixpoint highrisk_items (l : list loaded_alert)
  : outcome (list highrisk_item) :=
  match l with
  | [] => Returned []
  | a :: rest =>
      match _alert_to_highrisk a with
      | Raised e => Raised e
      | Returned h =>
          match highrisk_items rest with
          | Raised e => Raised e
          | Returned hs => Returned (h :: hs)
          end
      end
  end.

(** [highrisk]. *)
Definition highrisk (limit : Z) (w : world) : outcome (list highrisk_item) :=
  match load_alerts limit w with
  | Raised e => Raised e
  | Returned alerts => highrisk_items alerts
  end.

(** *** The stream task and the predict endpoint *)

(** The random draws of one iteration of the stream task. *)
Record tick_draws : Type := mk_tick_draws {
  t_days : Z;              (* random.randint(-30, 730) *)
  t_batch : Z;             (* random.randint(1000, 9999) *)
  t_manufacturer : nat;    (* the index random.choice takes *)
  t_metric : Q;            (* random.random() *)
  t_score : Q              (* the draw of the heuristic *)
}.

Variable isoformat : Z → string.

Definition manufacturers : list string :=
  ["PharmaCorp"; "HealthMeds"; "MediCare"; "GlobalPharma"].

(** The payload synthesised when the simulator gave no sample. *)
Definition fallback_payload (now : Z) (d : tick_draws) : payload :=
  let expiry_date := isoformat (now + t_days d * Calendar.day_us) in
  mk_payload (PyStr ("SIM" +:+ pretty (t_batch d)))
    (Some (PyStr (default "" (manufacturers !! t_manufacturer d))))
    (Some (PyStr expiry_date)) None (Some (t_metric d)) 0.0 0 None.

(** Lines 313-319: the scores attached to the payload. *)
Definition score_payload (now : Z) (d : tick_draws) (p : payload) : payload :=
  let days :=
    parse_days_to_expiry (Calendar.date_of now)
      (py_or (py_get (p_expiry p)) (py_get (p_expiry_date p))) in
  let fake_score := heuristic_fake_score (t_score d) days in
  let predicted_fake :=
    if Qle_bool AUTO_ALERT_THRESHOLD fake_score then 1 else 0 in
  mk_payload (p_batch p) (p_manufacturer p) (p_expiry p) (p_expiry_date p)
    (p_test_metrics p) fake_score predicted_fake days.

(** The body of the loop of [_stream_simulator_task]; [sample] is what the
    simulator gave ([None]: no simulator, no [sample] method, or a call
    that raised). *)
Definition stream_tick (catalog : option (list catalog_row))
    (sample : option payload) (now : Z) (uuid : string) (ts : Q)
    (d : tick_draws) (w : world) : payload * world :=
  let p := score_payload now d (default (fallback_payload now d) sample) in
  let w1 := snd (broadcast (TestResultMsg p) w) in
  let r := mk_result
             (Some (py_or (py_get (p_expiry p)) (py_get (p_expiry_date p))))
             None None (Some (py_get (p_manufacturer p))) None None
             (Some (p_fake_score p)) (Some (p_predicted_fake p)) in
  let w2 := snd (evaluate_and_handle_alert catalog now uuid ts r w1) in
  (p, w2).

(** The loop: [clock k] is the [k]-th reading of [time.time()] after the
    one that gave [start]; [body k] is the effect of the [k]-th iteration.
    [None]: the fuel ran out before the loop ended. *)
Fixpoint stream_loop (clock : nat → Q) (body : nat → world → world)
    (start run_seconds : Q) (fuel k : nat) (w : world) : option (nat * world) :=
  match fuel with
  | O => None
  | S fuel' =>
      if negb (Qle_bool run_seconds (clock k - start))
      then stream_loop clock body start run_seconds fuel' (S k) (body k w)
      else Some (k, w)
  end.

(** [_stream_simulator_task]: the loop over the iterations above.  The
    inputs of the [k]-th iteration (what the simulator gave, the clock, the
    identifier, the draws) are functions of [k]. *)
Definition _stream_simulator_task (catalog : option (list catalog_row))
    (sample : nat → option payload) (now : nat → Z) (uuid : nat → string)
    (ts : nat → Q) (d : nat → tick_draws) (clock : nat → Q)
    (start run_seconds : Q) (fuel : nat) (w : world) : option (nat * world) :=
  stream_loop clock
    (λ k w, snd (stream_tick catalog (sample k) (now k) (uuid k) (ts k) (d k)
                   w))
    start run_seconds fuel 0 w.

(** The dict [predict] returns, after its own call of the evaluator. *)
Record prediction : Type := mk_prediction {
  pr_manufacturer : string;
  pr_batch : pyval;
  pr_expiry_date : pyval;
  pr_days_to_expiry : option Z;
  pr_fake_score : Q;
  pr_predicted_fake : Z;
  pr_manufacturer_phone : pyval
}.

Definition predict (catalog : option (list catalog_row))
    (req_manufacturer req_expiry_date req_batch : pyval)
    (now : Z) (uuid : string) (ts : Q) (u : Q) (w : world)
  : prediction * world :=
  let manufacturer := py_str (py_or req_manufacturer (PyStr "Unknown")) in
  let expiry := py_or req_expiry_date PyNone in
  let batch := py_or req_batch PyNone in
  let days := parse_days_to_expiry (Calendar.date_of now) expiry in
  let fake_score := heuristic_fake_score u days in
  let predicted_fake :=
    if Qle_bool AUTO_ALERT_THRESHOLD fake_score then 1 else 0 in
  let manufacturer_phone :=
    lookup_manufacturer_phone catalog (PyStr manufacturer) in
  let r := mk_result None (Some expiry) None (Some (PyStr manufacturer)) None
             (Some manufacturer_phone) (Some fake_score)
             (Some predicted_fake) in
  let w' := snd (evaluate_and_handle_alert catalog now uuid ts r w) in
  (mk_prediction manufacturer batch expiry days fake_score predicted_fake
     manufacturer_phone, w').

End Evaluator.

End Main.

(** ** backend/alerts.py and backend/db.py

    The older evaluator: score rules only, a warning threshold of 0.6, and
    a store whose insert is not guarded. *)

Module Alerts.

Definition AUTO_ALERT_THRESHOLD : Q := 0.8.
Definition WARN_THRESHOLD : Q := 0.6.

Record alert : Type := mk_alert {
  a_id : string;
  a_timestamp : Q;
  a_level : level;
  a_manufacturer : pyval;
  a_message : string;
  a_data : pyval
}.

(** [db.save_alert]: the statement names six columns and has five
    placeholders, for six values. *)
Definition save_alert (a : alert) (t : list Sql.row)
  : outcome unit * list Sql.row :=
  if Sql.insert_compiles 6 5 6 then
    match Sql.insert (Sql.mk_row (a_id a) (a_timestamp a)
                        (level_str (a_level a)) (a_manufacturer a) PyNone
                        (a_message a) (a_data a)) t with
    | Some t' => (Returned (), t')
    | None => (Raised "sqlite3.IntegrityError", t)
    end
  else (Raised "sqlite3.OperationalError", t).

Section Evaluator.

Variable json_dumps : Main.result → string.

(** The state the function acts on: the table and the messages handed to
    [notify_callback]. *)
Definition state : Type := (list Sql.row * list alert)%type.

(** [evaluate_and_alert]; [notify] tells whether a callback was given. *)
Definition evaluate_and_alert (uuid : string) (ts : Q) (notify : bool)
    (r : Main.result) (st : state) : outcome (option alert) * state :=
  let score := default 0%Q (Main.r_fake_score r) in
  let manufacturer := py_get (Main.r_manufacturer r) in
  let decided :=
    if (default 0 (Main.r_predicted_fake r) =? 1)
       || Qle_bool AUTO_ALERT_THRESHOLD score
    then Some (CRITICAL,
               "High likelihood of fake medicine detected from "
                 +:+ py_str manufacturer +:+ " (score="
                 +:+ PyNum.format_3f score +:+ ")")
    else if Qle_bool WARN_THRESHOLD score
    then Some (WARNING,
               "Suspicious medicine detected from "
                 +:+ py_str manufacturer +:+ " (score="
                 +:+ PyNum.format_3f score +:+ ")")
    else None in
  match decided with
  | None => (Returned None, st)
  | Some (lvl, msg) =>
      let a := mk_alert uuid ts lvl manufacturer msg (PyStr (json_dumps r)) in
      match save_alert a (fst st) with
      | (Raised e, t) => (Raised e, (t, snd st))
      | (Returned _, t) =>
          (Returned (Some a), (t, if notify then snd st ++ [a] else snd st))
      end
  end.

End Evaluator.

End Alerts.

(** ** backend/simulator.py *)

Module Sim.

(** The expiry of a sample row: a timestamp, [NaT], [None], or a text. *)
Inductive expiry_val : Type :=
  | ExpDate (dt : Z)
  | ExpNaT
  | ExpNone
  | ExpText (s : string).

Record sample : Type := mk_sample {
  s_manufacturer : pyval;
  s_expiry : expiry_val
}.

(** The fitted encoder: [transform] fails on an unseen label. *)
Record encoder : Type := mk_encoder {
  transform : pyval → option Z;
  n_classes : Z
}.

(** The model, by the first scoring method it offers.  The features are the
    days ([None] for NaN) and the encoded manufacturer; a call may raise. *)
Inductive model : Type :=
  | DecisionFunction (f : option Z → Z → option Q)
  | PredictProba (f : option Z → Z → option Q)
  | Predict (f : option Z → Z → option Z)
  | NoMethod.

Record bundle : Type := mk_bundle {
  b_model : model;
  b_encoder : option encoder
}.

Record simulator : Type := mk_simulator {
  hardware_latency : Q * Q;
  sensor_channels : nat;
  model_bundle : option bundle;
  today : Z
}.

(** The random draws of one simulated test, in the order of the calls. *)
Record draws : Type := mk_draws {
  u_latency : Q;
  u_jitter : Q;
  u_failure : Q;
  g_score : Q;
  g_sensor : nat → Q;  (* np.random.normal(0.0, noise_level), per channel *)
  u_flip : Q
}.

(** The same draws with another draw for the flip of the label. *)
Definition with_flip (u : Q) (d : draws) : draws :=
  mk_draws (u_latency d) (u_jitter d) (u_failure d) (g_score d) (g_sensor d) u.

Inductive status : Type := OK | ERROR.

(** The dict a simulated test returns; the worker adds the last two keys. *)
Record test_event : Type := mk_event {
  e_status : status;
  e_error_msg : option string;
  e_duration : Q;
  e_manufacturer : option string;
  e_expiry : option pyval;
  e_fake_score : option Q;
  e_predicted_fake : option Z;
  e_test_result : option string;
  e_raw_sensor : list Q;
  e_timestamp : string;
  e_stream_id : option string;
  e_seq : option nat
}.

Definition tag (stream_id : string) (count : nat) (e : test_event)
  : test_event :=
  mk_event (e_status e) (e_error_msg e) (e_duration e) (e_manufacturer e)
    (e_expiry e) (e_fake_score e) (e_predicted_fake e) (e_test_result e)
    (e_raw_sensor e) (e_timestamp e) (Some stream_id) (Some count).

Section Scoring.

(** [np.exp]; [pandas.to_datetime] on a text ([None]: it raises,
    [Some None]: NaT); [str] of a timestamp. *)
Variable np_exp : Q → Q.
Variable pd_to_datetime : string → option (option Z).
Variable str_of_datetime : Z → string.

(** [(pd.to_datetime(expiry) - self.today).days], 36500 when that raises;
    [None] stands for the NaN that NaT gives. *)
Definition days_to (sim : simulator) (expiry : expiry_val) : option Z :=
  match expiry with
  | ExpDate dt => Some (Calendar.delta_days dt (today sim))
  | ExpNaT => None
  | ExpNone => Some 36500
  | ExpText s =>
      match pd_to_datetime s with
      | Some (Some dt) => Some (Calendar.delta_days dt (today sim))
      | Some None => None
      | None => Some 36500
      end
  end.

(** Lines 119-131 of [_ml_score]: the score without a model; [g] is the
    draw of [np.random.normal(0, 0.05)]. *)
Definition fallback_score (sim : simulator) (expiry : expiry_val)
    (manufacturer : pyval) (g : Q) : Q :=
  let days := days_to sim expiry in
  let s0 := 0.0%Q in
  let s1 :=
    match days with
    | Some d =>
        if d <? 0
        then (s0 + 0.5 * (1 - np_exp (PyNum.py_max (-3.0)
                                        (inject_Z d / 365.0))))%Q
        else s0
    | None => s0
    end in
  let s2 :=
    if decide (manufacturer ∈ [PyNone; PyStr ""; PyStr "Unknown"; PyStr "nan"])
    then (s1 + 0.3)%Q else s1 in
  PyNum.clip (s2 + g)%Q 0.0 1.0.

(** Lines 91-117: the score of the model, [None] when there is no answer
    (the call raised, or the model has no scoring method). *)
Definition model_score (sim : simulator) (b : bundle) (expiry : expiry_val)
    (manufacturer : pyval) : option Q :=
  let days := days_to sim expiry in
  let man_enc :=
    match b_encoder b with
    | Some enc =>
        match transform enc manufacturer with
        | Some k => k
        | None => Z.max (n_classes enc) 0 + 1
        end
    | None => 0
    end in
  match b_model b with
  | DecisionFunction f =>
      df ← f days man_enc;
      let raw := (- df)%Q in
      Some (PyNum.clip (1.0 / (1.0 + np_exp (-4.0 * (raw - 0.0))))%Q 0.0 1.0)
  | PredictProba f => f days man_enc
  | Predict f => pred ← f days man_enc; Some (if pred =? 1 then 1.0 else 0.0)%Q
  | NoMethod => None
  end.

Definition _ml_score (sim : simulator) (expiry : expiry_val)
    (manufacturer : pyval) (g : Q) : Q :=
  match model_bundle sim with
  | Some b =>
      match model_score sim b expiry manufacturer with
      | Some s => s
      | None => fallback_score sim expiry manufacturer g
      end
  | None => fallback_score sim expiry manufacturer g
  end.

Definition str_of_expiry (e : expiry_val) : option pyval :=
  match e with
  | ExpDate dt => Some (PyStr (str_of_datetime dt))
  | ExpNaT => Some (PyStr "NaT")
  | ExpNone => Some PyNone
  | ExpText s => Some (PyStr s)
  end.

(** The readings of the sensor channels. *)
Definition raw_sensor (sim : simulator) (d : draws) (fake_score : Q)
  : list Q :=
  let base_signal := PyNum.py_max 0.05 (1.0 - fake_score)%Q in
  map (λ ch : nat,
         let drift :=
           (1.0 + 0.02 * (inject_Z (Z.of_nat ch)
                          - (inject_Z (Z.of_nat (sensor_channels sim)) - 1)
                            / 2))%Q in
         let noise := g_sensor d ch in
         PyNum.clip (base_signal * drift * (1.0 + noise))%Q 0.0 5.0)
      (seq 0 (sensor_channels sim)).

(** [simulate_hardware_test] with its default [jitter] and failure rate. *)
Definition simulate_hardware_test (sim : simulator) (utcnow : string)
    (d : draws) (sample_row : sample) : test_event :=
  let jitter := 0.05%Q in
  let simulate_failure_rate := 0.01%Q in
  let '(min_l, max_l) := hardware_latency sim in
  let duration :=
    (PyNum.uniform (u_latency d) min_l max_l
     * PyNum.uniform (u_jitter d) (1.0 - jitter) (1.0 + jitter))%Q in
  if negb (Qle_bool simulate_failure_rate (u_failure d)) then
    mk_event ERROR (Some "Hardware timeout or sensor disconnect") duration
      None None None None None [] utcnow None None
  else
    let manufacturer := s_manufacturer sample_row in
    let expiry_val := s_expiry sample_row in
    let fake_score := _ml_score sim expiry_val manufacturer (g_score d) in
    let sensors := raw_sensor sim d fake_score in
    let threshold := 0.7%Q in
    let predicted_fake := if Qle_bool threshold fake_score then 1 else 0 in
    let test_result := if predicted_fake =? 1 then "FAIL" else "PASS" in
    let test_result :=
      if negb (Qle_bool 0.01 (u_flip d))
      then (if String.eqb test_result "FAIL" then "PASS" else "FAIL")
      else test_result in
    mk_event OK None duration (Some (py_str manufacturer))
      (str_of_expiry expiry_val) (Some (PyNum.py_round fake_score 4))
      (Some predicted_fake) (Some test_result) sensors utcnow None None.

End Scoring.

(** *** The stream worker

    [stream_tests] starts a thread that runs [runner].  The thread is a
    small machine: a program point and the local variables of [runner].
    Each step reads the shared stop flag at most once, so that the steps of
    several threads and the calls of [stop_stream] interleave as the
    statements of the source do. *)

(** What the selector's iterator gives at each [next]. *)
Inductive gen_item : Type :=
  | Yield (s : sample)
  | StopIteration
  | GenRaise.

(** [sample_selector] given as a list of row indices of the table [df]:
    an index out of range raises when it is reached. *)
Definition gen_of_indices (df : list sample) (idx : list nat) (k : nat)
  : gen_item :=
  match idx !! k with
  | None => StopIteration
  | Some i => match df !! i with Some s => Yield s | None => GenRaise end
  end.

(** The default selector, [random_gen]: one sampled row for ever;
    [pick k] is the row drawn at the [k]-th [next].  Sampling an empty
    table raises. *)
Definition random_gen (df : list sample) (pick : nat → nat) (k : nat)
  : gen_item :=
  match df !! (pick k mod length df)%nat with
  | Some s => Yield s
  | None => GenRaise
  end.

Inductive callback_msg : Type :=
  | EventMsg (e : test_event)
  | StreamEnded (stream_id : string).

(** Program points of [runner]: the head of the [for] loop, the [while]
    loop that sleeps, the test after it, the epilogue, the end of the
    thread, and its death by an exception of the iterator. *)
Inductive pc : Type :=
  | PcFor
  | PcSleep
  | PcAfterSleep
  | PcEpilogue
  | PcDone
  | PcCrashed.

#[global] Instance pc_eq_dec : EqDecision pc.
Proof. solve_decision. Defined.

Record worker : Type := mk_worker {
  w_stream_id : string;
  w_gen : nat → gen_item;
  w_test : nat → sample → test_event;  (* the simulated test of each tick *)
  w_interval : Q;
  w_max_tests : option Z;
  w_stop_flag : nat;                   (* the dict [stop_flag], by address *)
  w_pc : pc;
  w_pos : nat;                         (* items taken from the iterator *)
  w_count : nat;
  w_slept : Q;
  w_out : list callback_msg            (* the calls of [callback] *)
}.

Definition goto (p : pc) (w : worker) : worker :=
  mk_worker (w_stream_id w) (w_gen w) (w_test w) (w_interval w)
    (w_max_tests w) (w_stop_flag w) p (w_pos w) (w_count w) (w_slept w)
    (w_out w).

Definition emit (m : callback_msg) (w : worker) : worker :=
  mk_worker (w_stream_id w) (w_gen w) (w_test w) (w_interval w)
    (w_max_tests w) (w_stop_flag w) (w_pc w) (w_pos w) (w_count w) (w_slept w)
    (w_out w ++ [m]).

Definition next_tick (w : worker) : worker :=
  mk_worker (w_stream_id w) (w_gen w) (w_test w) (w_interval w)
    (w_max_tests w) (w_stop_flag w) (w_pc w) (S (w_pos w)) (S (w_count w))
    0.0 (w_out w).

Definition take_item (w : worker) : worker :=
  mk_worker (w_stream_id w) (w_gen w) (w_test w) (w_interval w)
    (w_max_tests w) (w_stop_flag w) (w_pc w) (S (w_pos w)) (w_count w)
    (w_slept w) (w_out w).

Definition sleep_quantum (w : worker) : worker :=
  mk_worker (w_stream_id w) (w_gen w) (w_test w) (w_interval w)
    (w_max_tests w) (w_stop_flag w) (w_pc w) (w_pos w) (w_count w)
    (w_slept w + 0.1)%Q (w_out w).

(** [max_tests is not None and count >= int(max_tests)]. *)
Definition max_reached (w : worker) : bool :=
  match w_max_tests w with
  | Some m => m <=? Z.of_nat (w_count w)
  | None => false
  end.

(** One step of the thread; [stop] is the value of [stop_flag["stop"]] when
    the step reads it. *)
Definition worker_step (stop : bool) (w : worker) : worker :=
  match w_pc w with
  | PcFor =>
      match w_gen w (w_pos w) with
      | StopIteration => goto PcEpilogue w
      | GenRaise => goto PcCrashed w
      | Yield s =>
          if stop then goto PcEpilogue (take_item w)
          else
            let res := tag (w_stream_id w) (w_count w)
                         (w_test w (w_count w) s) in
            let w' := next_tick (emit (EventMsg res) w) in
            if max_reached w' then goto PcEpilogue w' else goto PcSleep w'
      end
  | PcSleep =>
      if negb (Qle_bool (w_interval w) (w_slept w)) then
        if stop then goto PcAfterSleep w else sleep_quantum w
      else goto PcAfterSleep w
  | PcAfterSleep => if stop then goto PcEpilogue w else goto PcFor w
  | PcEpilogue => goto PcDone (emit (StreamEnded (w_stream_id w)) w)
  | PcDone => w
  | PcCrashed => w
  end.

(** The thread alone, against the values [stops k] that its [k]-th step
    reads from the flag. *)
Fixpoint run_worker (stops : nat → bool) (k n : nat) (w : worker) : worker :=
  match n with
  | O => w
  | S n' => run_worker stops (S k) n' (worker_step (stops k) w)
  end.

(** The thread as [stream_tests] creates it: at the head of the loop, with
    [count = 0], and nothing emitted. *)
Definition new_worker (stream_id : string) (gen : nat → gen_item)
    (test : nat → sample → test_event) (interval : Q) (max_tests : option Z)
    (flag : nat) : worker :=
  mk_worker stream_id gen test interval max_tests flag PcFor 0 0 0.0 [].

(** The thread is over: [runner] returned, or an exception killed it. *)
Definition thread_exited (w : worker) : bool :=
  match w_pc w with
  | PcDone | PcCrashed => true
  | _ => false
  end.

(** *** The registry of running streams *)

Record stream_info : Type := mk_info {
  i_thread : nat;
  i_stop_flag : nat
}.

(** The simulator at run time: the dict [running_streams], the stop flags
    that were allocated, and the threads that were started. *)
Record system : Type := mk_system {
  running_streams : gmap string stream_info;
  flags : list bool;
  threads : list worker
}.

Definition initial : system := mk_system ∅ [] [].

(** [stream_tests]: [uuid] is the identifier drawn when no [run_id] is
    given (an empty [run_id] counts as none). *)
Definition stream_tests (gen : nat → gen_item)
    (test : nat → sample → test_event) (interval : Q) (run_id : pyval)
    (max_tests : option Z) (uuid : string) (sys : system) : string * system :=
  let stream_id := py_str (py_or run_id (PyStr uuid)) in
  let flag := length (flags sys) in
  let th := length (threads sys) in
  let w := new_worker stream_id gen test interval max_tests flag in
  (stream_id,
   mk_system (<[stream_id := mk_info th flag]> (running_streams sys))
             (flags sys ++ [false]) (threads sys ++ [w])).

(** [stop_stream]. *)
Definition stop_stream (stream_id : string) (sys : system) : bool * system :=
  match running_streams sys !! stream_id with
  | None => (false, sys)
  | Some info =>
      (true,
       mk_system (running_streams sys)
                 (<[i_stop_flag info := true]> (flags sys)) (threads sys))
  end.

(** One step of thread [th].  The step from the epilogue also removes the
    stream from the registry. *)
Definition thread_step (th : nat) (sys : system) : system :=
  match threads sys !! th with
  | None => sys
  | Some w =>
      let stop := default false (flags sys !! w_stop_flag w) in
      let w' := worker_step stop w in
      mk_system
        (if decide (w_pc w = PcEpilogue)
         then delete (w_stream_id w) (running_streams sys)
         else running_streams sys)
        (flags sys) (<[th := w']> (threads sys))
  end.

(** What can happen to a simulator, and a schedule of such actions. *)
Inductive action : Type :=
  | Start (gen : nat → gen_item) (test : nat → sample → test_event)
          (interval : Q) (run_id : pyval) (max_tests : option Z)
          (uuid : string)
  | Stop (stream_id : string)
  | Run (th : nat).

Definition act (a : action) (sys : system) : system :=
  match a with
  | Start gen test interval run_id max_tests uuid =>
      snd (stream_tests gen test interval run_id max_tests uuid sys)
  | Stop stream_id => snd (stop_stream stream_id sys)
  | Run th => thread_step th sys
  end.

Definition run (schedule : list action) (sys : system) : system :=
  foldl (λ s a, act a s) sys schedule.

(** The identifier a start will register. *)
Definition started_id (a : action) : option string :=
  match a with
  | Start _ _ _ run_id _ uuid => Some (py_str (py_or run_id (PyStr uuid)))
  | _ => None
  end.

(** A schedule in which no stream is started under the identifier of a
    stream that is still registered. *)
Fixpoint ids_fresh (schedule : list action) (sys : system) : Prop :=
  match schedule with
  | [] => True
  | a :: rest =>
      match started_id a with
      | Some id => running_streams sys !! id = None
      | None => True
      end
      ∧ ids_fresh rest (act a sys)
  end.

(** The sequence numbers a thread attached to the events it emitted. *)
Definition seqs_of (out : list callback_msg) : list (option nat) :=
  omap (λ m, match m with
             | EventMsg e => Some (e_seq e)
             | StreamEnded _ => None
             end) out.

(** *** Invariants and measures of the proofs *)

(** The fields of a thread that no step changes. *)
Definition same_stream (w w' : worker) : Prop :=
  w_stream_id w' = w_stream_id w ∧ w_gen w' = w_gen w ∧ w_test w' = w_test w
  ∧ w_interval w' = w_interval w ∧ w_max_tests w' = w_max_tests w
  ∧ w_stop_flag w' = w_stop_flag w.

(** What holds of the calls a thread has made: the events are numbered
    from 0 in the order of their emission, up to the counter, and carry the
    identifier of the stream. *)
Definition out_ok (w : worker) : Prop :=
  seqs_of (w_out w) = Some <$> seq 0 (w_count w)
  ∧ ∀ e, EventMsg e ∈ w_out w → e_stream_id e = Some (w_stream_id w).

(** A property of every thread of the simulator. *)
Definition all_threads (P : worker → Prop) (sys : system) : Prop :=
  ∀ th w, threads sys !! th = Some w → P w.

(** The registry and the threads agree: a registered stream has a thread
    that has not returned, under its identifier and with its flag; and a
    thread that has not returned is registered under its identifier. *)
Record registry_ok (sys : system) : Prop := mk_registry_ok {
  registered_live : ∀ id info,
    running_streams sys !! id = Some info →
    ∃ w, threads sys !! i_thread info = Some w
         ∧ w_stream_id w = id ∧ w_stop_flag w = i_stop_flag info
         ∧ w_pc w ≠ PcDone
         ∧ (i_stop_flag info < length (flags sys))%nat;
  live_registered : ∀ th w,
    threads sys !! th = Some w → w_pc w ≠ PcDone →
    running_streams sys !! w_stream_id w = Some (mk_info th (w_stop_flag w))
}.

(** [reaches stops k w k' w']: from [w], with [k] reads of the flag behind
    it, the thread gets to [w'] with [k'] reads behind it. *)
Definition reaches (stops : nat → bool) (k : nat) (w : worker) (k' : nat)
    (w' : worker) : Prop :=
  ∃ n, k' = (k + n)%nat ∧ run_worker stops k n w = w'.

(** What a tick leaves as it is while the thread sleeps. *)
Definition same_tick (w w' : worker) : Prop :=
  same_stream w w' ∧ w_pos w' = w_pos w ∧ w_count w' = w_count w
  ∧ w_out w' = w_out w.

(** The steps that remain once every read of the flag sees the stop. *)
Definition steps_left_when_stopped (w : worker) : nat :=
  match w_pc w with
  | PcSleep => 3
  | PcFor | PcAfterSleep => 2
  | PcEpilogue => 1
  | PcDone | PcCrashed => 0
  end.

(** The reasons for which [runner] leaves its loop: the selector is
    exhausted, the bound on the tests is reached, or one of the first [k]
    reads of the flag saw the stop. *)
Definition exit_reason (stops : nat → bool) (k : nat) (w : worker) : Prop :=
  w_gen w (w_pos w) = StopIteration
  ∨ max_reached w = true
  ∨ ∃ j, (j < k)%nat ∧ stops j = true.

(** A thread in or past its epilogue has a reason to be there. *)
Definition exit_explained (stops : nat → bool) (k : nat) (w : worker)
  : Prop :=
  w_pc w = PcEpilogue ∨ w_pc w = PcDone → exit_reason stops k w.

(** The thread is in its loop. *)
Definition in_loop (w : worker) : Prop :=
  w_pc w = PcFor ∨ w_pc w = PcSleep ∨ w_pc w = PcAfterSleep.

(** The counter never passes the bound on the tests (one test is run even
    when the bound is below one), nor the items taken from the selector. *)
Definition count_bounded (w : worker) : Prop :=
  (w_count w ≤ w_pos w)%nat
  ∧ ∀ m, w_max_tests w = Some m →
         Z.of_nat (w_count w) ≤ Z.max m 1
         ∧ (in_loop w → w_count w = 0%nat ∨ Z.of_nat (w_count w) < m).

(** No [stream_ended] among the calls. *)
Definition no_stream_ended (out : list callback_msg) : Prop :=
  ∀ id, StreamEnded id ∉ out.

(** [stream_ended] is the last call of a thread that returned, and of no
    other. *)
Definition ended_last (w : worker) : Prop :=
  if decide (w_pc w = PcDone)
  then ∃ pre, w_out w = pre ++ [StreamEnded (w_stream_id w)]
              ∧ no_stream_ended pre
  else no_stream_ended (w_out w).

(** The events among the calls. *)
Definition events_of (out : list callback_msg) : list test_event :=
  omap (λ m, match m with EventMsg e => Some e | StreamEnded _ => None end)
       out.

End Sim.

(** ** Instances of the library functions, for the examples *)

Module Examples.

(** The partial sums of the exponential series, as a rational stand-in
    for [np.exp]. *)
Fixpoint exp_terms (x term : Q) (k n : nat) : Q :=
  match n with
  | O => 0
  | S n' =>
      (term + exp_terms x (term * x / inject_Z (Z.of_nat (S k))) (S k) n')%Q
  end.

Definition exp_series (x : Q) : Q := Qred (exp_terms x 1 0 12).

(** [json.loads] on the texts of the constants and the empty containers;
    other texts are outside this instance. *)
Definition json_loads_atoms (s : string) : option json :=
  if String.eqb s "null" then Some JNull
  else if String.eqb s "true" then Some (JBool true)
  else if String.eqb s "false" then Some (JBool false)
  else if String.eqb s "{}" then Some (JDict [])
  else if String.eqb s "[]" then Some (JList [])
  else None.

(** A serialiser that writes every result as the empty object. *)
Definition json_dumps_empty (_ : Main.result) : string := "{}".

(** No text is read by the pandas fallback. *)
Definition no_pandas (_ : string) : option Z := None.

Definition no_pandas_text (_ : string) : option (option Z) := None.

(** Timestamps print as their number of microseconds. *)
Definition str_of_us (dt : Z) : string := pretty dt.

(** A world with two sockets, the second of which is broken, and a store
    that is down. *)
Definition world_db_down : Main.world :=
  Main.mk_world [] [0%nat; 1%nat] [] true false (λ ws, (ws =? 1)%nat).

(** The same world with a working store. *)
Definition world_up : Main.world :=
  Main.mk_world [] [0%nat; 1%nat] [] false false (λ ws, (ws =? 1)%nat).

(** An event that expires thirty days after the first of January 2026. *)
Definition now_2026 : Z := default 0 (Calendar.fromisoformat_date "2026-01-01").

Definition result_30_days : Main.result :=
  Main.mk_result (Some (PyStr "2026-01-31")) None None
    (Some (PyStr "PharmaCorp")) None None (Some 0.1%Q) (Some 0).

(** An event without expiry and a score of 0.9. *)
Definition result_no_expiry : Main.result :=
  Main.mk_result None None None (Some (PyStr "PharmaCorp")) None None
    (Some 0.9%Q) (Some 1).

(** A simulator whose model is a classifier that gives 0.75 to every row,
    and one without a model; the reference date is 2025-11-25. *)
Definition today_demo : Z :=
  default 0 (Calendar.fromisoformat_date "2025-11-25").

Definition sim_classifier : Sim.simulator :=
  Sim.mk_simulator (0.2%Q, 1.5%Q) 3
    (Some (Sim.mk_bundle (Sim.PredictProba (λ _ _, Some 0.75%Q)) None))
    today_demo.

Definition sim_no_model : Sim.simulator :=
  Sim.mk_simulator (0.2%Q, 1.5%Q) 3 None today_demo.

(** Draws under which the hardware does not fail and the label is not
    flipped; the noise of the score is 0.02. *)
Definition calm_draws : Sim.draws :=
  Sim.mk_draws 0.5 0.5 0.5 0.02 (λ _, 0.0%Q) 0.5.

(** A row of PharmaCorp that expires thirty days after the reference
    date. *)
Definition row_30_days : Sim.sample :=
  Sim.mk_sample (PyStr "PharmaCorp")
    (Sim.ExpDate (today_demo + 30 * Calendar.day_us)).

(** An alert as the evaluator builds it. *)
Definition alert_demo : Main.alert :=
  Main.mk_alert "a-1" 1.0 CRITICAL (PyStr "PharmaCorp") PyNone
    "CRITICAL: ML anomaly (score=0.900) | supplier=PharmaCorp" (PyStr "{}").

(** A table of one row, and the simulated test under calm draws. *)
Definition df_demo : list Sim.sample := [row_30_days].

Definition test_demo (_ : nat) (row : Sim.sample) : Sim.test_event :=
  Sim.simulate_hardware_test exp_series no_pandas_text str_of_us sim_no_model
    "2025-11-25T00:00:00Z" calm_draws row.

(** A worker over the selector [[0]], with no bound on its tests. *)
Definition worker_one_row : Sim.worker :=
  Sim.new_worker "s-1" (Sim.gen_of_indices df_demo [0%nat]) test_demo 0.5
    None 0.

(** A worker over the default selector, bounded by three tests. *)
Definition worker_three_tests : Sim.worker :=
  Sim.new_worker "s-2" (Sim.random_gen df_demo (λ k, k)) test_demo 0.5
    (Some 3) 0.

(** Two streams started one after the other, their threads interleaved.
    The second runs its two tests and returns; the first is asked to stop
    while it sleeps, and has not looked at its flag yet. *)
Definition two_streams : list Sim.action :=
  [Sim.Start (Sim.random_gen df_demo (λ k, k)) test_demo 0.2 PyNone None
     "s-1";
   Sim.Start (Sim.random_gen df_demo (λ k, k)) test_demo 0.2 (PyStr "s-2")
     (Some 2) "unused";
   Sim.Run 0; Sim.Run 1; Sim.Run 0; Sim.Run 1; Sim.Run 1; Sim.Run 1;
   Sim.Run 0; Sim.Run 1; Sim.Run 1; Sim.Stop "s-1"; Sim.Run 1].

(** No score was stored as a text. *)
Definition no_float_text (_ : string) : option Q := None.

(** An alert as [load_alerts] returns it, with a score of 0.9. *)
Definition loaded_demo : Main.loaded_alert :=
  Main.mk_loaded "a-2" 2.0 "CRITICAL" (PyStr "PharmaCorp") PyNone
    "CRITICAL: ML anomaly (score=0.900) | supplier=PharmaCorp"
    (JDict [("fake_score", JNum 0.9); ("batch", JStr "B-7")]).

(** What the simulator could give to the stream task: a batch that expires
    thirty days after the first of January 2026; and the draws of a tick. *)
Definition payload_30_days : Main.payload :=
  Main.mk_payload (PyStr "B-1") (Some (PyStr "PharmaCorp"))
    (Some (PyStr "2026-01-31")) None None 0.0 0 None.

Definition tick_draws_demo : Main.tick_draws :=
  Main.mk_tick_draws 10 1234 0 0.5 0.5.

(** A clock that moves on by one second at each reading. *)
Definition clock_seconds (k : nat) : Q := inject_Z (Z.of_nat k).

(** A row that expires four hundred days after the reference date. *)
Definition row_400_days : Sim.sample :=
  Sim.mk_sample (PyStr "PharmaCorp")
    (Sim.ExpDate (today_demo + 400 * Calendar.day_us)).

End Examples.

(** ** The statements of the specification, as predicates *)

Module Spec.

(** "predictedFake = score >= 0.8", read on an event. *)
Definition predicted_iff_score_at_least_08 (e : Sim.test_event) : Prop :=
  ∀ s p, Sim.e_fake_score e = Some s → Sim.e_predicted_fake e = Some p →
         (p = 1 ↔ (0.8 <= s)%Q).

(** The table of the heuristic fallback for a known expiry: 0.95 up to 0
    days, 0.85 up to 90, 0.6 up to 120, and a small value in [0, 0.35]
    beyond. *)
Definition fallback_table (days : Z) (score : Q) : Prop :=
  if days <=? 0 then score = 0.95%Q
  else if days <=? 90 then score = 0.85%Q
  else if days <=? 120 then score = 0.6%Q
  else (0 <= score)%Q ∧ (score <= 0.35)%Q.

(** The value of the [data] of an appended alert, as a Python value. *)
Definition as_python_value (d : pyval) : json :=
  match d with PyNone => JNull | PyStr s => JStr s end.

(** "Field-equal": each field read back is the field appended. *)
Definition field_equal (a : Main.alert) (l : Main.loaded_alert) : Prop :=
  Main.l_id l = Main.a_id a
  ∧ Main.l_timestamp l = Main.a_timestamp a
  ∧ Main.l_level l = level_str (Main.a_level a)
  ∧ Main.l_manufacturer l = Main.a_manufacturer a
  ∧ Main.l_manufacturer_phone l = Main.a_manufacturer_phone a
  ∧ Main.l_message l = Main.a_message a
  ∧ Main.l_data l = as_python_value (Main.a_data a).

(** "An Alert appended to the store and then read back via listRecent is
    field-equal". *)
Definition roundtrip_as_stated (json_loads : string → option json)
    (a : Main.alert) (limit : Z) (w : Main.world) : Prop :=
  ∃ out l,
    Main.load_alerts json_loads limit (snd (Main.save_alert_to_db a w))
    = Returned out
    ∧ l ∈ out ∧ field_equal a l.

(** "The loop terminates when elapsed time >= duration, maxEvents reached,
    or cancellation observed", read on the worker of [stream_tests], which
    has no duration: when [runner] has returned, the bound on the tests was
    reached or one of the reads of the flag saw the stop. *)
Definition ends_only_by_max_or_stop (w0 : Sim.worker) (stops : nat → bool)
  : Prop :=
  ∀ n, Sim.w_pc (Sim.run_worker stops 0 n w0) = Sim.PcDone →
       Sim.max_reached (Sim.run_worker stops 0 n w0) = true
       ∨ ∃ k, (k < n)%nat ∧ stops k = true.

End Spec.

(** * Properties *)

(** ** Strings *)

Lemma append_assoc (a b c : string) : (a +:+ b) +:+ c = a +:+ (b +:+ c).
Proof.
  induction a as [|x a IH]; [done|].
  change (String x ((a +:+ b) +:+ c) = String x (a +:+ (b +:+ c))).
  by f_equal.
Qed.

Lemma mentions_intro (pre s post t : string) :
  t = pre +:+ s +:+ post → mentions s t.
Proof. intros ->. by exists pre, post. Qed.

(** ** Rationals *)

Lemma Qle_bool_false (x y : Q) : Qle_bool x y = false → (y < x)%Q.
Proof.
  intros E. apply Qnot_le_lt. intros H. apply Qle_bool_iff in H. congruence.
Qed.

Lemma Qle_lt_absurd (x y : Q) : (x <= y)%Q → (y < x)%Q → False.
Proof. intros H1 H2. exact (Qlt_not_le _ _ H2 H1). Qed.

(** ** The evaluator of main.py *)

Section EvaluatorFacts.

Variable fromisoformat pd_to_datetime : string → option Z.
Variable json_dumps : Main.result → string.

Abbreviation evaluate :=
  (Main.evaluate_and_handle_alert fromisoformat pd_to_datetime json_dumps).
Abbreviation days_of := (Main.days_of fromisoformat pd_to_datetime).
Abbreviation rule := (Main.rule fromisoformat pd_to_datetime).

(** The evaluator returns an alert exactly when a rule fires, at the level
    of the rule and with its reason in the message. *)
Lemma evaluate_rule catalog now uuid ts r w :
  match rule now r with
  | None => evaluate catalog now uuid ts r w = (Returned None, w)
  | Some (lvl, reason) =>
      ∃ a w', evaluate catalog now uuid ts r w = (Returned (Some a), w')
              ∧ Main.a_level a = lvl
              ∧ ∃ who, Main.a_message a
                       = level_str lvl +:+ ": " +:+ reason +:+ who
  end.
Proof.
  unfold Main.evaluate_and_handle_alert.
  destruct (rule now r) as [[lvl reason]|]; [|done].
  eexists _, _. split; [reflexivity|]. split; [done|]. simpl.
  eexists. reflexivity.
Qed.

(** The days the evaluator derives, from the full datetimes, are the days
    between the two dates or one less: an event whose own [days_to_expiry]
    is at most 90 is within the first expiry rule of the evaluator. *)
Lemma delta_days_bounds (ed now : Z) :
  Calendar.date_of ed - Calendar.date_of now - 1 ≤ Calendar.delta_days ed now
  ∧ Calendar.delta_days ed now ≤ Calendar.date_of ed - Calendar.date_of now.
Proof.
  unfold Calendar.delta_days, Calendar.date_of.
  assert (0 < Calendar.day_us) as HD by done.
  generalize dependent Calendar.day_us. intros D HD.
  pose proof (Z.div_mod ed D ltac:(lia)) as H1.
  pose proof (Z.mod_pos_bound ed D HD) as H2.
  pose proof (Z.div_mod now D ltac:(lia)) as H3.
  pose proof (Z.mod_pos_bound now D HD) as H4.
  pose proof (Z.div_mod (ed - now) D ltac:(lia)) as H5.
  pose proof (Z.mod_pos_bound (ed - now) D HD) as H6.
  split; nia.
Qed.

Lemma evaluator_days_of_event_days now r d_event :
  Main.parse_days_to_expiry fromisoformat (Calendar.date_of now)
    (Main.expiry_raw r) = Some d_event →
  ∃ d, days_of now r = Some d ∧ d_event - 1 ≤ d ∧ d ≤ d_event.
Proof.
  unfold Main.parse_days_to_expiry, Main.days_of.
  destruct (Main.expiry_raw r) as [|s]; [by destruct (truthy _)|].
  destruct (truthy (PyStr s)); [|done].
  destruct (fromisoformat s) as [ed|]; [|done]. simpl.
  intros [= <-]. eexists. split; [reflexivity|]. apply delta_days_bounds.
Qed.

(** C1: an event whose days to expiry are known and at most 90 gets a
    CRITICAL alert whose message mentions the expiry within 3 months,
    whatever its score and prediction; from 91 to 120 days it gets a
    WARNING alert (expiry within 4 months). *)
Theorem C1_expiry_rules_first catalog now uuid ts r w d :
  days_of now r = Some d →
  d ≤ 120 →
  ∃ a w', evaluate catalog now uuid ts r w = (Returned (Some a), w')
          ∧ Main.a_level a = (if d <=? 90 then CRITICAL else WARNING)
          ∧ mentions (if d <=? 90 then "Expiry within 3 months"
                      else "Expiry within 4 months") (Main.a_message a).
Proof.
  intros Hd Hle. pose proof (evaluate_rule catalog now uuid ts r w) as Hev.
  unfold Main.rule in Hev. rewrite Hd in Hev. unfold Main.expiry_rule in Hev.
  destruct (d <=? 90) eqn:E.
  - destruct Hev as (a & w' & -> & Hl & who & Hm).
    exists a, w'. repeat split; [done|].
    apply (mentions_intro (level_str CRITICAL +:+ ": ") _
             (" (days_to_expiry=" +:+ (pretty d) +:+ ")" +:+ who)).
    rewrite Hm.
    change "Expiry within 3 months (days_to_expiry="
      with ("Expiry within 3 months" +:+ " (days_to_expiry=").
    by rewrite !append_assoc.
  - assert ((d <=? 120) = true) as E' by lia. rewrite E' in Hev.
    destruct Hev as (a & w' & -> & Hl & who & Hm).
    exists a, w'. repeat split; [done|].
    apply (mentions_intro (level_str WARNING +:+ ": ") _
             (" (days_to_expiry=" +:+ (pretty d) +:+ ")" +:+ who)).
    rewrite Hm.
    change "Expiry within 4 months (days_to_expiry="
      with ("Expiry within 4 months" +:+ " (days_to_expiry=").
    by rewrite !append_assoc.
Qed.

(** The level of the score rules, read back as bounds on the score. *)
Lemma score_rule_level score pred :
  match Main.score_rule score pred with
  | Some (CRITICAL, _) => pred = 1 ∨ (0.8 <= score)%Q
  | Some (WARNING, _) => pred ≠ 1 ∧ (0.5 <= score)%Q ∧ (score < 0.8)%Q
  | None => pred ≠ 1 ∧ (score < 0.5)%Q
  end.
Proof.
  unfold Main.score_rule, Main.AUTO_ALERT_THRESHOLD, Main.WARN_THRESHOLD.
  destruct (pred =? 1) eqn:Ep; simpl; [left; lia|].
  destruct (Qle_bool 0.8 score) eqn:E8; simpl.
  - right. by apply Qle_bool_iff.
  - apply Qle_bool_false in E8.
    destruct (Qle_bool 0.5 score) eqn:E5.
    + split; [lia|]. split; [by apply Qle_bool_iff | done].
    + split; [lia|]. by apply Qle_bool_false.
Qed.

(** C2: for an event without a parseable expiry the evaluator returns
    CRITICAL iff the prediction is set or the score is at least 0.8,
    WARNING iff the score is in [0.5, 0.8) and the prediction is not set,
    and no alert iff the score is below 0.5 and the prediction is not
    set. *)
Theorem C2_score_rules_without_expiry catalog now uuid ts r w :
  days_of now r = None →
  let score := default 0.0%Q (Main.r_fake_score r) in
  let pred := default 0 (Main.r_predicted_fake r) in
  let res := fst (evaluate catalog now uuid ts r w) in
  ((∃ a, res = Returned (Some a) ∧ Main.a_level a = CRITICAL)
     ↔ (pred = 1 ∨ (0.8 <= score)%Q))
  ∧ ((∃ a, res = Returned (Some a) ∧ Main.a_level a = WARNING)
     ↔ ((0.5 <= score)%Q ∧ (score < 0.8)%Q ∧ pred ≠ 1))
  ∧ (res = Returned None ↔ ((score < 0.5)%Q ∧ pred ≠ 1)).
Proof.
  intros Hd score pred res.
  pose proof (evaluate_rule catalog now uuid ts r w) as Hev.
  pose proof (score_rule_level score pred) as Hs.
  unfold Main.rule in Hev. rewrite Hd in Hev. simpl in Hev.
  fold score pred in Hev.
  assert (0.5 <= 0.8)%Q as H58 by (by apply Qle_bool_iff).
  destruct (Main.score_rule score pred) as [[[|] reason]|].
  - destruct Hev as (a & w' & Hev & Hl & _).
    assert (res = Returned (Some a)) as Hres by (subst res; by rewrite Hev).
    destruct Hs as (Hp & H5 & H8).
    split; [|split].
    + split; [intros (a' & Ha' & Hl'); congruence|].
      intros [?|H]; [done | destruct (Qle_lt_absurd _ _ H H8)].
    + split; [done | intros _; by exists a].
    + split; [intros; congruence|].
      intros [H _]. destruct (Qle_lt_absurd _ _ H5 H).
  - destruct Hev as (a & w' & Hev & Hl & _).
    assert (res = Returned (Some a)) as Hres by (subst res; by rewrite Hev).
    split; [|split].
    + split; [done | intros _; by exists a].
    + split; [intros (a' & Ha' & Hl'); congruence|].
      intros (H5 & H8 & Hp). destruct Hs as [?|H]; [done|].
      destruct (Qle_lt_absurd _ _ H H8).
    + split; [intros; congruence|]. intros [H Hp].
      destruct Hs as [?|H8]; [done|].
      destruct (Qle_lt_absurd _ _ (Qle_trans _ _ _ H58 H8) H).
  - assert (res = Returned None) as Hres by (subst res; by rewrite Hev).
    destruct Hs as [Hp H5].
    split; [|split].
    + split; [intros (a' & Ha' & Hl'); congruence|].
      intros [?|H]; [done|].
      destruct (Qle_lt_absurd _ _ (Qle_trans _ _ _ H58 H) H5).
    + split; [intros (a' & Ha' & Hl'); congruence|].
      intros (H & _ & _). destruct (Qle_lt_absurd _ _ H H5).
    + done.
Qed.

(** C5: when a rule fires, the evaluator returns the alert whatever the
    store and the sockets do.  The alert reaches every socket whose send
    works, unless serialising the message fails, whether or not the store
    took it; and the store takes it, unless the store itself fails, whether
    or not the broadcast worked. *)
Theorem C5_store_and_broadcast_best_effort catalog now uuid ts r w lvl reason :
  rule now r = Some (lvl, reason) →
  ∃ a w',
    evaluate catalog now uuid ts r w = (Returned (Some a), w')
    ∧ Main.a_level a = lvl
    ∧ (Main.dumps_fails w = false →
       Main.sent w'
       = Main.sent w
         ++ map (λ ws, (ws, Main.AlertMsg a))
                (filter (λ ws, Main.send_fails w ws = false) (Main.active w)))
    ∧ (Main.db_fails w = false →
       Main.db w' = Sql.insert_or_replace (Main.row_of_alert a) (Main.db w))
    ∧ (Main.db_fails w = true → Main.db w' = Main.db w)
    ∧ (Main.dumps_fails w = true → Main.sent w' = Main.sent w).
Proof.
  intros Hr. unfold Main.evaluate_and_handle_alert. rewrite Hr.
  eexists _, _. split; [reflexivity|]. split; [done|].
  unfold Main.save_alert_to_db, Main.broadcast.
  destruct w as [t act snt dbf df sf]; simpl.
  destruct dbf, df; simpl; repeat split; intros; try done.
Qed.

End EvaluatorFacts.

(** The rule fires on an event thirty days from expiry. *)
Lemma C1_witness :
  Main.days_of Calendar.fromisoformat_date Examples.no_pandas
    Examples.now_2026 Examples.result_30_days = Some 30
  ∧ 30 ≤ 120
  ∧ ∃ a w',
      Main.evaluate_and_handle_alert Calendar.fromisoformat_date
        Examples.no_pandas Examples.json_dumps_empty None Examples.now_2026
        "id-1" 1.0 Examples.result_30_days Examples.world_up
      = (Returned (Some a), w')
      ∧ Main.a_level a = CRITICAL
      ∧ mentions "Expiry within 3 months" (Main.a_message a).
Proof.
  split; [reflexivity|]. split; [lia|].
  apply (C1_expiry_rules_first Calendar.fromisoformat_date Examples.no_pandas
           Examples.json_dumps_empty None Examples.now_2026 "id-1" 1.0
           Examples.result_30_days Examples.world_up 30);
    [reflexivity | lia].
Defined.

(** An event without expiry and with a score of 0.9 is CRITICAL. *)
Lemma C2_witness :
  Main.days_of Calendar.fromisoformat_date Examples.no_pandas
    Examples.now_2026 Examples.result_no_expiry = None
  ∧ ∃ a,
      fst (Main.evaluate_and_handle_alert Calendar.fromisoformat_date
             Examples.no_pandas Examples.json_dumps_empty None
             Examples.now_2026 "id-2" 2.0 Examples.result_no_expiry
             Examples.world_up)
      = Returned (Some a)
      ∧ Main.a_level a = CRITICAL.
Proof.
  split; [reflexivity|].
  apply (C2_score_rules_without_expiry Calendar.fromisoformat_date
           Examples.no_pandas Examples.json_dumps_empty None
           Examples.now_2026 "id-2" 2.0 Examples.result_no_expiry
           Examples.world_up); [reflexivity|].
  left. reflexivity.
Defined.

(** With the store down, the alert is still returned and still sent to the
    socket that works. *)
Lemma C5_witness :
  Main.rule Calendar.fromisoformat_date Examples.no_pandas Examples.now_2026
    Examples.result_no_expiry
  = Some (CRITICAL, "ML anomaly (score=0.900)")
  ∧ ∃ a w',
      Main.evaluate_and_handle_alert Calendar.fromisoformat_date
        Examples.no_pandas Examples.json_dumps_empty None Examples.now_2026
        "id-3" 3.0 Examples.result_no_expiry Examples.world_db_down
      = (Returned (Some a), w')
      ∧ Main.sent w' = [(0%nat, Main.AlertMsg a)]
      ∧ Main.db w' = [].
Proof.
  split; [reflexivity|].
  destruct (C5_store_and_broadcast_best_effort Calendar.fromisoformat_date
              Examples.no_pandas Examples.json_dumps_empty None
              Examples.now_2026 "id-3" 3.0 Examples.result_no_expiry
              Examples.world_db_down CRITICAL "ML anomaly (score=0.900)")
    as (a & w' & Hev & _ & Hsent & _ & Hdb & _); [reflexivity|].
  exists a, w'. split; [exact Hev|]. split.
  - rewrite Hsent; reflexivity.
  - rewrite Hdb; reflexivity.
Defined.

(** ** Scores

    Rounding to the nearest integer does not cross an integer bound. *)
Lemma round_half_even_lower (q : Q) (k : Z) :
  (inject_Z k <= q)%Q → k ≤ PyNum.round_half_even q.
Proof.
  destruct q as [n d]. unfold Qle, PyNum.round_half_even. simpl.
  intros H.
  pose proof (Z.div_mod n (Z.pos d) ltac:(lia)) as Hdm.
  pose proof (Z.mod_pos_bound n (Z.pos d) ltac:(lia)) as Hm.
  assert (k ≤ n / Z.pos d) by (apply Z.div_le_lower_bound; lia).
  repeat case_match; lia.
Qed.

Lemma round_half_even_upper (q : Q) (k : Z) :
  (q <= inject_Z k)%Q → PyNum.round_half_even q ≤ k.
Proof.
  destruct q as [n d]. unfold Qle, PyNum.round_half_even. simpl.
  intros H.
  pose proof (Z.div_mod n (Z.pos d) ltac:(lia)) as Hdm.
  pose proof (Z.mod_pos_bound n (Z.pos d) ltac:(lia)) as Hm.
  assert (n / Z.pos d ≤ k) by (apply Z.div_le_upper_bound; lia).
  generalize dependent (n mod Z.pos d). generalize dependent (n / Z.pos d).
  intros fl Hfl m Hdm Hm.
  destruct (decide (fl = k)) as [Hk|Hne].
  - assert (m = 0) by (subst fl; lia).
    repeat case_match; lia.
  - repeat case_match; lia.
Qed.

(** Rounding to three digits keeps a value between 0 and a bound with
    three digits. *)
Lemma py_round_3_bounds (q : Q) (k : Z) :
  (0 <= q)%Q → (q <= k # 1000)%Q →
  (0 <= PyNum.py_round q 3)%Q ∧ (PyNum.py_round q 3 <= k # 1000)%Q.
Proof.
  intros H0 H1. unfold PyNum.py_round.
  change (10 ^ Z.of_nat 3) with 1000. change (Z.to_pos 1000) with 1000%positive.
  assert (0 ≤ PyNum.round_half_even (q * inject_Z 1000)).
  { apply round_half_even_lower. destruct q as [n d].
    unfold Qle in *. simpl in *. lia. }
  assert (PyNum.round_half_even (q * inject_Z 1000) ≤ k).
  { apply round_half_even_upper. destruct q as [n d].
    unfold Qle in *. simpl in *. lia. }
  unfold Qle. simpl. lia.
Qed.

(** [random.uniform(0, b)] lies in [0, b]. *)
Lemma uniform_bounds (u b : Q) :
  (0 <= u)%Q → (u <= 1)%Q → (0 <= b)%Q →
  (0 <= PyNum.uniform u 0.0 b)%Q ∧ (PyNum.uniform u 0.0 b <= b)%Q.
Proof.
  intros. unfold PyNum.uniform. split; nra.
Qed.

(** [np.clip] lands between its bounds. *)
Lemma clip_bounds (q lo hi : Q) :
  (lo <= hi)%Q → (lo <= PyNum.clip q lo hi)%Q ∧ (PyNum.clip q lo hi <= hi)%Q.
Proof.
  intros H. unfold PyNum.clip.
  destruct (Qle_bool q lo) eqn:E1; [split; [apply Qle_refl | done]|].
  destruct (Qle_bool hi q) eqn:E2; [split; [done | apply Qle_refl]|].
  apply Qle_bool_false in E1, E2. split; by apply Qlt_le_weak.
Qed.

(** The flag [1 if s >= t else 0]. *)
Lemma threshold_flag (t s : Q) :
  (if Qle_bool t s then 1 else 0) = 1 ↔ (t <= s)%Q.
Proof.
  destruct (Qle_bool t s) eqn:E.
  - split; [intros _; by apply Qle_bool_iff | done].
  - split; [done|]. intros H. apply Qle_bool_iff in H. congruence.
Qed.

(** With a classifier that gives 0.75, the simulated test yields an event
    whose prediction is set although its score is below 0.8. *)
Lemma C3_counterexample :
  ¬ Spec.predicted_iff_score_at_least_08
      (Sim.simulate_hardware_test Examples.exp_series Examples.no_pandas_text
         Examples.str_of_us Examples.sim_classifier "2025-11-25T00:00:00Z"
         Examples.calm_draws Examples.row_30_days).
Proof.
  intros H.
  specialize (H (PyNum.py_round 0.75 4) 1 eq_refl eq_refl).
  destruct H as [H _]. specialize (H eq_refl).
  apply Qle_bool_iff in H. vm_compute in H. discriminate.
Qed.

(** C3, as the code has it: in the stream task and in the predict endpoint
    of main.py the prediction is set exactly when the score is at least
    0.8; in the simulated test of simulator.py it is set exactly when the
    score, before it is rounded to four digits for the event, is at least
    0.7.  An ERROR event carries neither. *)
Theorem C3_predicted_fake_thresholds :
  (∀ fromisoformat pd_to_datetime json_dumps isoformat catalog sample now
     uuid ts d w,
     let p := fst (Main.stream_tick fromisoformat pd_to_datetime json_dumps
                     isoformat catalog sample now uuid ts d w) in
     Main.p_predicted_fake p = 1 ↔ (0.8 <= Main.p_fake_score p)%Q)
  ∧ (∀ fromisoformat pd_to_datetime json_dumps catalog m e b now uuid ts u w,
       let pr := fst (Main.predict fromisoformat pd_to_datetime json_dumps
                        catalog m e b now uuid ts u w) in
       Main.pr_predicted_fake pr = 1 ↔ (0.8 <= Main.pr_fake_score pr)%Q)
  ∧ (∀ np_exp pd_to_datetime str_of_datetime sim utcnow d row,
       let e := Sim.simulate_hardware_test np_exp pd_to_datetime
                  str_of_datetime sim utcnow d row in
       let score := Sim._ml_score np_exp pd_to_datetime sim (Sim.s_expiry row)
                      (Sim.s_manufacturer row) (Sim.g_score d) in
       match Sim.e_status e with
       | Sim.OK =>
           Sim.e_fake_score e = Some (PyNum.py_round score 4)
           ∧ ∃ p, Sim.e_predicted_fake e = Some p
                  ∧ (p = 1 ↔ (0.7 <= score)%Q)
       | Sim.ERROR =>
           Sim.e_fake_score e = None ∧ Sim.e_predicted_fake e = None
       end).
Proof.
  split; [|split].
  - intros. subst p. unfold Main.stream_tick, Main.score_payload. simpl.
    apply threshold_flag.
  - intros. subst pr. unfold Main.predict. simpl. apply threshold_flag.
  - intros. subst e score. unfold Sim.simulate_hardware_test.
    destruct (Sim.hardware_latency sim) as [min_l max_l].
    destruct (negb (Qle_bool 0.01 (Sim.u_failure d))); simpl; [done|].
    split; [done|]. eexists. split; [reflexivity|]. apply threshold_flag.
Qed.

(** Without a model, the scorer of the simulator gives 0.02 to a row thirty
    days from expiry when the noise drawn is 0.02: not the 0.85 of the
    table. *)
Lemma C6_counterexample :
  Sim.model_bundle Examples.sim_no_model = None
  ∧ Sim.days_to Examples.no_pandas_text Examples.sim_no_model
      (Sim.s_expiry Examples.row_30_days) = Some 30
  ∧ ¬ Spec.fallback_table 30
        (Sim._ml_score Examples.exp_series Examples.no_pandas_text
           Examples.sim_no_model (Sim.s_expiry Examples.row_30_days)
           (Sim.s_manufacturer Examples.row_30_days)
           (Sim.g_score Examples.calm_draws)).
Proof.
  split; [reflexivity|]. split; [reflexivity|].
  unfold Spec.fallback_table. simpl. vm_compute. discriminate.
Qed.

(** C6, as the code has it: the heuristic of main.py, which consults no
    model, follows the table (0.95, 0.85, 0.6, a value in [0, 0.35]; a
    value in [0, 0.25] without expiry); the scorer of the simulator, when
    its model is absent or gives no answer, returns its own fallback score,
    a clipped sum that lies in [0, 1]. *)
Theorem C6_heuristic_fallbacks (u : Q) (days : option Z) :
  (0 <= u)%Q → (u <= 1)%Q →
  match days with
  | Some d => Spec.fallback_table d (Main.heuristic_fake_score u days)
  | None => (0 <= Main.heuristic_fake_score u days)%Q
            ∧ (Main.heuristic_fake_score u days <= 0.25)%Q
  end
  ∧ ∀ np_exp pd_to_datetime sim expiry manufacturer g,
      (Sim.model_bundle sim = None
       ∨ ∃ b, Sim.model_bundle sim = Some b
              ∧ Sim.model_score np_exp pd_to_datetime sim b expiry manufacturer
                = None) →
      Sim._ml_score np_exp pd_to_datetime sim expiry manufacturer g
      = Sim.fallback_score np_exp pd_to_datetime sim expiry manufacturer g
      ∧ (0 <= Sim.fallback_score np_exp pd_to_datetime sim expiry
                manufacturer g)%Q
      ∧ (Sim.fallback_score np_exp pd_to_datetime sim expiry manufacturer g
         <= 1)%Q.
Proof.
  intros H0 H1. split.
  - destruct days as [d|]; simpl.
    + unfold Spec.fallback_table. repeat case_match; try done.
      destruct (uniform_bounds u 0.35 H0 H1 ltac:(done)) as [Ha Hb].
      destruct (py_round_3_bounds _ 350 Ha) as [Hc Hd]; [|split; [done|]].
      * eapply Qle_trans; [exact Hb | done].
      * eapply Qle_trans; [exact Hd | done].
    + destruct (uniform_bounds u 0.25 H0 H1 ltac:(done)) as [Ha Hb].
      destruct (py_round_3_bounds _ 250 Ha) as [Hc Hd]; [|split; [done|]].
      * eapply Qle_trans; [exact Hb | done].
      * eapply Qle_trans; [exact Hd | done].
  - intros np_exp pd sim expiry manufacturer g Hm. split.
    + unfold Sim._ml_score. destruct Hm as [->|(b & -> & ->)]; done.
    + unfold Sim.fallback_score.
      match goal with
      | |- context [PyNum.clip ?q ?lo ?hi] =>
          destruct (clip_bounds q lo hi ltac:(done)) as [Ha Hb]
      end.
      split.
      * eapply Qle_trans; [|exact Ha]. done.
      * eapply Qle_trans; [exact Hb|]. done.
Qed.

(** The heuristic at 30, 100 and -5 days. *)
Lemma C6_witness :
  (0 <= 0.5)%Q ∧ (0.5 <= 1)%Q
  ∧ Main.heuristic_fake_score 0.5 (Some 30) = 0.85%Q
  ∧ Main.heuristic_fake_score 0.5 (Some 100) = 0.6%Q
  ∧ Main.heuristic_fake_score 0.5 (Some (-5)) = 0.95%Q.
Proof.
  assert (0 <= 0.5)%Q as H0 by done. assert (0.5 <= 1)%Q as H1 by done.
  split; [done|]. split; [done|].
  split; [|split].
  - exact (proj1 (C6_heuristic_fallbacks 0.5 (Some 30) H0 H1)).
  - exact (proj1 (C6_heuristic_fallbacks 0.5 (Some 100) H0 H1)).
  - exact (proj1 (C6_heuristic_fallbacks 0.5 (Some (-5)) H0 H1)).
Defined.

(** C10: two runs of the simulated test that differ only in the draw of the
    flip give the same score, prediction, status, readings, duration,
    manufacturer and expiry; on an OK event the label differs when one
    draw flips and the other does not. *)
Theorem C10_flip_changes_label_only np_exp pd_to_datetime str_of_datetime
    sim utcnow d row u u' :
  let e := Sim.simulate_hardware_test np_exp pd_to_datetime str_of_datetime
             sim utcnow (Sim.with_flip u d) row in
  let e' := Sim.simulate_hardware_test np_exp pd_to_datetime str_of_datetime
              sim utcnow (Sim.with_flip u' d) row in
  Sim.e_fake_score e = Sim.e_fake_score e'
  ∧ Sim.e_predicted_fake e = Sim.e_predicted_fake e'
  ∧ Sim.e_status e = Sim.e_status e'
  ∧ Sim.e_raw_sensor e = Sim.e_raw_sensor e'
  ∧ Sim.e_duration e = Sim.e_duration e'
  ∧ Sim.e_manufacturer e = Sim.e_manufacturer e'
  ∧ Sim.e_expiry e = Sim.e_expiry e'
  ∧ match Sim.e_status e with
    | Sim.OK =>
        Qle_bool 0.01 u = false ∧ Qle_bool 0.01 u' = true
        → Sim.e_test_result e ≠ Sim.e_test_result e'
    | Sim.ERROR => Sim.e_test_result e = None
    end.
Proof.
  intros e e'. subst e e'. unfold Sim.simulate_hardware_test.
  destruct (Sim.hardware_latency sim) as [min_l max_l]. simpl.
  destruct (negb (Qle_bool 0.01 (Sim.u_failure d))); simpl;
    [repeat split; done|].
  repeat split; try done.
  intros [-> ->]. simpl.
  destruct (Qle_bool 0.7 _); simpl; done.
Qed.

(** ** The alert table

    Sorting keeps the rows. *)
Lemma elem_of_insert_desc (y r : Sql.row) (l : list Sql.row) :
  y ∈ Sql.insert_desc r l ↔ y = r ∨ y ∈ l.
Proof.
  induction l as [|x l IH]; simpl.
  - rewrite list_elem_of_singleton, elem_of_nil. tauto.
  - destruct (Qle_bool _ _).
    + rewrite !elem_of_cons, IH. tauto.
    + rewrite !elem_of_cons. tauto.
Qed.

Lemma length_insert_desc (r : Sql.row) (l : list Sql.row) :
  length (Sql.insert_desc r l) = S (length l).
Proof.
  induction l as [|x l IH]; simpl; [done|].
  destruct (Qle_bool _ _); simpl; [by rewrite IH | done].
Qed.

Lemma elem_of_order_by (y : Sql.row) (t : list Sql.row) :
  y ∈ Sql.order_by_timestamp_desc t ↔ y ∈ t.
Proof.
  unfold Sql.order_by_timestamp_desc.
  assert (∀ l, y ∈ foldr Sql.insert_desc [] l ↔ y ∈ l) as H.
  { induction l as [|x l IH]; simpl; [done|].
    rewrite elem_of_insert_desc, IH, elem_of_cons. tauto. }
  rewrite H. apply elem_of_reverse.
Qed.

Lemma length_order_by (t : list Sql.row) :
  length (Sql.order_by_timestamp_desc t) = length t.
Proof.
  unfold Sql.order_by_timestamp_desc.
  assert (∀ l, length (foldr Sql.insert_desc [] l) = length l) as H.
  { induction l as [|x l IH]; simpl; [done|].
    by rewrite length_insert_desc, IH. }
  rewrite H. apply length_reverse.
Qed.

(** The query returns rows of the table, and all of them when the limit
    is negative or large enough. *)
Lemma select_recent_subset (y : Sql.row) (limit : Z) (t : list Sql.row) :
  y ∈ Sql.select_recent limit t → y ∈ t.
Proof.
  unfold Sql.select_recent, Sql.sql_limit. intros H.
  apply elem_of_order_by. destruct (limit <? 0); [done|].
  by apply elem_of_take in H as (i & H & _); apply list_elem_of_lookup_2 in H.
Qed.

Lemma select_recent_all (limit : Z) (t : list Sql.row) :
  limit < 0 ∨ Z.of_nat (length t) ≤ limit →
  Sql.select_recent limit t = Sql.order_by_timestamp_desc t.
Proof.
  unfold Sql.select_recent, Sql.sql_limit. intros H.
  destruct (limit <? 0) eqn:E; [done|].
  apply take_ge. rewrite length_order_by. lia.
Qed.

(** After [INSERT OR REPLACE] the row inserted is in the table, and is the
    only one under its key. *)
Lemma insert_or_replace_key (r x : Sql.row) (t : list Sql.row) :
  r ∈ Sql.insert_or_replace x t → Sql.row_id r = Sql.row_id x → r = x.
Proof.
  unfold Sql.insert_or_replace. rewrite elem_of_app, list_elem_of_filter.
  rewrite list_elem_of_singleton. intros [[Hne _]|Heq] Hid; done.
Qed.

Lemma insert_or_replace_new (x : Sql.row) (t : list Sql.row) :
  x ∈ Sql.insert_or_replace x t.
Proof. unfold Sql.insert_or_replace. set_solver. Qed.

(** The alert whose data is the text of the empty object comes back with
    the empty object as its data, not with the text. *)
Lemma C9_counterexample :
  ¬ Spec.roundtrip_as_stated Examples.json_loads_atoms Examples.alert_demo 100
      Examples.world_up.
Proof.
  intros (out & l & Hload & Hin & Heq).
  vm_compute in Hload. injection Hload as <-.
  apply list_elem_of_singleton in Hin. subst l.
  destruct Heq as (_ & _ & _ & _ & _ & _ & Hdata). discriminate Hdata.
Qed.

(** C9, as the code has it: after an alert is appended to a working store,
    every alert that [load_alerts] returns under its id has the timestamp,
    level, manufacturer, phone and message that were appended, and its
    data is the appended text decoded ([None] for an empty text or
    [None]); and the alert is among those returned when the limit is
    negative or at least the number of rows and every stored text
    decodes. *)
Theorem C9_roundtrip_with_decoded_data json_loads a limit w :
  Main.db_fails w = false →
  let w' := snd (Main.save_alert_to_db a w) in
  (∀ out l,
     Main.load_alerts json_loads limit w' = Returned out →
     l ∈ out → Main.l_id l = Main.a_id a →
     Main.l_timestamp l = Main.a_timestamp a
     ∧ Main.l_level l = level_str (Main.a_level a)
     ∧ Main.l_manufacturer l = Main.a_manufacturer a
     ∧ Main.l_manufacturer_phone l = Main.a_manufacturer_phone a
     ∧ Main.l_message l = Main.a_message a
     ∧ Main.decode_data json_loads (Main.a_data a) = Some (Main.l_data l))
  ∧ (limit < 0 ∨ Z.of_nat (length (Main.db w')) ≤ limit →
     (∀ r, r ∈ Main.db w' →
           is_Some (Main.decode_data json_loads (Sql.row_data r))) →
     ∃ out l, Main.load_alerts json_loads limit w' = Returned out
              ∧ l ∈ out ∧ Main.l_id l = Main.a_id a).
Proof.
  intros Hdb w'.
  assert (Main.db w' = Sql.insert_or_replace (Main.row_of_alert a) (Main.db w)
          ∧ Main.db_fails w' = false) as [Ht Hf].
  { subst w'. unfold Main.save_alert_to_db. rewrite Hdb. by simpl. }
  split.
  - intros out l Hload Hin Hid. unfold Main.load_alerts in Hload.
    rewrite Hf in Hload.
    destruct (mapM _ _) as [k|] eqn:Hm; [|done]. injection Hload as ->.
    apply mapM_Some_1 in Hm.
    apply list_elem_of_lookup in Hin as [i Hi].
    destruct (Forall2_lookup_r _ _ _ _ _ Hm Hi) as (r & Hr & Hrow).
    apply list_elem_of_lookup_2, select_recent_subset in Hr.
    unfold Main.load_row in Hrow.
    destruct (Main.decode_data json_loads (Sql.row_data r)) as [j|] eqn:Hj;
      [|done].
    simpl in Hrow. injection Hrow as <-. simpl in *.
    rewrite Ht in Hr. apply insert_or_replace_key in Hr; [|done].
    subst r. simpl in *. done.
  - intros Hlim Hdec. unfold Main.load_alerts. rewrite Hf.
    rewrite select_recent_all by done.
    destruct (mapM_is_Some_2 (Main.load_row json_loads)
                (Sql.order_by_timestamp_desc (Main.db w'))) as [k Hk].
    { apply Forall_forall. intros r Hr. apply (proj1 (elem_of_order_by _ _)) in Hr.
      destruct (Hdec r Hr) as [j Hj]. unfold Main.load_row. simpl.
      rewrite Hj. by eexists. }
    rewrite Hk. apply mapM_Some_1 in Hk.
    assert (Main.row_of_alert a ∈ Sql.order_by_timestamp_desc (Main.db w'))
      as Hin.
    { apply elem_of_order_by. rewrite Ht. apply insert_or_replace_new. }
    apply list_elem_of_lookup in Hin as [i Hi].
    destruct (Forall2_lookup_l _ _ _ _ _ Hk Hi) as (l & Hl & Hrow).
    exists k, l. split; [done|]. split; [by eapply list_elem_of_lookup_2|].
    unfold Main.load_row in Hrow.
    destruct (Main.decode_data _ _); [|done]. simpl in Hrow.
    by injection Hrow as <-.
Qed.

(** The alert is read back from a store that held nothing else. *)
Lemma C9_witness :
  Main.db_fails Examples.world_up = false
  ∧ ∃ out l,
      Main.load_alerts Examples.json_loads_atoms 100
        (snd (Main.save_alert_to_db Examples.alert_demo Examples.world_up))
      = Returned out
      ∧ l ∈ out ∧ Main.l_id l = "a-1".
Proof.
  split; [reflexivity|].
  apply (proj2 (C9_roundtrip_with_decoded_data Examples.json_loads_atoms
                  Examples.alert_demo 100 Examples.world_up eq_refl)).
  - right. vm_compute. discriminate.
  - intros r Hr. vm_compute in Hr.
    apply list_elem_of_singleton in Hr. subst r. vm_compute. by eexists.
Defined.

Section StreamFacts.

Import Sim.

(** ** The stream worker and the registry *)

Lemma same_stream_refl w : same_stream w w.
Proof. by repeat split. Qed.

Lemma same_stream_trans w1 w2 w3 :
  same_stream w1 w2 → same_stream w2 w3 → same_stream w1 w3.
Proof.
  unfold same_stream. intros (?&?&?&?&?&?) (?&?&?&?&?&?).
  repeat split; congruence.
Qed.

Lemma worker_step_same_stream stop w : same_stream w (worker_step stop w).
Proof.
  unfold worker_step, same_stream.
  repeat case_match; simpl; repeat split; done.
Qed.

Lemma run_worker_same_stream stops n : ∀ k w,
  same_stream w (run_worker stops k n w).
Proof.
  induction n as [|n IH]; intros k w; simpl; [apply same_stream_refl|].
  eapply same_stream_trans; [apply worker_step_same_stream | apply IH].
Qed.

Lemma run_worker_add stops n1 n2 : ∀ k w,
  run_worker stops k (n1 + n2) w
  = run_worker stops (k + n1) n2 (run_worker stops k n1 w).
Proof.
  induction n1 as [|n1 IH]; intros k w; simpl.
  - by rewrite Nat.add_0_r.
  - rewrite IH. by rewrite Nat.add_succ_r.
Qed.

Lemma exited_stays stops n : ∀ k w,
  thread_exited w = true → run_worker stops k n w = w.
Proof.
  induction n as [|n IH]; intros k w H; simpl; [done|].
  assert (worker_step (stops k) w = w) as ->; [|by apply IH].
  unfold thread_exited in H. unfold worker_step.
  destruct (w_pc w); done.
Qed.

(** *** Sequence numbers *)

Lemma seqs_of_app out m :
  seqs_of (out ++ [m])
  = seqs_of out ++ match m with
                   | EventMsg e => [e_seq e]
                   | StreamEnded _ => []
                   end.
Proof. unfold seqs_of. rewrite omap_app. by destruct m. Qed.

(** A step calls the callback at most once. *)
Lemma worker_step_emits stop w :
  let w' := worker_step stop w in
  (w_out w' = w_out w ∧ w_count w' = w_count w)
  ∨ (∃ e, w_out w'
          = w_out w ++ [EventMsg (tag (w_stream_id w) (w_count w) e)]
          ∧ w_count w' = S (w_count w))
  ∨ (w_out w' = w_out w ++ [StreamEnded (w_stream_id w)]
     ∧ w_count w' = w_count w).
Proof. unfold worker_step. repeat case_match; simpl; eauto. Qed.

Lemma worker_step_out_ok stop w : out_ok w → out_ok (worker_step stop w).
Proof.
  unfold out_ok. intros [H1 H2].
  destruct (worker_step_same_stream stop w) as (-> & _).
  destruct (worker_step_emits stop w)
    as [[-> ->]|[(e0 & -> & ->)|[-> ->]]]; [done| |].
  - split; [by rewrite seqs_of_app, H1, seq_S, fmap_app|].
    intros e He. apply elem_of_app in He as [He|He]; [by apply H2|].
    apply list_elem_of_singleton in He. by injection He as ->.
  - split; [by rewrite seqs_of_app, H1, app_nil_r|].
    intros e He. apply elem_of_app in He as [He|He]; [by apply H2|].
    by apply list_elem_of_singleton in He.
Qed.

Lemma act_out_ok a sys :
  all_threads out_ok sys → all_threads out_ok (act a sys).
Proof.
  intros H th w. destruct a as [gen test interval run_id mx uuid|id|th'];
    simpl.
  - unfold stream_tests. simpl. intros Hw.
    apply lookup_app_Some in Hw as [Hw|[_ Hw]]; [by eapply H|].
    apply list_lookup_singleton_Some in Hw as [_ <-].
    split; [done|]. intros e He. simpl in He. by apply elem_of_nil in He.
  - unfold stop_stream. destruct (running_streams sys !! id); simpl; apply H.
  - unfold thread_step. destruct (threads sys !! th') as [w'|] eqn:E;
      simpl; [|apply H].
    intros Hw. destruct (decide (th = th')) as [->|Hne].
    + rewrite list_lookup_insert_eq in Hw
        by (by eapply lookup_lt_Some).
      injection Hw as <-. apply worker_step_out_ok. by eapply H.
    + rewrite list_lookup_insert_ne in Hw by done. by eapply H.
Qed.

Lemma run_out_ok schedule : ∀ sys,
  all_threads out_ok sys → all_threads out_ok (run schedule sys).
Proof.
  unfold run. induction schedule as [|a rest IH]; intros sys H; simpl;
    [done|].
  apply IH. by apply act_out_ok.
Qed.

(** An action that is not a step of thread [th] leaves it as it is. *)
Lemma act_other_thread a sys th w :
  threads sys !! th = Some w →
  (∀ th', a = Run th' → th' ≠ th) →
  threads (act a sys) !! th = Some w.
Proof.
  intros Hw Ha. destruct a as [gen test interval run_id mx uuid|id|th'];
    simpl.
  - unfold stream_tests. simpl. by apply lookup_app_l_Some.
  - unfold stop_stream. by destruct (running_streams sys !! id).
  - unfold thread_step. destruct (threads sys !! th') as [w'|]; [|done].
    simpl. rewrite list_lookup_insert_ne; [done|]. by apply Ha.
Qed.

(** C7: in every state the simulator can reach, whatever the interleaving,
    the events a thread has emitted carry the sequence numbers 0, 1, 2, ...
    in the order of their emission, without repeat or gap, up to its
    counter, and carry the identifier of its stream; the counter belongs to
    the thread: a start, a stop, or a step of another thread leaves the
    thread, its counter and its events as they are. *)
Theorem C7_sequence_numbers schedule th w :
  threads (run schedule initial) !! th = Some w →
  seqs_of (w_out w) = Some <$> seq 0 (w_count w)
  ∧ (∀ e, EventMsg e ∈ w_out w → e_stream_id e = Some (w_stream_id w))
  ∧ (∀ a, (∀ th', a = Run th' → th' ≠ th) →
          threads (act a (run schedule initial)) !! th = Some w).
Proof.
  intros Hw.
  destruct (run_out_ok schedule initial) with (th := th) (w := w)
    as [H1 H2]; [|exact Hw|].
  { intros th' w' H. simpl in H. by rewrite lookup_nil in H. }
  split; [done|]. split; [done|].
  intros a Ha. by apply act_other_thread.
Qed.

(** *** The registry *)

(** A thread returns by the step of its epilogue, and by no other. *)
Lemma worker_step_done stop w :
  w_pc (worker_step stop w) = PcDone
  ↔ w_pc w = PcEpilogue ∨ w_pc w = PcDone.
Proof.
  unfold worker_step.
  destruct (w_pc w) eqn:Epc; repeat case_match; simpl; rewrite ?Epc;
    (split; [intros Hx; try congruence; auto
            |intros [Hx|Hx]; congruence]).
Qed.

Lemma initial_registry_ok : registry_ok initial.
Proof.
  split.
  - intros id info H. simpl in H. by rewrite lookup_empty in H.
  - intros th w H. simpl in H. by rewrite lookup_nil in H.
Qed.

Lemma start_registry_ok gen test interval run_id mx uuid sys :
  registry_ok sys →
  running_streams sys !! py_str (py_or run_id (PyStr uuid)) = None →
  registry_ok (snd (stream_tests gen test interval run_id mx uuid sys)).
Proof.
  intros [I1 I2] Hfresh. unfold stream_tests. simpl.
  set (id := py_str (py_or run_id (PyStr uuid))) in *.
  split; simpl.
  - intros id' info Hreg. destruct (decide (id' = id)) as [->|Hne].
    + rewrite lookup_insert_eq in Hreg. injection Hreg as <-. simpl.
      eexists. split; [apply list_lookup_middle; done|].
      simpl. rewrite length_app. simpl. repeat split; [done|lia].
    + rewrite lookup_insert_ne in Hreg by done.
      destruct (I1 id' info Hreg) as (w & Hw & ? & ? & ? & ?).
      exists w. split; [by apply lookup_app_l_Some|].
      rewrite length_app. simpl. repeat split; [done..|lia].
  - intros th w Hw Hpc.
    apply lookup_app_Some in Hw as [Hw|[Hlen Hw]].
    + pose proof (I2 th w Hw Hpc) as Hreg.
      rewrite lookup_insert_ne; [done|]. intros E. rewrite <- E in Hreg.
      congruence.
    + apply list_lookup_singleton_Some in Hw as [Hth <-]. simpl.
      rewrite lookup_insert_eq. do 2 f_equal. lia.
Qed.

Lemma stop_registry_ok id sys :
  registry_ok sys → registry_ok (snd (stop_stream id sys)).
Proof.
  intros [I1 I2]. unfold stop_stream.
  destruct (running_streams sys !! id) as [info|]; simpl; [|by split].
  split; simpl; [|done].
  intros id' info' Hreg. destruct (I1 id' info' Hreg) as (w & ? & ? & ? & ? & ?).
  exists w. rewrite length_insert. done.
Qed.

Lemma step_registry_ok th sys :
  registry_ok sys → registry_ok (thread_step th sys).
Proof.
  intros [I1 I2]. unfold thread_step.
  destruct (threads sys !! th) as [w|] eqn:Hth; [|by split].
  set (w' := worker_step _ w).
  pose proof (worker_step_same_stream
                (default false (flags sys !! w_stop_flag w)) w)
    as (Hid & _ & _ & _ & _ & Hflag).
  fold w' in Hid, Hflag.
  pose proof (lookup_lt_Some _ _ _ Hth) as Hlt.
  destruct (decide (w_pc w = PcEpilogue)) as [Hep|Hep].
  - assert (w_pc w' = PcDone) as Hdone
      by (apply worker_step_done; by left).
    assert (w_pc w ≠ PcDone) as Hlive by congruence.
    pose proof (I2 th w Hth Hlive) as Hown.
    split; simpl.
    + intros id info Hreg.
      apply lookup_delete_Some in Hreg as [Hne Hreg].
      destruct (I1 id info Hreg) as (w0 & Hw0 & ? & ? & ? & ?).
      exists w0. split; [|done].
      rewrite list_lookup_insert_ne; [done|]. intros E.
      rewrite <- E, Hth in Hw0. injection Hw0 as <-. done.
    + intros th2 w2 Hw2 Hpc2. destruct (decide (th2 = th)) as [->|Hne].
      * rewrite list_lookup_insert_eq in Hw2 by done.
        injection Hw2 as <-. done.
      * rewrite list_lookup_insert_ne in Hw2 by done.
        pose proof (I2 th2 w2 Hw2 Hpc2) as Hreg.
        rewrite lookup_delete_ne; [done|]. intros E. rewrite E in Hown.
        rewrite Hown in Hreg. injection Hreg as ? _. done.
  - split; simpl.
    + intros id info Hreg.
      destruct (I1 id info Hreg) as (w0 & Hw0 & ? & ? & ? & ?).
      destruct (decide (i_thread info = th)) as [E|Hne].
      * rewrite E, Hth in Hw0. injection Hw0 as <-.
        exists w'. rewrite E, list_lookup_insert_eq by done.
        split; [done|]. repeat split; try congruence.
        intros Hd. apply worker_step_done in Hd as [?|?]; done.
      * exists w0. rewrite list_lookup_insert_ne by done. done.
    + intros th2 w2 Hw2 Hpc2. destruct (decide (th2 = th)) as [->|Hne].
      * rewrite list_lookup_insert_eq in Hw2 by done.
        injection Hw2 as <-. rewrite Hid, Hflag. apply I2; [done|].
        intros Hd. apply Hpc2. apply worker_step_done. by right.
      * rewrite list_lookup_insert_ne in Hw2 by done. by apply I2.
Qed.

Lemma run_registry_ok schedule : ∀ sys,
  registry_ok sys → ids_fresh schedule sys → registry_ok (run schedule sys).
Proof.
  unfold run. induction schedule as [|a rest IH]; intros sys Hok Hf; simpl;
    [done|].
  destruct Hf as [Hid Hf]. apply IH; [|done].
  destruct a as [gen test interval run_id mx uuid|id|th]; simpl in *.
  - by apply start_registry_ok.
  - by apply stop_registry_ok.
  - by apply step_registry_ok.
Qed.

(** C8: in a state reached by a schedule that starts no stream under an
    identifier still registered, [stop_stream] returns false exactly when
    every thread of that identifier has returned (none, for an unknown
    identifier), and then changes nothing; it returns true otherwise, and
    then sets the stop flag of a thread of that identifier that has not
    returned, and changes nothing else. *)
Theorem C8_stop_stream_result schedule stream_id :
  ids_fresh schedule initial →
  let sys := run schedule initial in
  let b := fst (stop_stream stream_id sys) in
  let sys' := snd (stop_stream stream_id sys) in
  (b = false
   ↔ ∀ th w, threads sys !! th = Some w → w_stream_id w = stream_id →
             w_pc w = PcDone)
  ∧ (b = false → sys' = sys)
  ∧ (b = true →
     ∃ th w, threads sys !! th = Some w ∧ w_stream_id w = stream_id
             ∧ w_pc w ≠ PcDone
             ∧ flags sys' !! w_stop_flag w = Some true
             ∧ threads sys' = threads sys
             ∧ running_streams sys' = running_streams sys).
Proof.
  intros Hf sys b sys'.
  destruct (run_registry_ok schedule initial initial_registry_ok Hf)
    as [I1 I2].
  fold sys in I1, I2. subst b sys'. unfold stop_stream.
  destruct (running_streams sys !! stream_id) as [info|] eqn:Hreg; simpl.
  - destruct (I1 _ _ Hreg) as (w & Hw & Hid & Hflag & Hpc & Hlt).
    split; [|split]; [|done|].
    + split; [done|]. intros H. destruct Hpc. by eapply H.
    + intros _. exists (i_thread info), w. repeat split; try done.
      rewrite Hflag. by apply list_lookup_insert_eq.
  - split; [|split]; [|done|done].
    split; [|done]. intros _ th w Hw Hid.
    destruct (decide (w_pc w = PcDone)) as [|Hpc]; [done|].
    pose proof (I2 th w Hw Hpc) as H. rewrite Hid in H. congruence.
Qed.

(** *** Termination of the worker *)

Lemma reaches_refl stops k w : reaches stops k w k w.
Proof. exists 0%nat. split; [lia | done]. Qed.

Lemma reaches_step stops k w :
  reaches stops k w (S k) (worker_step (stops k) w).
Proof. exists 1%nat. split; [lia | done]. Qed.

Lemma reaches_trans stops k1 w1 k2 w2 k3 w3 :
  reaches stops k1 w1 k2 w2 → reaches stops k2 w2 k3 w3 →
  reaches stops k1 w1 k3 w3.
Proof.
  intros (n1 & -> & H1) (n2 & -> & H2). exists (n1 + n2)%nat.
  split; [lia|]. by rewrite run_worker_add, H1.
Qed.

Lemma reaches_exited stops k w k' w' :
  reaches stops k w k' w' → thread_exited w' = true →
  ∃ n, thread_exited (run_worker stops k n w) = true.
Proof. intros (n & _ & <-) H. by exists n. Qed.

Lemma inject_Z_succ (N : nat) :
  (inject_Z (Z.of_nat (S N)) == inject_Z (Z.of_nat N) + 1)%Q.
Proof.
  rewrite Nat2Z.inj_succ. unfold Z.succ. rewrite inject_Z_plus. reflexivity.
Qed.

(** The sleep ends: each quantum brings [slept] closer to [interval]. *)
Lemma sleep_exits_within (N : nat) : ∀ stops k w,
  w_pc w = PcSleep →
  (w_interval w - w_slept w <= inject_Z (Z.of_nat N) * 0.1)%Q →
  ∃ k' w', reaches stops k w k' w' ∧ w_pc w' = PcAfterSleep
           ∧ same_tick w w'.
Proof.
  induction N as [|N IH]; intros stops k w Hpc Hle.
  - exists (S k), (worker_step (stops k) w).
    split; [apply reaches_step|].
    unfold worker_step. rewrite Hpc.
    assert (Qle_bool (w_interval w) (w_slept w) = true) as ->.
    { apply Qle_bool_iff. change (inject_Z (Z.of_nat 0)) with 0%Q in Hle. lra. }
    simpl. by repeat split.
  - destruct (Qle_bool (w_interval w) (w_slept w)) eqn:E.
    { exists (S k), (worker_step (stops k) w).
      split; [apply reaches_step|].
      unfold worker_step. rewrite Hpc, E. simpl. by repeat split. }
    destruct (stops k) eqn:Hs.
    { exists (S k), (worker_step (stops k) w).
      split; [apply reaches_step|].
      unfold worker_step. rewrite Hpc, E, Hs. simpl. by repeat split. }
    destruct (IH stops (S k) (sleep_quantum w)) as (k' & w' & Hr & Hpc' & Ht).
    { done. }
    { simpl. rewrite inject_Z_succ in Hle.
      generalize dependent (inject_Z (Z.of_nat N)). intros x _ Hle. lra. }
    exists k', w'. split; [|split; [done|]].
    + eapply reaches_trans; [apply reaches_step|].
      unfold worker_step. by rewrite Hpc, E, Hs.
    + destruct Ht as (Hs' & ? & ? & ?). repeat split; try done; apply Hs'.
Qed.

Lemma sleep_exits stops k w :
  w_pc w = PcSleep →
  ∃ k' w', reaches stops k w k' w' ∧ w_pc w' = PcAfterSleep
           ∧ same_tick w w'.
Proof.
  intros Hpc.
  set (r := ((w_interval w - w_slept w) * 10)%Q).
  apply (sleep_exits_within (Z.to_nat (Qceiling r))); [done|].
  pose proof (Qle_ceiling r) as Hc.
  assert (inject_Z (Qceiling r) <= inject_Z (Z.of_nat (Z.to_nat (Qceiling r))))%Q
    as Hn by (rewrite <- Zle_Qle; lia).
  subst r. generalize dependent (inject_Z (Z.of_nat (Z.to_nat (Qceiling
    ((w_interval w - w_slept w) * 10))))).
  generalize dependent (inject_Z (Qceiling ((w_interval w - w_slept w) * 10))).
  intros x Hx y Hy. lra.
Qed.

Lemma epilogue_exits stops k w :
  w_pc w = PcEpilogue →
  ∃ k' w', reaches stops k w k' w' ∧ thread_exited w' = true.
Proof.
  intros Hpc. exists (S k), (worker_step (stops k) w).
  split; [apply reaches_step|]. unfold worker_step. by rewrite Hpc.
Qed.

(** One tick: from the head of the loop the thread exits, or comes back
    to the head with one more item taken and one more event counted. *)
Lemma tick_progress stops k w :
  w_pc w = PcFor →
  ∃ k' w', reaches stops k w k' w'
           ∧ (thread_exited w' = true
              ∨ (w_pc w' = PcFor ∧ same_stream w w'
                 ∧ w_pos w' = S (w_pos w) ∧ w_count w' = S (w_count w)
                 ∧ max_reached w' = false)).
Proof.
  intros Hpc.
  pose proof (reaches_step stops k w) as H1.
  set (w1 := worker_step (stops k) w) in *.
  assert (thread_exited w1 = true ∨ w_pc w1 = PcEpilogue
          ∨ (w_pc w1 = PcSleep ∧ same_stream w w1
             ∧ w_pos w1 = S (w_pos w) ∧ w_count w1 = S (w_count w)
             ∧ max_reached w1 = false)) as Hcase.
  { subst w1. unfold worker_step. rewrite Hpc.
    destruct (w_gen w (w_pos w)); [|by right; left|by left].
    destruct (stops k); [by right; left|].
    destruct (max_reached _) eqn:Hmax; [by right; left|].
    right; right. simpl. by repeat split. }
  destruct Hcase as [Hex|[Hep|(Hsl & Hs1 & Hp1 & Hc1 & Hm1)]].
  - by exists (S k), w1; split; [|left].
  - destruct (epilogue_exits stops (S k) w1 Hep) as (k' & w' & Hr & Hex).
    exists k', w'. split; [by eapply reaches_trans|by left].
  - destruct (sleep_exits stops (S k) w1 Hsl)
      as (k2 & w2 & Hr2 & Hpc2 & Hs2 & Hp2 & Hc2 & _).
    pose proof (reaches_step stops k2 w2) as H3.
    set (w3 := worker_step (stops k2) w2) in *.
    assert (w_pc w3 = PcEpilogue
            ∨ (w_pc w3 = PcFor ∧ same_tick w2 w3)) as Hcase.
    { subst w3. unfold worker_step. rewrite Hpc2.
      destruct (stops k2); [by left|]. right. by repeat split. }
    destruct Hcase as [Hep|(Hfor & Hs3 & Hp3 & Hc3 & _)].
    + destruct (epilogue_exits stops (S k2) w3 Hep) as (k' & w' & Hr & Hex).
      exists k', w'. split; [|by left].
      eapply reaches_trans; [exact H1|].
      eapply reaches_trans; [exact Hr2|].
      by eapply reaches_trans.
    + exists (S k2), w3. split.
      { eapply reaches_trans; [exact H1|]. by eapply reaches_trans. }
      right. split; [done|]. split.
      { eapply same_stream_trans; [exact Hs1|].
        by eapply same_stream_trans. }
      split; [congruence|]. split; [congruence|].
      unfold max_reached in *. destruct Hs3 as (_&_&_&_&->&_).
      destruct Hs2 as (_&_&_&_&->&_). by rewrite Hc3, Hc2.
Qed.

(** With a bound on the number of tests the thread exits, whatever it reads
    from the flag. *)
Lemma exits_with_max_tests (R : nat) : ∀ stops k w m,
  w_pc w = PcFor → w_max_tests w = Some m →
  m - Z.of_nat (w_count w) ≤ Z.of_nat R →
  ∃ n, thread_exited (run_worker stops k n w) = true.
Proof.
  induction R as [|R IH]; intros stops k w m Hpc Hm Hle;
    destruct (tick_progress stops k w Hpc)
      as (k' & w' & Hr & [Hex|(Hpc' & Hs & _ & Hc & Hmax)]);
    try (by eapply reaches_exited).
  - unfold max_reached in Hmax. destruct Hs as (_&_&_&_&Hm'&_).
    rewrite Hm', Hm in Hmax. lia.
  - unfold max_reached in Hmax. destruct Hs as (_&_&_&_&Hm'&_).
    rewrite Hm', Hm in Hmax.
    destruct (IH stops k' w' m Hpc') as [n Hn]; [congruence|lia|].
    destruct Hr as (n0 & -> & <-). exists (n0 + n)%nat.
    by rewrite run_worker_add.
Qed.

(** With a selector that is exhausted after [L] items the thread exits. *)
Lemma exits_with_finite_selector (R : nat) : ∀ stops k w L,
  w_pc w = PcFor → (∀ p, (L ≤ p)%nat → w_gen w p = StopIteration) →
  (L - w_pos w ≤ R)%nat →
  ∃ n, thread_exited (run_worker stops k n w) = true.
Proof.
  induction R as [|R IH]; intros stops k w L Hpc Hgen Hle.
  - exists 2%nat. simpl. unfold worker_step at 2. rewrite Hpc, Hgen by lia.
    unfold worker_step. done.
  - destruct (tick_progress stops k w Hpc)
      as (k' & w' & Hr & [Hex|(Hpc' & Hs & Hp & _)]);
      [by eapply reaches_exited|].
    destruct (IH stops k' w' L Hpc') as [n Hn].
    { destruct Hs as (_&->&_). done. }
    { lia. }
    destruct Hr as (n0 & -> & <-). exists (n0 + n)%nat.
    by rewrite run_worker_add.
Qed.

(** Once every read of the flag sees the stop, four steps end the thread:
    the steps that remain are those of the sleep, of the test after it and
    of the epilogue. *)
Lemma stopped_step_decreases w :
  (steps_left_when_stopped (worker_step true w)
   ≤ pred (steps_left_when_stopped w))%nat.
Proof.
  unfold steps_left_when_stopped, worker_step.
  destruct (w_pc w) eqn:E; repeat case_match; simpl in *; lia || congruence.
Qed.

Lemma exits_when_stopped stops k w :
  (∀ j, (k ≤ j)%nat → stops j = true) →
  thread_exited (run_worker stops k 4 w) = true.
Proof.
  intros Hs. simpl. rewrite !Hs by lia.
  set (w1 := worker_step true w).
  set (w2 := worker_step true w1).
  set (w3 := worker_step true w2).
  set (w4 := worker_step true w3).
  pose proof (stopped_step_decreases w) as H1.
  pose proof (stopped_step_decreases w1) as H2.
  pose proof (stopped_step_decreases w2) as H3.
  pose proof (stopped_step_decreases w3) as H4.
  fold w1 in H1. fold w2 in H2. fold w3 in H3. fold w4 in H4.
  assert (steps_left_when_stopped w ≤ 3)%nat as H0
    by (unfold steps_left_when_stopped; destruct (w_pc w); lia).
  assert (steps_left_when_stopped w4 = 0)%nat as Hz by lia.
  unfold steps_left_when_stopped in Hz. unfold thread_exited.
  destruct (w_pc w4); done.
Qed.

(** The thread returns only for one of three reasons: the selector is
    exhausted, the bound was reached, or a read of the flag saw the stop. *)
Lemma step_exit_explained stops k w :
  exit_explained stops k w →
  exit_explained stops (S k) (worker_step (stops k) w).
Proof.
  unfold exit_explained, exit_reason, worker_step. intros H.
  destruct (w_pc w) eqn:Hpc; simpl.
  - destruct (w_gen w (w_pos w)) eqn:Hg; simpl.
    + destruct (stops k) eqn:Hs; simpl.
      * intros _. right; right. exists k. split; [lia|done].
      * destruct (max_reached (next_tick _)) eqn:Hm; simpl;
          [intros _; right; left; exact Hm|].
        intros [?|?]; done.
    + intros _. by left.
    + intros [?|?]; done.
  - destruct (negb _); [destruct (stops k)|]; simpl;
      rewrite ?Hpc; intros [?|?]; done.
  - destruct (stops k) eqn:Hs; simpl.
    + intros _. right; right. exists k. split; [lia|done].
    + intros [?|?]; done.
  - intros _. destruct H as [?|[?|(j & ? & ?)]]; [by left|by left|by right; left|].
    right; right. exists j. split; [lia|done].
  - rewrite Hpc. intros _.
    destruct H as [?|[?|(j & ? & ?)]]; [by right|by left|by right; left|].
    right; right. exists j. split; [lia|done].
  - rewrite Hpc. intros [?|?]; done.
Qed.

Lemma run_exit_explained stops n : ∀ k w,
  exit_explained stops k w →
  exit_explained stops (k + n) (run_worker stops k n w).
Proof.
  induction n as [|n IH]; intros k w H; simpl.
  - by rewrite Nat.add_0_r.
  - rewrite Nat.add_succ_r. apply (IH (S k)). by apply step_exit_explained.
Qed.

(** Without a bound, a stop or an end of the selector the thread never
    exits. *)
Lemma runs_for_ever n : ∀ k w,
  (∀ p, ∃ s, w_gen w p = Yield s) → w_max_tests w = None →
  w_pc w = PcFor ∨ w_pc w = PcSleep ∨ w_pc w = PcAfterSleep →
  thread_exited (run_worker (λ _, false) k n w) = false.
Proof.
  induction n as [|n IH]; intros k w Hgen Hmax Hpc; simpl.
  - unfold thread_exited. by destruct Hpc as [E|[E|E]]; rewrite E.
  - pose proof (worker_step_same_stream false w) as (_ & Hg & _ & _ & Hm & _).
    apply IH; [by rewrite Hg|by rewrite Hm|].
    unfold worker_step. destruct Hpc as [E|[E|E]]; rewrite E.
    + destruct (Hgen (w_pos w)) as [s Hs]. rewrite Hs.
      unfold max_reached. simpl. rewrite Hmax. simpl. auto.
    + destruct (negb _); simpl; auto.
    + simpl. auto.
Qed.

(** The loop of the stream task ends at the first reading of the clock that
    is [run_seconds] past the start, and at no other. *)
Lemma stream_loop_exit clock body start run_seconds fuel : ∀ k w k' w',
  Main.stream_loop clock body start run_seconds fuel k w = Some (k', w') →
  (run_seconds <= clock k' - start)%Q
  ∧ ∀ j, (k ≤ j < k')%nat → (clock j - start < run_seconds)%Q.
Proof.
  induction fuel as [|fuel IH]; intros k w k' w' H; simpl in H; [done|].
  destruct (Qle_bool run_seconds (clock k - start)) eqn:E; simpl in H.
  - injection H as <- <-. split; [by apply Qle_bool_iff | intros j Hj; lia].
  - destruct (IH _ _ _ _ H) as [H1 H2]. split; [done|].
    intros j Hj. destruct (decide (j = k)) as [->|Hne].
    + by apply Qle_bool_false.
    + apply H2. lia.
Qed.

Lemma stream_loop_ends clock body start run_seconds n : ∀ k w,
  (run_seconds <= clock (k + n)%nat - start)%Q →
  (∀ j, (k ≤ j < k + n)%nat → (clock j - start < run_seconds)%Q) →
  ∃ w', Main.stream_loop clock body start run_seconds (S n) k w
        = Some ((k + n)%nat, w').
Proof.
  induction n as [|n IH]; intros k w Hend Hbefore.
  - rewrite Nat.add_0_r in *. simpl.
    apply Qle_bool_iff in Hend. rewrite Hend. simpl. by eexists.
  - assert (Qle_bool run_seconds (clock k - start) = false) as E.
    { destruct (Qle_bool _ _) eqn:E; [|done]. apply Qle_bool_iff in E.
      destruct (Qle_lt_absurd _ _ E (Hbefore k ltac:(lia))). }
    change (Main.stream_loop clock body start run_seconds (S (S n)) k w)
      with (if negb (Qle_bool run_seconds (clock k - start))
            then Main.stream_loop clock body start run_seconds (S n) (S k)
                   (body k w)
            else Some (k, w)).
    rewrite E. simpl negb. cbv iota.
    replace (k + S n)%nat with (S k + n)%nat in * by lia.
    apply IH; [done|]. intros j Hj. apply Hbefore. lia.
Qed.

(** With the selector [[0]], no bound and no stop, [runner] returns after
    its single test: the bound was not reached and no read of the flag saw
    a stop. *)
Lemma C4_counterexample :
  ¬ Spec.ends_only_by_max_or_stop Examples.worker_one_row (λ _, false).
Proof.
  intros H.
  destruct (H 12%nat) as [Hm|(k & _ & Hk)]; [by vm_compute| |done].
  vm_compute in Hm. discriminate.
Qed.

(** C4, as the code has it.  The worker of [stream_tests] has no duration.
    It exits when a bound on its tests is given, when from some read on
    the flag is set, and when its selector is finite; when [runner] has
    returned, the selector was exhausted, the bound was reached, or a read
    of the flag saw the stop; with a selector that never ends, no bound
    and no stop it never exits.  The duration bounds the loop of the
    stream task of main.py, which ends at the first reading of the clock
    that is [run_seconds] past the start, and has neither a bound on its
    events nor a stop. *)
Theorem C4_worker_loop_exits stream_id gen test interval max_tests flag :
  let w0 := new_worker stream_id gen test interval max_tests flag in
  (∀ m stops, max_tests = Some m →
     ∃ n, thread_exited (run_worker stops 0 n w0) = true)
  ∧ (∀ stops K, (∀ j, (K ≤ j)%nat → stops j = true) →
       ∃ n, thread_exited (run_worker stops 0 n w0) = true)
  ∧ (∀ stops L, (∀ p, (L ≤ p)%nat → gen p = StopIteration) →
       ∃ n, thread_exited (run_worker stops 0 n w0) = true)
  ∧ (∀ stops n, w_pc (run_worker stops 0 n w0) = PcDone →
       exit_reason stops n (run_worker stops 0 n w0))
  ∧ ((∀ p, ∃ s, gen p = Yield s) → max_tests = None →
     ∀ n, thread_exited (run_worker (λ _, false) 0 n w0) = false)
  ∧ (∀ fromisoformat pd_to_datetime json_dumps isoformat catalog sample now
       uuid ts d clock start run_seconds fuel w k' w',
       Main._stream_simulator_task fromisoformat pd_to_datetime json_dumps
         isoformat catalog sample now uuid ts d clock start run_seconds fuel w
       = Some (k', w') →
       (run_seconds <= clock k' - start)%Q
       ∧ ∀ j, (j < k')%nat → (clock j - start < run_seconds)%Q)
  ∧ (∀ fromisoformat pd_to_datetime json_dumps isoformat catalog sample now
       uuid ts d clock start run_seconds n w,
       (run_seconds <= clock n - start)%Q →
       (∀ j, (j < n)%nat → (clock j - start < run_seconds)%Q) →
       ∃ w', Main._stream_simulator_task fromisoformat pd_to_datetime
               json_dumps isoformat catalog sample now uuid ts d clock start
               run_seconds (S n) w
             = Some (n, w')).
Proof.
  intros w0. repeat split.
  - intros m stops Hm.
    apply (exits_with_max_tests (Z.to_nat m) stops 0 w0 m); [done|done|].
    simpl. lia.
  - intros stops K HK. exists (K + 4)%nat. rewrite run_worker_add.
    apply exits_when_stopped. intros j Hj. apply HK. lia.
  - intros stops L HL.
    by apply (exits_with_finite_selector L stops 0 w0 L); [| |simpl; lia].
  - intros stops n Hpc.
    apply (run_exit_explained stops n 0 w0); [|by right].
    intros [?|?]; done.
  - intros Hgen Hmax n. apply runs_for_ever; [done|done|by left].
  - eapply stream_loop_exit; eassumption.
  - intros j Hj.
    eapply (stream_loop_exit _ _ _ _ _ 0%nat); [eassumption|lia].
  - intros fromisoformat pd_to_datetime json_dumps isoformat catalog sample
      now uuid ts d clock start run_seconds n w Hend Hbefore.
    unfold Main._stream_simulator_task.
    apply (stream_loop_ends clock _ start run_seconds n 0 w); [done|].
    intros j Hj. apply Hbefore. lia.
Qed.

End StreamFacts.

(** A worker bounded by three tests exits, even if it is never stopped. *)
Lemma C4_witness :
  Sim.w_max_tests Examples.worker_three_tests = Some 3
  ∧ ∃ n, Sim.thread_exited
           (Sim.run_worker (λ _, false) 0 n Examples.worker_three_tests)
         = true.
Proof.
  split; [reflexivity|].
  exact (proj1 (C4_worker_loop_exits "s-2"
                  (Sim.random_gen Examples.df_demo (λ k, k))
                  Examples.test_demo 0.5 (Some 3) 0)
           3 (λ _, false) eq_refl).
Defined.

(** The second of two interleaved streams has emitted its two events,
    numbered 0 and 1. *)
Lemma C7_witness :
  ∃ w, Sim.threads (Sim.run Examples.two_streams Sim.initial) !! 1%nat
       = Some w
       ∧ Sim.seqs_of (Sim.w_out w) = Some <$> seq 0 (Sim.w_count w)
       ∧ Sim.w_count w = 2%nat.
Proof.
  assert (Sim.w_count
            <$> Sim.threads (Sim.run Examples.two_streams Sim.initial) !! 1%nat
          = Some 2%nat) as Hc by (vm_compute; reflexivity).
  destruct (Sim.threads (Sim.run Examples.two_streams Sim.initial) !! 1%nat)
    as [w|] eqn:E; [|discriminate Hc].
  exists w. split; [reflexivity|]. split.
  - exact (proj1 (C7_sequence_numbers Examples.two_streams 1 w E)).
  - injection Hc as Hc. exact Hc.
Defined.

(** After the schedule of the two streams, the second has returned, so
    that a stop of it returns false; the first has not, and a stop of it
    returns true. *)
Lemma C8_witness :
  Sim.ids_fresh Examples.two_streams Sim.initial
  ∧ (∀ th w,
       Sim.threads (Sim.run Examples.two_streams Sim.initial) !! th = Some w →
       Sim.w_stream_id w = "s-2" → Sim.w_pc w = Sim.PcDone)
  ∧ ∃ th w,
      Sim.threads (Sim.run Examples.two_streams Sim.initial) !! th = Some w
      ∧ Sim.w_stream_id w = "s-1" ∧ Sim.w_pc w ≠ Sim.PcDone.
Proof.
  assert (Sim.ids_fresh Examples.two_streams Sim.initial) as Hf.
  { vm_compute. repeat split. }
  split; [exact Hf|]. split.
  - apply (proj1 (proj1 (C8_stop_stream_result Examples.two_streams "s-2" Hf))).
    vm_compute. reflexivity.
  - destruct (proj2 (proj2 (C8_stop_stream_result Examples.two_streams "s-1"
                              Hf)))
      as (th & w & Hw & Hid & Hpc & _); [vm_compute; reflexivity|].
    exists th, w. split; [exact Hw|]. split; [exact Hid | exact Hpc].
Defined.

(** ** The older evaluator of alerts.py

    It is not what main.py runs; these facts record how it differs. *)

(** The insert of db.py never compiles: five placeholders for six
    columns. *)
Lemma legacy_save_alert_raises (a : Alerts.alert) (t : list Sql.row) :
  Alerts.save_alert a t = (Raised "sqlite3.OperationalError", t).
Proof. reflexivity. Qed.

(** When a rule of the older evaluator fires, the failure of the store
    aborts it: nothing is returned and the callback is not called. *)
Lemma legacy_evaluator_aborts json_dumps uuid ts notify r st :
  (default 0 (Main.r_predicted_fake r) = 1
   ∨ (0.6 <= default 0%Q (Main.r_fake_score r))%Q) →
  Alerts.evaluate_and_alert json_dumps uuid ts notify r st
  = (Raised "sqlite3.OperationalError", st).
Proof.
  intros H. unfold Alerts.evaluate_and_alert.
  unfold Alerts.AUTO_ALERT_THRESHOLD, Alerts.WARN_THRESHOLD.
  destruct st as [t sent].
  destruct (_ || _) eqn:E1; [reflexivity|].
  destruct (Qle_bool 0.6 _) eqn:E2; [reflexivity|].
  apply orb_false_iff in E1 as [Ep E8]. apply Qle_bool_false in E2.
  destruct H as [H|H]; [lia | destruct (Qle_lt_absurd _ _ H E2)].
Qed.

(** The older evaluator has no expiry rule and warns from 0.6 only: an
    event thirty days from expiry with a score of 0.55 gets no alert. *)
Lemma legacy_evaluator_ignores_expiry :
  Alerts.evaluate_and_alert Examples.json_dumps_empty "id-4" 4.0 true
    (Main.mk_result (Some (PyStr "2026-01-31")) None None
       (Some (PyStr "PharmaCorp")) None None (Some 0.55%Q) (Some 0))
    ([], [])
  = (Returned None, ([], [])).
Proof. reflexivity. Qed.

(** * Further properties of the service *)

(** ** The store: order, limit and primary key *)

Lemma newest_first_cons x l :
  (∀ y, y ∈ l → (Sql.row_timestamp y <= Sql.row_timestamp x)%Q) →
  Sql.newest_first l → Sql.newest_first (x :: l).
Proof.
  intros Hx Hl i j a b Hij Ha Hb. destruct j as [|j]; [lia|].
  simpl in Hb. destruct i as [|i]; simpl in Ha.
  - injection Ha as <-. apply Hx. by eapply list_elem_of_lookup_2.
  - eapply (Hl i j); [lia|done..].
Qed.

Lemma newest_first_inv x l :
  Sql.newest_first (x :: l) →
  (∀ y, y ∈ l → (Sql.row_timestamp y <= Sql.row_timestamp x)%Q)
  ∧ Sql.newest_first l.
Proof.
  intros H. split.
  - intros y Hy. apply list_elem_of_lookup in Hy as [j Hj].
    by apply (H 0%nat (S j) x y); [lia|..].
  - intros i j a b Hij Ha Hb. by apply (H (S i) (S j) a b); [lia|..].
Qed.

Lemma insert_desc_newest_first r l :
  Sql.newest_first l → Sql.newest_first (Sql.insert_desc r l).
Proof.
  induction l as [|x l IH]; intros Hl; simpl.
  - apply newest_first_cons; [|done]. intros y Hy. by apply elem_of_nil in Hy.
  - destruct (newest_first_inv _ _ Hl) as [Hx Hl'].
    destruct (Qle_bool _ _) eqn:E.
    + apply newest_first_cons; [|by apply IH].
      intros y Hy. apply elem_of_insert_desc in Hy as [->|Hy];
        [by apply Qle_bool_iff | by apply Hx].
    + apply Qle_bool_false in E. apply newest_first_cons; [|done].
      intros y Hy. apply elem_of_cons in Hy as [->|Hy];
        [by apply Qlt_le_weak|].
      eapply Qle_trans; [by apply Hx | by apply Qlt_le_weak].
Qed.

Lemma order_by_newest_first t : Sql.newest_first (Sql.order_by_timestamp_desc t).
Proof.
  unfold Sql.order_by_timestamp_desc.
  induction (reverse t) as [|x l IH]; simpl.
  - intros i j x y _ H. by rewrite lookup_nil in H.
  - by apply insert_desc_newest_first.
Qed.

Lemma select_recent_newest_first limit t :
  Sql.newest_first (Sql.select_recent limit t).
Proof.
  unfold Sql.select_recent, Sql.sql_limit.
  pose proof (order_by_newest_first t) as H.
  destruct (limit <? 0); [done|].
  intros i j x y Hij Hx Hy.
  apply lookup_take_Some in Hx as [Hx _]. apply lookup_take_Some in Hy as [Hy _].
  by eapply H.
Qed.

Lemma select_recent_length limit t :
  (length (Sql.select_recent limit t) ≤ length t)%nat
  ∧ (0 ≤ limit → Z.of_nat (length (Sql.select_recent limit t)) ≤ limit).
Proof.
  unfold Sql.select_recent, Sql.sql_limit.
  pose proof (length_order_by t) as H.
  destruct (limit <? 0) eqn:E; [lia|].
  rewrite length_take. lia.
Qed.

(** X1.  [load_alerts] returns at most as many alerts as are stored, at most
    [limit] of them when [limit] is not negative, and lists them from the
    most recent to the oldest. *)
Theorem load_alerts_most_recent_first json_loads limit w out :
  Main.load_alerts json_loads limit w = Returned out →
  (length out ≤ length (Main.db w))%nat
  ∧ (0 ≤ limit → Z.of_nat (length out) ≤ limit)
  ∧ ∀ i j a b, (i < j)%nat → out !! i = Some a → out !! j = Some b →
               (Main.l_timestamp b <= Main.l_timestamp a)%Q.
Proof.
  unfold Main.load_alerts. destruct (Main.db_fails w); [done|].
  destruct (mapM _ _) as [k|] eqn:Hm; [|done]. intros [= <-].
  pose proof (length_mapM _ _ _ Hm) as Hlen.
  apply mapM_Some_1 in Hm.
  destruct (select_recent_length limit (Main.db w)) as [H1 H2].
  split; [lia|]. split; [intros; rewrite <- Hlen; by apply H2|].
  intros i j a b Hij Ha Hb.
  destruct (Forall2_lookup_r _ _ _ _ _ Hm Ha) as (x & Hx & Hrx).
  destruct (Forall2_lookup_r _ _ _ _ _ Hm Hb) as (y & Hy & Hry).
  pose proof (select_recent_newest_first limit (Main.db w) i j x y Hij Hx Hy).
  unfold Main.load_row in Hrx, Hry.
  destruct (Main.decode_data _ (Sql.row_data x)); [|done].
  destruct (Main.decode_data _ (Sql.row_data y)); [|done].
  simpl in *. injection Hrx as <-. injection Hry as <-. done.
Qed.

(** X2.  [save_alert_to_db] keeps the primary key: when no two stored rows
    share an id, none do after the call, whether or not it failed; the rows
    of other ids are the same as before, and the table grows by at most one
    row. *)
Theorem save_alert_keeps_primary_key a w :
  NoDup (Sql.row_id <$> Main.db w) →
  let w' := snd (Main.save_alert_to_db a w) in
  NoDup (Sql.row_id <$> Main.db w')
  ∧ (∀ r, Sql.row_id r ≠ Main.a_id a → r ∈ Main.db w' ↔ r ∈ Main.db w)
  ∧ (length (Main.db w') ≤ S (length (Main.db w)))%nat.
Proof.
  intros Hnd w'. subst w'. unfold Main.save_alert_to_db.
  destruct (Main.db_fails w); simpl; [split; [done|split; [done|lia]]|].
  unfold Sql.insert_or_replace.
  set (x := Main.row_of_alert a).
  assert (Sql.row_id x = Main.a_id a) as Hx by done.
  split; [|split].
  - rewrite fmap_app. apply NoDup_app. split; [|split].
    + clear Hx. induction (Main.db w) as [|y l IH]; simpl; [constructor|].
      apply NoDup_cons in Hnd as [Hy Hl].
      destruct (decide (Sql.row_id y ≠ Sql.row_id x)); rewrite ?filter_cons_True,
        ?filter_cons_False by done; [|by apply IH].
      simpl. apply NoDup_cons. split; [|by apply IH].
      intros Hin. apply Hy. apply list_elem_of_fmap in Hin as (z & -> & Hz).
      apply list_elem_of_fmap. exists z. split; [done|].
      by apply list_elem_of_filter in Hz as [_ Hz].
    + intros k Hk Hk'. simpl in Hk'. apply list_elem_of_singleton in Hk' as ->.
      apply list_elem_of_fmap in Hk as (z & Hz & Hin).
      apply list_elem_of_filter in Hin as [Hne _]. done.
    + simpl. apply NoDup_singleton.
  - intros r Hr. rewrite elem_of_app, list_elem_of_filter, list_elem_of_singleton.
    split.
    + intros [[_ ?]| ->]; [done|]. by rewrite Hx in Hr.
    + intros Hin. left. split; [by rewrite Hx|done].
  - rewrite length_app. simpl.
    match goal with
    | |- context [length (filter ?P ?l)] => pose proof (length_filter P l)
    end.
    lia.
Qed.

(** ** The connection manager *)

Lemma received_app ws w extra :
  omap (λ p : nat * Main.message, if decide (p.1 = ws) then Some p.2 else None)
       (Main.sent w ++ extra)
  = Main.received ws w
    ++ omap (λ p : nat * Main.message,
               if decide (p.1 = ws) then Some p.2 else None) extra.
Proof. unfold Main.received. by rewrite omap_app. Qed.

Lemma omap_delivered ws m (l : list nat) :
  omap (λ p : nat * Main.message, if decide (p.1 = ws) then Some p.2 else None)
       (map (λ x, (x, m)) l)
  = (λ _, m) <$> filter (λ x, x = ws) l.
Proof.
  induction l as [|x l IH]; csimpl; [done|]. rewrite IH.
  destruct (decide (x = ws)) as [Heq|Hne].
  - by rewrite filter_cons_True by done.
  - by rewrite filter_cons_False by done.
Qed.

Lemma drop_failed (F : nat → bool) (l' : list nat) : ∀ l : list nat,
  (∀ x, x ∈ l → x ∈ l') →
  filter (λ ws, ws ∉ filter (λ x, F x = true) l') l
  = filter (λ x, F x = false) l.
Proof.
  induction l as [|x l IH]; intros Hsub; [done|].
  assert (∀ y, y ∈ l → y ∈ l') as Hl by (intros y Hy; apply Hsub; by right).
  destruct (F x) eqn:Hx.
  - rewrite filter_cons_False.
    + rewrite (filter_cons_False (λ x, F x = false)) by congruence.
      by apply IH.
    + intros Hn. apply Hn. apply list_elem_of_filter. split; [done|].
      apply Hsub. by left.
  - rewrite filter_cons_True.
    + rewrite (filter_cons_True (λ x, F x = false)) by done.
      by rewrite IH.
    + intros Hin. apply list_elem_of_filter in Hin as [? _]. congruence.
Qed.

(** X3.  [broadcast] either raises in the serialisation and changes nothing,
    or returns: then every socket whose send works has received one more
    message per registration, namely the one broadcast, after those it had
    received before; the sockets whose send failed are no longer active,
    and the store is untouched. *)
Theorem broadcast_fan_out m w :
  match Main.broadcast m w with
  | (Returned _, w') =>
      Main.dumps_fails w = false
      ∧ Main.active w'
        = filter (λ ws, Main.send_fails w ws = false) (Main.active w)
      ∧ Main.db w' = Main.db w
      ∧ ∀ ws, Main.received ws w'
              = Main.received ws w
                ++ ((λ _, m)
                      <$> filter (λ x, x = ws)
                            (filter (λ x, Main.send_fails w x = false)
                               (Main.active w)))
  | (Raised _, w') => Main.dumps_fails w = true ∧ w' = w
  end.
Proof.
  unfold Main.broadcast. destruct (Main.dumps_fails w) eqn:E; [done|].
  split; [done|]. simpl. split; [|split; [done|]].
  - by apply drop_failed.
  - intros ws. unfold Main.received at 1. simpl.
    by rewrite received_app, omap_delivered.
Qed.

(** Removing the first occurrence. *)
Lemma list_remove_middle ws (p l : list nat) :
  ws ∉ p → Main.list_remove ws (p ++ ws :: l) = p ++ l.
Proof.
  induction p as [|x p IH]; intros Hp; simpl.
  - by rewrite decide_True.
  - rewrite decide_False.
    + rewrite IH; [done|]. intros H. apply Hp. by right.
    + intros ->. apply Hp. by left.
Qed.

Lemma disconnect_failed_sockets (F : nat → bool) (l : list nat) : ∀ p w,
  Main.active w = p ++ l → (∀ x, x ∈ p → F x = false) →
  Main.active (foldl (λ w r, Main.disconnect r w) w
                 (filter (λ x, F x = true) l))
  = p ++ filter (λ x, F x = false) l.
Proof.
  induction l as [|x l IH]; intros p w Hact Hp; simpl.
  - rewrite filter_nil. simpl. by rewrite Hact.
  - destruct (F x) eqn:Hx.
    + rewrite filter_cons_True by done.
      rewrite (filter_cons_False (λ x, F x = false)) by congruence. simpl.
      apply IH; [|done].
      unfold Main.disconnect. rewrite Hact.
      rewrite decide_True by (apply elem_of_app; right; by left). simpl.
      apply list_remove_middle. intros Hin. specialize (Hp x Hin). congruence.
    + rewrite filter_cons_False by congruence.
      rewrite (filter_cons_True (λ x, F x = false)) by done.
      rewrite cons_middle, app_assoc. apply IH.
      * by rewrite <- app_assoc.
      * intros y Hy. apply elem_of_app in Hy as [Hy|Hy]; [by apply Hp|].
        apply list_elem_of_singleton in Hy. by subst.
Qed.

(** X4.  The sockets that [broadcast] leaves active are those that remain
    when [disconnect] is called, in order, on each socket whose send
    failed, as the loop over [to_remove] does. *)
Theorem broadcast_drops_by_disconnect m w :
  Main.dumps_fails w = false →
  Main.active (snd (Main.broadcast m w))
  = Main.active
      (foldl (λ w r, Main.disconnect r w) w
         (filter (λ ws, Main.send_fails w ws = true) (Main.active w))).
Proof.
  intros Hd. unfold Main.broadcast. rewrite Hd. simpl.
  rewrite drop_failed by done.
  rewrite (disconnect_failed_sockets (Main.send_fails w) (Main.active w)
             [] w eq_refl); [done|].
  intros x Hx. by apply elem_of_nil in Hx.
Qed.

(** X5.  [disconnect] removes one registration of the socket, the first:
    after [connect] and [disconnect] a socket that was not active is not
    active and the others are as before, one that was already active has
    lost its older registration and kept the new one; [disconnect] of a
    socket that is not active changes nothing, and neither call touches the
    messages sent or the store. *)
Theorem connect_then_disconnect ws w :
  Main.active (Main.disconnect ws (Main.connect ws w))
  = (if decide (ws ∈ Main.active w)
     then Main.list_remove ws (Main.active w) ++ [ws]
     else Main.active w)
  ∧ (ws ∉ Main.active w → Main.disconnect ws w = w)
  ∧ Main.sent (Main.disconnect ws (Main.connect ws w)) = Main.sent w
  ∧ Main.db (Main.disconnect ws (Main.connect ws w)) = Main.db w.
Proof.
  split; [|split; [|split]].
  - unfold Main.disconnect, Main.connect. simpl.
    rewrite decide_True by (apply elem_of_app; right; by left). simpl.
    destruct (decide (ws ∈ Main.active w)) as [Hin|Hout].
    + induction (Main.active w) as [|x l IH]; [by apply elem_of_nil in Hin|].
      simpl. destruct (decide (x = ws)); [done|].
      simpl. f_equal. apply IH.
      apply elem_of_cons in Hin as [?|?]; [congruence|done].
    + rewrite <- (app_nil_r (Main.active w)) at 2.
      by apply list_remove_middle.
  - intros Hout. unfold Main.disconnect. by rewrite decide_False.
  - unfold Main.disconnect, Main.connect. simpl.
    by rewrite decide_True by (apply elem_of_app; right; by left).
  - unfold Main.disconnect, Main.connect. simpl.
    by rewrite decide_True by (apply elem_of_app; right; by left).
Qed.

(** ** The evaluator and the heuristic *)

Section EvaluatorMore.

Variable fromisoformat pd_to_datetime : string → option Z.
Variable json_dumps : Main.result → string.
Variable isoformat : Z → string.

Abbreviation evaluate :=
  (Main.evaluate_and_handle_alert fromisoformat pd_to_datetime json_dumps).
Abbreviation days_of := (Main.days_of fromisoformat pd_to_datetime).
Abbreviation rule := (Main.rule fromisoformat pd_to_datetime).

(** When the expiry rules are silent the days are unknown or beyond 120. *)
Lemma expiry_rule_none days :
  Main.expiry_rule days = None
  ↔ match days with Some d => 120 < d | None => True end.
Proof.
  unfold Main.expiry_rule. destruct days as [d|]; [|done].
  destruct (d <=? 90) eqn:E1; [split; [done|lia]|].
  destruct (d <=? 120) eqn:E2; [split; [done|lia]|]. split; [lia|done].
Qed.

(** X6.  On a result whose score and prediction are numbers,
    [evaluate_and_handle_alert] returns.  It returns no alert exactly when
    the days to expiry are unknown or more than 120, the score is below 0.5
    and the prediction is not 1; then it stores and sends nothing. *)
Theorem evaluator_silence catalog now uuid ts r w :
  let score := default 0.0%Q (Main.r_fake_score r) in
  let pred := default 0 (Main.r_predicted_fake r) in
  let res := evaluate catalog now uuid ts r w in
  (∃ o, fst res = Returned o)
  ∧ (fst res = Returned None
     ↔ match days_of now r with Some d => 120 < d | None => True end
       ∧ (score < 0.5)%Q ∧ pred ≠ 1)
  ∧ (fst res = Returned None → snd res = w).
Proof.
  intros score pred res.
  pose proof (evaluate_rule fromisoformat pd_to_datetime json_dumps catalog
                now uuid ts r w) as Hev.
  fold res in Hev. unfold Main.rule in Hev. fold score pred in Hev.
  pose proof (expiry_rule_none (days_of now r)) as Hx.
  pose proof (score_rule_level score pred) as Hs.
  destruct (Main.expiry_rule (days_of now r)) as [[lvl reason]|].
  - destruct Hev as (a & w' & Hev & _). rewrite Hev. simpl.
    split; [by eexists|]. split; [|done].
    split; [done|]. intros [H _]. apply Hx in H. done.
  - destruct (Main.score_rule score pred) as [[lvl reason]|].
    + destruct Hev as (a & w' & Hev & _). rewrite Hev. simpl.
      split; [by eexists|]. split; [|done].
      split; [done|]. intros (_ & H5 & Hp). exfalso.
      destruct lvl.
      * destruct Hs as (_ & H & _). by apply (Qle_lt_absurd _ _ H H5).
      * destruct Hs as [?|H]; [done|].
        apply (Qle_lt_absurd 0.5 score); [|done].
        eapply Qle_trans; [|exact H]. done.
    + rewrite Hev. simpl. split; [by eexists|]. split; [|done].
      split; [|done]. intros _. destruct Hs as [Hp H5].
      split; [by apply Hx|]. done.
Qed.

(** X7.  [lookup_manufacturer_phone] returns the text of a phone that a row
    of the catalog gives for that manufacturer, and [None] only when there
    is no catalog or no row of the manufacturer has a phone. *)
Theorem lookup_manufacturer_phone_sound catalog manufacturer :
  match Main.lookup_manufacturer_phone catalog manufacturer with
  | PyStr p =>
      ∃ rows c, catalog = Some rows ∧ c ∈ rows
                ∧ Main.catalog_match manufacturer c
                ∧ Main.c_manufacturer_phone c ≠ PyNone
                ∧ p = py_str (Main.c_manufacturer_phone c)
  | PyNone =>
      catalog = None
      ∨ ∃ rows, catalog = Some rows
                ∧ ∀ c, c ∈ rows → Main.catalog_match manufacturer c →
                       Main.c_manufacturer_phone c = PyNone
  end.
Proof.
  unfold Main.lookup_manufacturer_phone. destruct catalog as [rows|];
    [|by left].
  match goal with
  | |- context [filter ?P (map ?f (filter ?Q rows))] =>
      destruct (filter P (map f (filter Q rows))) as [|v ph] eqn:E
  end.
  - right. exists rows. split; [done|]. intros c Hc Hm.
    destruct (decide (Main.c_manufacturer_phone c = PyNone)) as [|Hne];
      [done|].
    assert (Main.c_manufacturer_phone c ∈ @nil pyval) as Hin;
      [|by apply elem_of_nil in Hin].
    rewrite <- E. apply list_elem_of_filter. split; [done|].
    apply list_elem_of_fmap. exists c. split; [done|].
    apply list_elem_of_filter. done.
  - assert (v ∈ v :: ph) as Hin by (by left). rewrite <- E in Hin.
    apply list_elem_of_filter in Hin as [Hne Hin].
    apply list_elem_of_fmap in Hin as (c & -> & Hc).
    apply list_elem_of_filter in Hc as [Hm Hc].
    exists rows, c. done.
Qed.

(** The heuristic and the prediction of main.py. *)
Lemma heuristic_range (u : Q) (days : option Z) :
  (0 <= u)%Q → (u <= 1)%Q →
  (0 <= Main.heuristic_fake_score u days)%Q
  ∧ (Main.heuristic_fake_score u days <= 1)%Q
  ∧ ((0.8 <= Main.heuristic_fake_score u days)%Q
     ↔ ∃ d, days = Some d ∧ d ≤ 90).
Proof.
  intros H0 H1. unfold Main.heuristic_fake_score.
  destruct days as [d|].
  - destruct (d <=? 0) eqn:E0; [|destruct (d <=? 90) eqn:E1;
      [|destruct (d <=? 120) eqn:E2]].
    + split; [done|]. split; [done|]. split; [|done].
      intros _. exists d. split; [done|lia].
    + split; [done|]. split; [done|]. split; [|done].
      intros _. exists d. split; [done|lia].
    + split; [done|]. split; [done|]. split; [done|].
      intros (d' & [= <-] & ?). lia.
    + destruct (uniform_bounds u 0.35 H0 H1 ltac:(done)) as [Ha Hb].
      destruct (py_round_3_bounds _ 350 Ha) as [Hc Hd].
      { eapply Qle_trans; [exact Hb | done]. }
      split; [done|]. split; [eapply Qle_trans; [exact Hd|done]|].
      split; [|intros (d' & [= <-] & ?); lia].
      intros H. exfalso. apply (Qle_lt_absurd _ _ H).
      eapply Qle_lt_trans; [exact Hd|done].
  - destruct (uniform_bounds u 0.25 H0 H1 ltac:(done)) as [Ha Hb].
    destruct (py_round_3_bounds _ 250 Ha) as [Hc Hd].
    { eapply Qle_trans; [exact Hb | done]. }
    split; [done|]. split; [eapply Qle_trans; [exact Hd|done]|].
    split; [|by intros (d' & ? & ?)].
    intros H. exfalso. apply (Qle_lt_absurd _ _ H).
    eapply Qle_lt_trans; [exact Hd|done].
Qed.

Lemma score_payload_flag now d p :
  (0 <= Main.t_score d)%Q → (Main.t_score d <= 1)%Q →
  let p' := Main.score_payload fromisoformat now d p in
  Main.p_predicted_fake p' = 1
  ↔ ∃ days, Main.p_days_to_expiry p' = Some days ∧ days ≤ 90.
Proof.
  intros H0 H1 p'. subst p'. unfold Main.score_payload. simpl.
  match goal with
  | |- context [Main.heuristic_fake_score ?u ?dd] =>
      destruct (heuristic_range u dd H0 H1) as (_ & _ & Hc)
  end.
  rewrite <- Hc. apply threshold_flag.
Qed.

(** X8.  In the stream task the score attached to a payload lies in [0, 1],
    and the prediction, 0 or 1, is 1 exactly when the expiry date of the
    payload parses and lies at most 90 days ahead: the heuristic never
    reaches the threshold on any other payload. *)
Theorem main_prediction_is_expiry_within_90_days now d p :
  (0 <= Main.t_score d)%Q → (Main.t_score d <= 1)%Q →
  let p' := Main.score_payload fromisoformat now d p in
  (0 <= Main.p_fake_score p')%Q ∧ (Main.p_fake_score p' <= 1)%Q
  ∧ (Main.p_predicted_fake p' = 1
     ↔ ∃ days, Main.p_days_to_expiry p' = Some days ∧ days ≤ 90)
  ∧ (Main.p_predicted_fake p' = 0 ∨ Main.p_predicted_fake p' = 1).
Proof.
  intros H0 H1 p'. split; [|split; [|split]].
  - subst p'. unfold Main.score_payload. simpl.
    by apply heuristic_range.
  - subst p'. unfold Main.score_payload. simpl.
    by apply heuristic_range.
  - by apply score_payload_flag.
  - subst p'. unfold Main.score_payload. simpl.
    destruct (Qle_bool _ _); auto.
Qed.

End EvaluatorMore.

(** ** The stream task and the predict endpoint *)

Section StreamTaskMore.

Variable fromisoformat pd_to_datetime : string → option Z.
Variable json_dumps : Main.result → string.
Variable isoformat : Z → string.

Lemma filter_working_twice (F : nat → bool) (l : list nat) :
  filter (λ ws, F ws = false) (filter (λ ws, F ws = false) l)
  = filter (λ ws, F ws = false) l.
Proof.
  induction l as [|x l IH]; [done|].
  destruct (F x) eqn:Hx.
  - by rewrite filter_cons_False by congruence.
  - rewrite filter_cons_True by done. rewrite filter_cons_True by done.
    by rewrite IH.
Qed.

(** The effects of an evaluation in which a rule fires. *)
Lemma evaluate_effects catalog now uuid ts r w lvl reason :
  Main.rule fromisoformat pd_to_datetime now r = Some (lvl, reason) →
  ∃ a w',
    Main.evaluate_and_handle_alert fromisoformat pd_to_datetime json_dumps
      catalog now uuid ts r w = (Returned (Some a), w')
    ∧ Main.a_level a = lvl
    ∧ (Main.dumps_fails w = false →
       Main.sent w'
       = Main.sent w
         ++ map (λ ws, (ws, Main.AlertMsg a))
                (filter (λ ws, Main.send_fails w ws = false) (Main.active w)))
    ∧ (Main.db_fails w = false →
       Main.db w' = Sql.insert_or_replace (Main.row_of_alert a) (Main.db w)).
Proof.
  intros Hr. unfold Main.evaluate_and_handle_alert. rewrite Hr.
  eexists _, _. split; [reflexivity|]. split; [done|].
  unfold Main.save_alert_to_db, Main.broadcast.
  destruct w as [t act snt dbf df sf]; simpl.
  destruct dbf, df; simpl; repeat split; intros; try done.
Qed.

(** X9.  One iteration of the stream task whose payload is predicted fake:
    every socket whose send works receives the test result and then a
    CRITICAL alert, and nothing else is sent; the alert is stored when the
    store works. *)
Theorem stream_tick_alerts_predicted_fakes catalog sample now uuid ts d w :
  (0 <= Main.t_score d)%Q → (Main.t_score d <= 1)%Q →
  Main.dumps_fails w = false →
  let p := fst (Main.stream_tick fromisoformat pd_to_datetime json_dumps
                  isoformat catalog sample now uuid ts d w) in
  let w' := snd (Main.stream_tick fromisoformat pd_to_datetime json_dumps
                   isoformat catalog sample now uuid ts d w) in
  let working :=
    filter (λ ws, Main.send_fails w ws = false) (Main.active w) in
  Main.p_predicted_fake p = 1 →
  ∃ a, Main.a_level a = CRITICAL
       ∧ Main.sent w'
         = Main.sent w ++ map (λ ws, (ws, Main.TestResultMsg p)) working
           ++ map (λ ws, (ws, Main.AlertMsg a)) working
       ∧ (Main.db_fails w = false → Main.row_of_alert a ∈ Main.db w').
Proof.
  intros H0 H1 Hd. unfold Main.stream_tick. simpl.
  set (p := Main.score_payload fromisoformat now d
              (default (Main.fallback_payload isoformat now d) sample)).
  set (working := filter (λ ws, Main.send_fails w ws = false) (Main.active w)).
  intros Hp.
  pose proof (score_payload_flag fromisoformat now d
                (default (Main.fallback_payload isoformat now d) sample) H0 H1)
    as Hiff.
  cbv zeta in Hiff. fold p in Hiff. apply Hiff in Hp as (days & Hdays & Hle).
  set (r := Main.mk_result _ _ _ _ _ _ _ _).
  set (w1 := snd (Main.broadcast (Main.TestResultMsg p) w)).
  assert (Main.sent w1
          = Main.sent w ++ map (λ ws, (ws, Main.TestResultMsg p)) working
          ∧ Main.active w1 = working
          ∧ Main.send_fails w1 = Main.send_fails w
          ∧ Main.dumps_fails w1 = false
          ∧ Main.db_fails w1 = Main.db_fails w) as (Hs1 & Ha1 & Hf1 & Hd1 & Hb1).
  { subst w1. unfold Main.broadcast. rewrite Hd. simpl.
    split; [done|]. split; [|done]. by apply drop_failed. }
  assert (Main.parse_days_to_expiry fromisoformat (Calendar.date_of now)
            (Main.expiry_raw r) = Some days) as Hparse.
  { subst p. unfold Main.score_payload in Hdays. simpl in Hdays.
    unfold Main.expiry_raw, r. simpl.
    match type of Hdays with
    | Main.parse_days_to_expiry _ _ ?e = _ => set (e0 := e) in *
    end.
    assert (truthy e0 = true) as Ht.
    { unfold Main.parse_days_to_expiry in Hdays.
      by destruct (truthy e0). }
    change (py_get (Some e0)) with e0. change (py_get None) with PyNone.
    assert (py_or (py_or e0 PyNone) PyNone = e0) as ->; [|done].
    unfold py_or. rewrite Ht. cbv iota. by rewrite Ht. }
  destruct (evaluator_days_of_event_days fromisoformat pd_to_datetime now r
              days Hparse) as (dd & Hdd & _ & Hub).
  assert (∃ reason, Main.rule fromisoformat pd_to_datetime now r
                    = Some (CRITICAL, reason)) as [reason Hrule].
  { unfold Main.rule. rewrite Hdd. unfold Main.expiry_rule.
    assert ((dd <=? 90) = true) as -> by lia. by eexists. }
  destruct (evaluate_effects catalog now uuid ts r w1 CRITICAL reason Hrule)
    as (a & w2 & Hev & Hl & Hsent & Hdb).
  exists a. rewrite Hev. simpl. split; [done|]. split.
  - rewrite (Hsent Hd1), Hs1, Ha1, Hf1. subst working.
    by rewrite filter_working_twice, <- app_assoc.
  - intros Hdbok. rewrite Hdb by congruence. apply insert_or_replace_new.
Qed.

(** The loop of the stream task when the clock moves on. *)
Lemma stream_loop_within clock body start run_seconds n : ∀ k w,
  (run_seconds <= clock (k + n)%nat - start)%Q →
  ∃ k' w', (k ≤ k' ≤ k + n)%nat
           ∧ Main.stream_loop clock body start run_seconds (S n) k w
             = Some (k', w').
Proof.
  induction n as [|n IH]; intros k w Hend.
  - rewrite Nat.add_0_r in Hend. apply Qle_bool_iff in Hend.
    exists k, w. split; [lia|]. simpl. by rewrite Hend.
  - destruct (Qle_bool run_seconds (clock k - start)) eqn:E.
    + exists k, w. split; [lia|].
      change (Main.stream_loop clock body start run_seconds (S (S n)) k w)
        with (if negb (Qle_bool run_seconds (clock k - start))
              then Main.stream_loop clock body start run_seconds (S n) (S k)
                     (body k w)
              else Some (k, w)).
      by rewrite E.
    + destruct (IH (S k) (body k w)) as (k' & w' & Hk & Hloop).
      { by replace (S k + n)%nat with (k + S n)%nat by lia. }
      exists k', w'. split; [lia|].
      change (Main.stream_loop clock body start run_seconds (S (S n)) k w)
        with (if negb (Qle_bool run_seconds (clock k - start))
              then Main.stream_loop clock body start run_seconds (S n) (S k)
                     (body k w)
              else Some (k, w)).
      by rewrite E.
Qed.

(** X10.  [_stream_simulator_task] ends: when each iteration takes at least
    [interval] of the clock (it sleeps that long) and [N] intervals cover
    [run_seconds], the loop returns after at most [N] iterations. *)
Theorem stream_task_iteration_bound catalog sample now uuid ts d clock start
    run_seconds interval (N : nat) w :
  (∀ k : nat, start + inject_Z (Z.of_nat k) * interval <= clock k)%Q →
  (run_seconds <= inject_Z (Z.of_nat N) * interval)%Q →
  ∃ k w', (k ≤ N)%nat
          ∧ Main._stream_simulator_task fromisoformat pd_to_datetime
              json_dumps isoformat catalog sample now uuid ts d clock start
              run_seconds (S N) w
            = Some (k, w').
Proof.
  intros Hclock HN. unfold Main._stream_simulator_task.
  destruct (stream_loop_within clock
              (λ k w, snd (Main.stream_tick fromisoformat pd_to_datetime
                             json_dumps isoformat catalog (sample k) (now k)
                             (uuid k) (ts k) (d k) w))
              start run_seconds N 0 w) as (k & w' & Hk & Hloop).
  { simpl. specialize (Hclock N).
    generalize dependent (inject_Z (Z.of_nat N)). intros x Hx Hc. lra. }
  exists k, w'. split; [lia|done].
Qed.

(** X11.  [predict] on a request without expiry date: no days to expiry, a
    score in [0, 0.25], prediction 0, and neither an alert nor any other
    effect. *)
Theorem predict_without_expiry catalog m e b now uuid ts u w :
  (0 <= u)%Q → (u <= 1)%Q → truthy e = false →
  let pr := fst (Main.predict fromisoformat pd_to_datetime json_dumps catalog
                   m e b now uuid ts u w) in
  let w' := snd (Main.predict fromisoformat pd_to_datetime json_dumps catalog
                   m e b now uuid ts u w) in
  Main.pr_days_to_expiry pr = None
  ∧ Main.pr_expiry_date pr = PyNone
  ∧ Main.pr_predicted_fake pr = 0
  ∧ (0 <= Main.pr_fake_score pr)%Q ∧ (Main.pr_fake_score pr <= 0.25)%Q
  ∧ w' = w.
Proof.
  intros H0 H1 He.
  destruct (uniform_bounds u 0.25 H0 H1 ltac:(done)) as [Ha Hb].
  destruct (py_round_3_bounds _ 250 Ha) as [Hc Hd].
  { eapply Qle_trans; [exact Hb | done]. }
  assert (Main.heuristic_fake_score u None <= 0.25)%Q as Hq
    by (eapply Qle_trans; [exact Hd|done]).
  assert (0 <= Main.heuristic_fake_score u None)%Q as Hq0 by exact Hc.
  assert (Qle_bool 0.8 (Main.heuristic_fake_score u None) = false) as E8.
  { destruct (Qle_bool _ _) eqn:E; [|done]. apply Qle_bool_iff in E.
    exfalso. apply (Qle_lt_absurd _ _ E). eapply Qle_lt_trans; [exact Hq|done]. }
  assert (Qle_bool 0.5 (Main.heuristic_fake_score u None) = false) as E5.
  { destruct (Qle_bool 0.5 _) eqn:E; [|done]. apply Qle_bool_iff in E.
    exfalso. apply (Qle_lt_absurd _ _ E). eapply Qle_lt_trans; [exact Hq|done]. }
  remember (Main.heuristic_fake_score u None) as h eqn:Hh.
  unfold Main.predict.
  assert (py_or e PyNone = PyNone) as Hor by (unfold py_or; by rewrite He).
  rewrite Hor. cbv zeta.
  change (Main.parse_days_to_expiry fromisoformat (Calendar.date_of now)
            PyNone) with (@None Z).
  rewrite <- Hh. unfold Main.AUTO_ALERT_THRESHOLD. rewrite E8.
  cbn [fst snd Main.pr_days_to_expiry Main.pr_expiry_date
       Main.pr_predicted_fake Main.pr_fake_score].
  split; [done|]. split; [done|]. split; [done|].
  split; [exact Hq0|]. split; [exact Hq|].
  unfold Main.evaluate_and_handle_alert, Main.rule, Main.days_of,
    Main.expiry_raw.
  cbn [Main.r_expiry Main.r_expiry_date Main.r_exp_date Main.r_fake_score
       Main.r_predicted_fake py_get default py_or truthy Main.expiry_rule
       negb].
  unfold Main.score_rule, Main.AUTO_ALERT_THRESHOLD, Main.WARN_THRESHOLD.
  unfold id. cbn [py_or truthy Main.expiry_rule Z.eqb orb].
  by rewrite E8, E5.
Qed.

End StreamTaskMore.

(** ** The display of the alerts *)

Section HighRisk.

Variable json_loads : string → option json.
Variable float_of_text : string → option Q.

Lemma json_or_truthy a b :
  Main.json_truthy b = true → Main.json_truthy (Main.json_or a b) = true.
Proof. intros H. unfold Main.json_or. by destruct (Main.json_truthy a) eqn:E. Qed.

Lemma alert_to_highrisk_fields a h :
  Main._alert_to_highrisk json_loads float_of_text a = Returned h →
  Main.h_id h = Main.l_id a
  ∧ Main.h_timestamp h = Main.l_timestamp a
  ∧ 0 ≤ Main.h_quality h ≤ 100.
Proof.
  unfold Main._alert_to_highrisk.
  destruct (Main.highrisk_data _ _) as [data|]; [|done].
  destruct (Main.py_float _ _) as [s|]; [|done].
  intros [= <-]. simpl. split; [done|]. split; [done|]. lia.
Qed.

(** X12.  An item that [_alert_to_highrisk] returns: its quality is between
    0 and 100, its risk is high exactly for a CRITICAL alert and medium
    otherwise, its name, batch and supplier are never empty, and its id,
    timestamp and message are those of the alert. *)
Theorem alert_to_highrisk_item a h :
  Main._alert_to_highrisk json_loads float_of_text a = Returned h →
  0 ≤ Main.h_quality h ∧ Main.h_quality h ≤ 100
  ∧ (Main.h_risk h = "high" ↔ Main.l_level a = "CRITICAL")
  ∧ (Main.h_risk h = "high" ∨ Main.h_risk h = "medium")
  ∧ Main.json_truthy (Main.h_name h) = true
  ∧ Main.json_truthy (Main.h_batch h) = true
  ∧ Main.json_truthy (Main.h_supplier h) = true
  ∧ Main.h_id h = Main.l_id a
  ∧ Main.h_timestamp h = Main.l_timestamp a
  ∧ Main.h_message h = Main.l_message a.
Proof.
  unfold Main._alert_to_highrisk.
  destruct (Main.highrisk_data _ _) as [data|]; [|done].
  destruct (Main.py_float _ _) as [s|]; [|done].
  intros [= <-]. cbn [Main.h_quality Main.h_risk Main.h_name Main.h_batch
                      Main.h_supplier Main.h_id Main.h_timestamp
                      Main.h_message].
  split; [lia|]. split; [lia|]. split; [|split].
  - destruct (String.eqb_spec (Main.l_level a) "CRITICAL") as [->|Hne];
      split; done.
  - destruct (String.eqb _ _); auto.
  - repeat split; by repeat apply json_or_truthy.
Qed.

(** X13.  An alert whose data is a false value ([None], or an empty dict,
    list or text after decoding) is shown with quality 100, the name
    Unknown and the batch N/A; [_alert_to_highrisk] does not raise on it. *)
Theorem alert_without_data_highrisk a :
  Main.json_truthy (Main.l_data a) = false →
  ∃ h, Main._alert_to_highrisk json_loads float_of_text a = Returned h
       ∧ Main.h_quality h = 100
       ∧ Main.h_name h = JStr "Unknown"
       ∧ Main.h_batch h = JStr "N/A"
       ∧ Main.h_supplier h
         = Main.json_or (Main.json_of_pyval (Main.l_manufacturer a))
             (JStr "Unknown")
       ∧ Main.h_manufacturer_phone h
         = Main.json_or (Main.json_of_pyval (Main.l_manufacturer_phone a))
             JNull.
Proof.
  intros Hd. unfold Main._alert_to_highrisk, Main.highrisk_data.
  unfold Main.json_or at 1. rewrite Hd. cbn [Main.dict_get_default
    Main.py_float Main.dict_get].
  eexists. split; [reflexivity|].
  cbn [Main.h_quality Main.h_name Main.h_batch Main.h_supplier
       Main.h_manufacturer_phone].
  repeat split.
Qed.

Lemma highrisk_items_Forall2 l hs :
  Main.highrisk_items json_loads float_of_text l = Returned hs →
  Forall2 (λ a h, Main._alert_to_highrisk json_loads float_of_text a
                  = Returned h) l hs.
Proof.
  revert hs. induction l as [|a l IH]; intros hs; simpl.
  - intros [= <-]. constructor.
  - destruct (Main._alert_to_highrisk _ _ a) as [h|] eqn:Ha; [|done].
    destruct (Main.highrisk_items _ _ l) as [hs'|]; [|done].
    intros [= <-]. constructor; [done|by apply IH].
Qed.

(** X14.  [highrisk] shows the alerts of [load_alerts], one item per alert
    and in the same order (ids and timestamps agree position by position),
    at most [limit] of them, each with a quality between 0 and 100. *)
Theorem highrisk_follows_load_alerts limit w hs :
  Main.highrisk json_loads float_of_text limit w = Returned hs →
  ∃ alerts,
    Main.load_alerts json_loads limit w = Returned alerts
    ∧ Main.h_id <$> hs = Main.l_id <$> alerts
    ∧ Main.h_timestamp <$> hs = Main.l_timestamp <$> alerts
    ∧ (0 ≤ limit → Z.of_nat (length hs) ≤ limit)
    ∧ Forall (λ h, 0 ≤ Main.h_quality h ≤ 100) hs.
Proof.
  unfold Main.highrisk.
  destruct (Main.load_alerts json_loads limit w) as [alerts|] eqn:Hload;
    [|done].
  intros Hitems. apply highrisk_items_Forall2 in Hitems.
  exists alerts. split; [done|].
  assert (Forall2 (λ a h, Main.h_id h = Main.l_id a
                          ∧ Main.h_timestamp h = Main.l_timestamp a
                          ∧ 0 ≤ Main.h_quality h ≤ 100) alerts hs) as H.
  { eapply Forall2_impl; [exact Hitems|]. intros a h Hah.
    destruct (alert_to_highrisk_fields a h Hah) as (? & ? & ?). done. }
  split; [|split; [|split]].
  - clear -H. induction H as [|a h l k (? & ? & ?)]; csimpl; [done|].
    by f_equal.
  - clear -H. induction H as [|a h l k (? & ? & ?)]; csimpl; [done|].
    by f_equal.
  - intros Hl. rewrite <- (Forall2_length _ _ _ H).
    unfold Main.load_alerts in Hload.
    destruct (Main.db_fails w); [done|].
    destruct (mapM _ _) as [k|] eqn:Hm; [|done]. injection Hload as <-.
    rewrite <- (length_mapM _ _ _ Hm).
    by apply select_recent_length.
  - clear -H. induction H as [|a h l k (? & ? & ?)]; constructor; done.
Qed.

End HighRisk.

(** ** The simulator *)

Section SimulatorMore.

Variable np_exp : Q → Q.
Variable pd_to_datetime : string → option (option Z).
Variable str_of_datetime : Z → string.

Lemma clip_unit q : (0 <= PyNum.clip q 0.0 1.0)%Q ∧ (PyNum.clip q 0.0 1.0 <= 1)%Q.
Proof.
  destruct (clip_bounds q 0.0 1.0 ltac:(done)) as [Ha Hb]. split.
  - eapply Qle_trans; [|exact Ha]. done.
  - eapply Qle_trans; [exact Hb|]. done.
Qed.

(** X15.  [_ml_score] lies in [0, 1] whenever the model of the bundle is not
    one that is asked for [predict_proba], whose value is returned as it
    is: with no model, with a model that has a decision function or only
    [predict], and on every fallback after a failed call. *)
Theorem ml_score_range sim expiry manufacturer g :
  (∀ b f, Sim.model_bundle sim = Some b → Sim.b_model b ≠ Sim.PredictProba f) →
  (0 <= Sim._ml_score np_exp pd_to_datetime sim expiry manufacturer g)%Q
  ∧ (Sim._ml_score np_exp pd_to_datetime sim expiry manufacturer g <= 1)%Q.
Proof.
  intros Hm. unfold Sim._ml_score.
  assert (∀ s, (0 <= Sim.fallback_score np_exp pd_to_datetime sim expiry
                       manufacturer s)%Q
               ∧ (Sim.fallback_score np_exp pd_to_datetime sim expiry
                    manufacturer s <= 1)%Q) as Hf
    by (intros s; unfold Sim.fallback_score; apply clip_unit).
  destruct (Sim.model_bundle sim) as [b|] eqn:Hb; [|apply Hf].
  specialize (Hm b). unfold Sim.model_score.
  destruct (Sim.b_model b) as [f|f|f|] eqn:E.
  - destruct (f _ _) as [df|]; simpl; [apply clip_unit | apply Hf].
  - by destruct (Hm f eq_refl).
  - destruct (f _ _) as [pred|]; simpl; [|apply Hf].
    destruct (pred =? 1); split; done.
  - apply Hf.
Qed.

(** X16.  The fallback score of the simulator does not depend on an expiry
    date that is not in the past: two rows of the same manufacturer that
    both expire today or later get the same score, which for a known
    manufacturer is the clipped noise alone. *)
Theorem fallback_ignores_future_expiry sim e1 e2 d1 d2 manufacturer g :
  Sim.days_to pd_to_datetime sim e1 = Some d1 → 0 ≤ d1 →
  Sim.days_to pd_to_datetime sim e2 = Some d2 → 0 ≤ d2 →
  Sim.fallback_score np_exp pd_to_datetime sim e1 manufacturer g
  = Sim.fallback_score np_exp pd_to_datetime sim e2 manufacturer g
  ∧ (manufacturer ∉ [PyNone; PyStr ""; PyStr "Unknown"; PyStr "nan"] →
     Sim.fallback_score np_exp pd_to_datetime sim e1 manufacturer g
     = PyNum.clip (0.0 + g) 0.0 1.0).
Proof.
  intros H1 Hd1 H2 Hd2. unfold Sim.fallback_score. rewrite H1, H2.
  assert ((d1 <? 0) = false) as -> by lia.
  assert ((d2 <? 0) = false) as -> by lia.
  split; [done|]. intros Hm. by rewrite decide_False.
Qed.

Lemma raw_sensor_shape sim d s :
  length (Sim.raw_sensor sim d s) = Sim.sensor_channels sim
  ∧ Forall (λ r, (0 <= r)%Q ∧ (r <= 5)%Q) (Sim.raw_sensor sim d s).
Proof.
  unfold Sim.raw_sensor. split.
  - by rewrite length_map, length_seq.
  - apply Forall_forall. intros r Hr.
    apply list_elem_of_fmap in Hr as (ch & -> & _).
    match goal with
    | |- context [PyNum.clip ?q ?lo ?hi] =>
        destruct (clip_bounds q lo hi ltac:(done)) as [Ha Hb]
    end.
    split.
    + eapply Qle_trans; [|exact Ha]. done.
    + eapply Qle_trans; [exact Hb|]. done.
Qed.

(** X17.  The shape of a simulated test.  The event is an ERROR exactly when
    the failure draw is below 0.01, and then carries an error message and
    none of the result fields.  An OK event has one sensor reading per
    channel, each in [0, 5], a label PASS or FAIL which, unless it was
    flipped, is FAIL exactly when the prediction is 1, a prediction 0 or 1,
    and the manufacturer of the row as a text.  No event of
    [simulate_hardware_test] has a stream id or a sequence number. *)
Theorem simulated_event_shape sim utcnow d row :
  let e := Sim.simulate_hardware_test np_exp pd_to_datetime str_of_datetime
             sim utcnow d row in
  (Sim.e_status e = Sim.ERROR ↔ (Sim.u_failure d < 0.01)%Q)
  ∧ Sim.e_stream_id e = None ∧ Sim.e_seq e = None
  ∧ match Sim.e_status e with
    | Sim.OK =>
        length (Sim.e_raw_sensor e) = Sim.sensor_channels sim
        ∧ Forall (λ r, (0 <= r)%Q ∧ (r <= 5)%Q) (Sim.e_raw_sensor e)
        ∧ (Sim.e_test_result e = Some "PASS"
           ∨ Sim.e_test_result e = Some "FAIL")
        ∧ ((0.01 <= Sim.u_flip d)%Q →
           (Sim.e_test_result e = Some "FAIL"
            ↔ Sim.e_predicted_fake e = Some 1))
        ∧ (Sim.e_predicted_fake e = Some 0 ∨ Sim.e_predicted_fake e = Some 1)
        ∧ Sim.e_error_msg e = None
        ∧ Sim.e_manufacturer e = Some (py_str (Sim.s_manufacturer row))
    | Sim.ERROR =>
        Sim.e_raw_sensor e = [] ∧ Sim.e_manufacturer e = None
        ∧ Sim.e_expiry e = None ∧ Sim.e_fake_score e = None
        ∧ Sim.e_predicted_fake e = None ∧ Sim.e_test_result e = None
        ∧ is_Some (Sim.e_error_msg e)
    end.
Proof.
  intros e. subst e. unfold Sim.simulate_hardware_test.
  destruct (Sim.hardware_latency sim) as [min_l max_l].
  destruct (Qle_bool 0.01 (Sim.u_failure d)) eqn:Ef; simpl.
  - apply Qle_bool_iff in Ef.
    split; [split; [done|intros H; destruct (Qle_lt_absurd _ _ Ef H)]|].
    split; [done|]. split; [done|].
    destruct (raw_sensor_shape sim d
                (Sim._ml_score np_exp pd_to_datetime sim (Sim.s_expiry row)
                   (Sim.s_manufacturer row) (Sim.g_score d))) as [Hl Hr].
    split; [exact Hl|]. split; [exact Hr|].
    destruct (Qle_bool 0.7 _); simpl;
      destruct (Qle_bool 0.01 (Sim.u_flip d)) eqn:Eflip; simpl.
    + split; [by right|]. split; [done|]. split; [by right|]. done.
    + apply Qle_bool_false in Eflip. split; [by left|].
      split; [intros H; destruct (Qle_lt_absurd _ _ H Eflip)|].
      split; [by right|]. done.
    + split; [by left|]. split; [intros _; split; done|].
      split; [by left|]. done.
    + apply Qle_bool_false in Eflip. split; [by right|].
      split; [intros H; destruct (Qle_lt_absurd _ _ H Eflip)|].
      split; [by left|]. done.
  - apply Qle_bool_false in Ef. split; [done|].
    repeat split; try done.
Qed.

Lemma simulated_duration sim utcnow d row :
  Sim.e_duration
    (Sim.simulate_hardware_test np_exp pd_to_datetime str_of_datetime sim
       utcnow d row)
  = (PyNum.uniform (Sim.u_latency d) (Sim.hardware_latency sim).1
       (Sim.hardware_latency sim).2
     * PyNum.uniform (Sim.u_jitter d) (1.0 - 0.05) (1.0 + 0.05))%Q.
Proof.
  unfold Sim.simulate_hardware_test.
  destruct (Sim.hardware_latency sim) as [min_l max_l].
  by destruct (negb _).
Qed.

(** X18.  The duration of a simulated test, OK or ERROR, lies between 0.95
    times the lower and 1.05 times the upper hardware latency. *)
Theorem simulated_duration_bounds sim utcnow d row :
  (0 <= (Sim.hardware_latency sim).1)%Q →
  ((Sim.hardware_latency sim).1 <= (Sim.hardware_latency sim).2)%Q →
  (0 <= Sim.u_latency d)%Q → (Sim.u_latency d <= 1)%Q →
  (0 <= Sim.u_jitter d)%Q → (Sim.u_jitter d <= 1)%Q →
  let e := Sim.simulate_hardware_test np_exp pd_to_datetime str_of_datetime
             sim utcnow d row in
  (0.95 * (Sim.hardware_latency sim).1 <= Sim.e_duration e)%Q
  ∧ (Sim.e_duration e <= 1.05 * (Sim.hardware_latency sim).2)%Q.
Proof.
  intros Hmin Hle Hu0 Hu1 Hj0 Hj1 e. subst e. rewrite simulated_duration.
  unfold PyNum.uniform.
  generalize dependent (Sim.u_latency d). intros u1 Hu0 Hu1.
  generalize dependent (Sim.u_jitter d). intros u2 Hj0 Hj1.
  generalize dependent ((Sim.hardware_latency sim).1). intros a Ha.
  generalize dependent ((Sim.hardware_latency sim).2). intros b Hab.
  set (x := (a + (b - a) * u1)%Q).
  set (y := (1.0 - 0.05 + (1.0 + 0.05 - (1.0 - 0.05)) * u2)%Q).
  assert (a <= x)%Q as Hx0.
  { pose proof (Qmult_le_0_compat (b - a) u1 ltac:(lra) Hu0). subst x. lra. }
  assert (x <= b)%Q as Hx1.
  { pose proof (Qmult_le_0_compat (b - a) (1 - u1) ltac:(lra) ltac:(lra)).
    subst x. lra. }
  assert (0.95 <= y)%Q as Hy0 by (subst y; lra).
  assert (y <= 1.05)%Q as Hy1 by (subst y; lra).
  clearbody x y. split.
  - pose proof (Qmult_le_0_compat (x - a) y ltac:(lra) ltac:(lra)).
    pose proof (Qmult_le_0_compat a (y - 0.95) ltac:(lra) ltac:(lra)). lra.
  - pose proof (Qmult_le_0_compat (b - x) y ltac:(lra) ltac:(lra)).
    pose proof (Qmult_le_0_compat b (1.05 - y) ltac:(lra) ltac:(lra)). lra.
Qed.

End SimulatorMore.

(** ** The streams *)

Section StreamMore.
Import Sim.

(** A property of the new thread that every step keeps holds of every
    thread of every reachable state. *)
Lemma all_threads_run (P : worker → Prop) :
  (∀ id gen test interval mx flag, P (new_worker id gen test interval mx flag)) →
  (∀ stop w, P w → P (worker_step stop w)) →
  ∀ schedule sys, all_threads P sys → all_threads P (run schedule sys).
Proof.
  intros Hnew Hstep. unfold run.
  induction schedule as [|a rest IH]; intros sys H; simpl; [done|].
  apply IH. intros th w.
  destruct a as [gen test interval run_id mx uuid|id|th']; simpl.
  - unfold stream_tests. simpl. intros Hw.
    apply lookup_app_Some in Hw as [Hw|[_ Hw]]; [by eapply H|].
    apply list_lookup_singleton_Some in Hw as [_ <-]. apply Hnew.
  - unfold stop_stream. destruct (running_streams sys !! id); simpl; apply H.
  - unfold thread_step. destruct (threads sys !! th') as [w'|] eqn:E;
      simpl; [|apply H].
    intros Hw. destruct (decide (th = th')) as [->|Hne].
    + rewrite list_lookup_insert_eq in Hw by (by eapply lookup_lt_Some).
      injection Hw as <-. apply Hstep. by eapply H.
    + rewrite list_lookup_insert_ne in Hw by done. by eapply H.
Qed.

Lemma all_threads_initial (P : worker → Prop) : all_threads P initial.
Proof. intros th w H. simpl in H. by rewrite lookup_nil in H. Qed.

Lemma worker_step_count_bounded stop w :
  count_bounded w → count_bounded (worker_step stop w).
Proof.
  unfold count_bounded, in_loop, worker_step, max_reached.
  intros [Hpos Hmax].
  destruct (w_pc w) eqn:Hpc.
  - destruct (w_gen w (w_pos w)).
    + destruct stop.
      * simpl. split; [lia|]. intros m Hm.
        destruct (Hmax m Hm) as [H1 _]. split; [done|].
        intros [?|[?|?]]; done.
      * cbn [w_max_tests w_count next_tick emit goto].
        destruct (w_max_tests w) as [m|] eqn:Hm.
        -- destruct (Hmax m eq_refl) as [H1 H2].
           specialize (H2 ltac:(by left)).
           destruct (m <=? Z.of_nat (S (w_count w))) eqn:E;
             cbn [w_max_tests w_count w_pos w_pc next_tick emit goto];
             rewrite ?Hm; (split; [lia|]); intros m' [= <-];
             (split; [lia|]).
           ++ intros [?|[?|?]]; done.
           ++ intros _. right. apply Z.leb_gt in E. clear Hmax. lia.
        -- cbn [w_max_tests w_count w_pos w_pc next_tick emit goto].
           rewrite ?Hm. cbn [w_max_tests w_count w_pos w_pc next_tick emit goto].
           rewrite ?Hm. split; [lia|]. by intros m' ?.

    + simpl. split; [done|]. intros m Hm. destruct (Hmax m Hm) as [H1 _].
      split; [done|]. intros [?|[?|?]]; done.
    + simpl. split; [done|]. intros m Hm. destruct (Hmax m Hm) as [H1 _].
      split; [done|]. intros [?|[?|?]]; done.
  - destruct (negb _); [destruct stop|]; simpl; (split; [done|]);
      intros m Hm; destruct (Hmax m Hm) as [H1 H2];
      (split; [done|]); intros _; apply H2; by right; left.
  - destruct stop; simpl; (split; [done|]); intros m Hm;
      destruct (Hmax m Hm) as [H1 H2]; (split; [done|]).
    + intros [?|[?|?]]; done.
    + intros _. apply H2. by right; right.
  - simpl. split; [done|]. intros m Hm. destruct (Hmax m Hm) as [H1 _].
    split; [done|]. intros [?|[?|?]]; done.
  - split; [done|]. intros m Hm. destruct (Hmax m Hm) as [H1 _].
    split; [done|]. rewrite Hpc. intros [?|[?|?]]; done.
  - split; [done|]. intros m Hm. destruct (Hmax m Hm) as [H1 _].
    split; [done|]. rewrite Hpc. intros [?|[?|?]]; done.
Qed.

Lemma events_of_length out :
  length (events_of out) = length (seqs_of out).
Proof.
  unfold events_of, seqs_of.
  induction out as [|[e|id] out IH]; csimpl; [done| |done]. by rewrite IH.
Qed.

(** X19.  In every reachable state a stream has emitted as many test events
    as its counter says, at most one per item taken from its selector, and
    never more than [max_tests] when that is given (one event is emitted
    before the bound is first looked at, hence [max m 1]). *)
Theorem events_within_max_tests schedule th w :
  threads (run schedule initial) !! th = Some w →
  length (events_of (w_out w)) = w_count w
  ∧ (w_count w ≤ w_pos w)%nat
  ∧ ∀ m, w_max_tests w = Some m →
         Z.of_nat (length (events_of (w_out w))) ≤ Z.max m 1.
Proof.
  intros Hw.
  pose proof (run_out_ok schedule initial (all_threads_initial _) th w Hw)
    as [Hseq _].
  pose proof (all_threads_run count_bounded) as Hb.
  specialize (Hb ltac:(by intros; split; [done|]; intros m ?; split;
                         [simpl; lia | by left])).
  specialize (Hb worker_step_count_bounded schedule initial
                (all_threads_initial _) th w Hw).
  destruct Hb as [Hpos Hmax].
  assert (length (events_of (w_out w)) = w_count w) as Hlen.
  { rewrite events_of_length, Hseq. by rewrite length_fmap, length_seq. }
  split; [done|]. split; [done|]. intros m Hm. rewrite Hlen.
  by destruct (Hmax m Hm).
Qed.

Lemma no_stream_ended_app out m :
  no_stream_ended out → (∀ id, m ≠ StreamEnded id) →
  no_stream_ended (out ++ [m]).
Proof.
  intros H Hm id Hin. apply elem_of_app in Hin as [Hin|Hin]; [by apply (H id)|].
  apply list_elem_of_singleton in Hin. by apply (Hm id).
Qed.

Lemma worker_step_ended_last stop w :
  ended_last w → ended_last (worker_step stop w).
Proof.
  unfold ended_last. intros H.
  pose proof (worker_step_done stop w) as Hdone.
  destruct (worker_step_same_stream stop w) as (Hid & _).
  destruct (decide (w_pc (worker_step stop w) = PcDone)) as [Hd|Hd].
  - rewrite Hid. apply Hdone in Hd as [Hep|Hd].
    + rewrite decide_False in H by congruence.
      exists (w_out w). split; [|done].
      unfold worker_step. by rewrite Hep.
    + rewrite decide_True in H by done.
      unfold worker_step. by rewrite Hd.
  - rewrite decide_False in H.
    + destruct (worker_step_emits stop w)
        as [[-> _]|[(e & -> & _)|[Hout _]]]; [done| |].
      * by apply no_stream_ended_app.
      * exfalso. apply Hd. unfold worker_step in *.
        destruct (w_pc w) eqn:Hpc; try done;
          repeat case_match; simpl in *;
          match goal with
          | Ho : _ = _ ++ [StreamEnded _] |- _ =>
              try (symmetry in Ho; apply app_inv_head in Ho; done);
              try (apply (f_equal length) in Ho; rewrite ?length_app in Ho;
                   simpl in Ho; lia);
              try (apply app_inj_tail in Ho as [_ Ho]; done)
          end.
    + intros Hw. apply Hd. apply Hdone. by right.
Qed.





(** X22.  [running_streams] and the threads agree when ids are not reused
    while registered: an id is registered exactly when a thread of that id
    has not returned; a thread that died because its selector raised is
    still registered and has not sent [stream_ended]; and no two threads
    that have not returned share an id. *)
Theorem registry_agrees_with_threads schedule :
  ids_fresh schedule initial →
  let sys := run schedule initial in
  (∀ id, is_Some (running_streams sys !! id)
         ↔ ∃ th w, threads sys !! th = Some w ∧ w_stream_id w = id
                   ∧ w_pc w ≠ PcDone)
  ∧ (∀ th w, threads sys !! th = Some w → w_pc w = PcCrashed →
             running_streams sys !! w_stream_id w
             = Some (mk_info th (w_stop_flag w))
             ∧ no_stream_ended (w_out w))
  ∧ (∀ th1 th2 w1 w2,
       threads sys !! th1 = Some w1 → threads sys !! th2 = Some w2 →
       w_pc w1 ≠ PcDone → w_pc w2 ≠ PcDone →
       w_stream_id w1 = w_stream_id w2 → th1 = th2).
Proof.
  intros Hf sys.
  destruct (run_registry_ok schedule initial initial_registry_ok Hf)
    as [I1 I2].
  fold sys in I1, I2. split; [|split].
  - intros id. split.
    + intros [info Hreg]. destruct (I1 id info Hreg) as (w & ? & ? & ? & ? & ?).
      by exists (i_thread info), w.
    + intros (th & w & Hw & <- & Hpc). rewrite (I2 th w Hw Hpc). by eexists.
  - intros th w Hw Hpc. split; [apply I2; [done|congruence]|].
    pose proof (all_threads_run ended_last) as H.
    specialize (H ltac:(by intros; unfold ended_last; simpl;
                          intros ? ?%elem_of_nil)).
    specialize (H worker_step_ended_last schedule initial
                  (all_threads_initial _) th w Hw).
    unfold ended_last in H. rewrite decide_False in H by congruence. done.
  - intros th1 th2 w1 w2 H1 H2 Hp1 Hp2 Hid.
    pose proof (I2 th1 w1 H1 Hp1) as R1. pose proof (I2 th2 w2 H2 Hp2) as R2.
    rewrite Hid in R1. rewrite R1 in R2. by injection R2.
Qed.

End StreamMore.

(** ** The older evaluator *)

(** X23.  [alerts.evaluate_and_alert] never returns an alert: it returns
    [None], with no effect, when the prediction is not 1 and the score is
    below 0.6, and otherwise raises in [db.save_alert] before anything is
    stored or notified. *)
Theorem legacy_evaluator_never_alerts json_dumps uuid ts notify r st :
  let score := default 0%Q (Main.r_fake_score r) in
  let pred := default 0 (Main.r_predicted_fake r) in
  match Alerts.evaluate_and_alert json_dumps uuid ts notify r st with
  | (Returned (Some _), _) => False
  | (Returned None, st') => st' = st ∧ pred ≠ 1 ∧ (score < 0.6)%Q
  | (Raised _, st') => st' = st ∧ (pred = 1 ∨ (0.6 <= score)%Q)
  end.
Proof.
  intros score pred. unfold Alerts.evaluate_and_alert.
  fold score pred. unfold Alerts.AUTO_ALERT_THRESHOLD, Alerts.WARN_THRESHOLD.
  destruct st as [t sent].
  destruct (pred =? 1) eqn:Ep; simpl.
  - split; [done|]. left. lia.
  - destruct (Qle_bool 0.8 score) eqn:E8; simpl.
    + split; [done|]. right. apply Qle_bool_iff in E8.
      eapply Qle_trans; [|exact E8]. done.
    + destruct (Qle_bool 0.6 score) eqn:E6; simpl.
      * split; [done|]. right. by apply Qle_bool_iff.
      * split; [done|]. split; [lia|]. by apply Qle_bool_false.
Qed.

Section EventDays.
Variable fromisoformat pd_to_datetime : string → option Z.
Variable json_dumps : Main.result → string.

End EventDays.

(** ** Instances *)

Lemma load_alerts_most_recent_first_witness :
  ∃ out,
    Main.load_alerts Examples.json_loads_atoms 1
      (snd (Main.save_alert_to_db Examples.alert_demo Examples.world_up))
    = Returned out
    ∧ Z.of_nat (length out) ≤ 1.
Proof.
  destruct (Main.load_alerts Examples.json_loads_atoms 1
              (snd (Main.save_alert_to_db Examples.alert_demo
                      Examples.world_up))) as [out|e] eqn:E;
    [|vm_compute in E; discriminate E].
  exists out. split; [reflexivity|].
  apply (proj1 (proj2 (load_alerts_most_recent_first
                         Examples.json_loads_atoms 1 _ out E))).
  lia.
Defined.

Lemma save_alert_keeps_primary_key_witness :
  NoDup (Sql.row_id
           <$> Main.db (snd (Main.save_alert_to_db Examples.alert_demo
                               Examples.world_up)))
  ∧ NoDup (Sql.row_id
             <$> Main.db
                   (snd (Main.save_alert_to_db Examples.alert_demo
                           (snd (Main.save_alert_to_db Examples.alert_demo
                                   Examples.world_up))))).
Proof.
  assert (NoDup (Sql.row_id
                   <$> Main.db (snd (Main.save_alert_to_db Examples.alert_demo
                                       Examples.world_up)))) as H.
  { vm_compute. apply NoDup_singleton. }
  split; [exact H|].
  exact (proj1 (save_alert_keeps_primary_key Examples.alert_demo _ H)).
Defined.

Lemma broadcast_drops_by_disconnect_witness :
  Main.dumps_fails Examples.world_up = false
  ∧ Main.active
      (snd (Main.broadcast (Main.AlertMsg Examples.alert_demo)
              Examples.world_up))
    = Main.active
        (foldl (λ w r, Main.disconnect r w) Examples.world_up
           (filter (λ ws, Main.send_fails Examples.world_up ws = true)
              (Main.active Examples.world_up))).
Proof.
  split; [reflexivity|].
  apply (broadcast_drops_by_disconnect (Main.AlertMsg Examples.alert_demo)
           Examples.world_up).
  reflexivity.
Defined.

Lemma main_prediction_is_expiry_within_90_days_witness :
  (0 <= Main.t_score Examples.tick_draws_demo)%Q
  ∧ (Main.t_score Examples.tick_draws_demo <= 1)%Q
  ∧ (0 <= Main.p_fake_score
            (Main.score_payload Calendar.fromisoformat_date Examples.now_2026
               Examples.tick_draws_demo Examples.payload_30_days))%Q.
Proof.
  assert (0 <= Main.t_score Examples.tick_draws_demo)%Q as H0
    by (vm_compute; discriminate).
  assert (Main.t_score Examples.tick_draws_demo <= 1)%Q as H1
    by (vm_compute; discriminate).
  split; [exact H0|]. split; [exact H1|].
  exact (proj1 (main_prediction_is_expiry_within_90_days
                  Calendar.fromisoformat_date Examples.now_2026
                  Examples.tick_draws_demo Examples.payload_30_days H0 H1)).
Defined.

Lemma stream_tick_alerts_predicted_fakes_witness :
  Main.p_predicted_fake
    (fst (Main.stream_tick Calendar.fromisoformat_date Examples.no_pandas
            Examples.json_dumps_empty Examples.str_of_us None
            (Some Examples.payload_30_days) Examples.now_2026 "id-9" 9.0
            Examples.tick_draws_demo Examples.world_up)) = 1
  ∧ ∃ a, Main.a_level a = CRITICAL
         ∧ (Main.db_fails Examples.world_up = false →
            Main.row_of_alert a
            ∈ Main.db
                (snd (Main.stream_tick Calendar.fromisoformat_date
                        Examples.no_pandas Examples.json_dumps_empty
                        Examples.str_of_us None
                        (Some Examples.payload_30_days) Examples.now_2026
                        "id-9" 9.0 Examples.tick_draws_demo
                        Examples.world_up))).
Proof.
  assert (0 <= Main.t_score Examples.tick_draws_demo)%Q as H0
    by (vm_compute; discriminate).
  assert (Main.t_score Examples.tick_draws_demo <= 1)%Q as H1
    by (vm_compute; discriminate).
  assert (Main.p_predicted_fake
            (fst (Main.stream_tick Calendar.fromisoformat_date
                    Examples.no_pandas Examples.json_dumps_empty
                    Examples.str_of_us None (Some Examples.payload_30_days)
                    Examples.now_2026 "id-9" 9.0 Examples.tick_draws_demo
                    Examples.world_up)) = 1) as Hp
    by (vm_compute; reflexivity).
  split; [exact Hp|].
  destruct (stream_tick_alerts_predicted_fakes Calendar.fromisoformat_date
              Examples.no_pandas Examples.json_dumps_empty Examples.str_of_us
              None (Some Examples.payload_30_days) Examples.now_2026 "id-9"
              9.0 Examples.tick_draws_demo Examples.world_up H0 H1 eq_refl Hp)
    as (a & Hl & _ & Hdb).
  exists a. split; [exact Hl | exact Hdb].
Defined.

Lemma stream_task_iteration_bound_witness :
  ∃ k w', (k ≤ 3)%nat
          ∧ Main._stream_simulator_task Calendar.fromisoformat_date
              Examples.no_pandas Examples.json_dumps_empty Examples.str_of_us
              None (λ _, Some Examples.payload_30_days)
              (λ _, Examples.now_2026) (λ _, "id-9") (λ _, 9.0%Q)
              (λ _, Examples.tick_draws_demo) Examples.clock_seconds 0 3 4
              Examples.world_up
            = Some (k, w').
Proof.
  apply (stream_task_iteration_bound Calendar.fromisoformat_date
           Examples.no_pandas Examples.json_dumps_empty Examples.str_of_us
           None (λ _, Some Examples.payload_30_days) (λ _, Examples.now_2026)
           (λ _, "id-9") (λ _, 9.0%Q) (λ _, Examples.tick_draws_demo)
           Examples.clock_seconds 0 3 1 3 Examples.world_up).
  - intros k. unfold Examples.clock_seconds.
    generalize (inject_Z (Z.of_nat k)). intros x. lra.
  - vm_compute. discriminate.
Defined.

Lemma predict_without_expiry_witness :
  truthy PyNone = false
  ∧ Main.pr_predicted_fake
      (fst (Main.predict Calendar.fromisoformat_date Examples.no_pandas
              Examples.json_dumps_empty None (PyStr "PharmaCorp") PyNone
              PyNone Examples.now_2026 "id-5" 5.0 0.5 Examples.world_up)) = 0
  ∧ snd (Main.predict Calendar.fromisoformat_date Examples.no_pandas
           Examples.json_dumps_empty None (PyStr "PharmaCorp") PyNone PyNone
           Examples.now_2026 "id-5" 5.0 0.5 Examples.world_up)
    = Examples.world_up.
Proof.
  assert (0 <= 0.5)%Q as H0 by done. assert (0.5 <= 1)%Q as H1 by done.
  split; [reflexivity|].
  destruct (predict_without_expiry Calendar.fromisoformat_date
              Examples.no_pandas Examples.json_dumps_empty None
              (PyStr "PharmaCorp") PyNone PyNone Examples.now_2026 "id-5" 5.0
              0.5 Examples.world_up H0 H1 eq_refl)
    as (_ & _ & Hp & _ & _ & Hw).
  split; [exact Hp | exact Hw].
Defined.

Lemma alert_to_highrisk_item_witness :
  ∃ h, Main._alert_to_highrisk Examples.json_loads_atoms
         Examples.no_float_text Examples.loaded_demo = Returned h
       ∧ Main.h_risk h = "high"
       ∧ Main.h_id h = "a-2".
Proof.
  destruct (Main._alert_to_highrisk Examples.json_loads_atoms
              Examples.no_float_text Examples.loaded_demo) as [h|e] eqn:E;
    [|vm_compute in E; discriminate E].
  exists h. split; [reflexivity|].
  destruct (alert_to_highrisk_item Examples.json_loads_atoms
              Examples.no_float_text Examples.loaded_demo h E)
    as (_ & _ & Hr & _ & _ & _ & _ & Hid & _).
  split; [apply Hr; reflexivity | exact Hid].
Defined.

Lemma alert_without_data_highrisk_witness :
  Main.json_truthy
    (Main.l_data (Main.mk_loaded "a-3" 3.0 "WARNING" PyNone PyNone
                    "WARNING: ML suspicious (score=0.600) | supplier=None"
                    JNull)) = false
  ∧ ∃ h, Main._alert_to_highrisk Examples.json_loads_atoms
           Examples.no_float_text
           (Main.mk_loaded "a-3" 3.0 "WARNING" PyNone PyNone
              "WARNING: ML suspicious (score=0.600) | supplier=None" JNull)
         = Returned h
         ∧ Main.h_quality h = 100.
Proof.
  split; [reflexivity|].
  destruct (alert_without_data_highrisk Examples.json_loads_atoms
              Examples.no_float_text
              (Main.mk_loaded "a-3" 3.0 "WARNING" PyNone PyNone
                 "WARNING: ML suspicious (score=0.600) | supplier=None" JNull)
              eq_refl) as (h & Hh & Hq & _).
  exists h. split; [exact Hh | exact Hq].
Defined.

Lemma highrisk_follows_load_alerts_witness :
  ∃ hs alerts,
    Main.highrisk Examples.json_loads_atoms Examples.no_float_text 20
      (snd (Main.save_alert_to_db Examples.alert_demo Examples.world_up))
    = Returned hs
    ∧ Main.load_alerts Examples.json_loads_atoms 20
        (snd (Main.save_alert_to_db Examples.alert_demo Examples.world_up))
      = Returned alerts
    ∧ Main.h_id <$> hs = Main.l_id <$> alerts.
Proof.
  destruct (Main.highrisk Examples.json_loads_atoms Examples.no_float_text 20
              (snd (Main.save_alert_to_db Examples.alert_demo
                      Examples.world_up))) as [hs|e] eqn:E;
    [|vm_compute in E; discriminate E].
  destruct (highrisk_follows_load_alerts Examples.json_loads_atoms
              Examples.no_float_text 20 _ hs E)
    as (alerts & Hl & Hid & _).
  exists hs, alerts. split; [reflexivity|]. split; [exact Hl | exact Hid].
Defined.

Lemma ml_score_range_witness :
  (0 <= Sim._ml_score Examples.exp_series Examples.no_pandas_text
          (Sim.mk_simulator (0.2%Q, 1.5%Q) 3
             (Some (Sim.mk_bundle
                      (Sim.DecisionFunction (λ _ _, Some (-0.3)%Q)) None))
             Examples.today_demo)
          (Sim.s_expiry Examples.row_30_days) (PyStr "PharmaCorp") 0.02)%Q
  ∧ (0 <= Sim._ml_score Examples.exp_series Examples.no_pandas_text
            Examples.sim_no_model (Sim.s_expiry Examples.row_30_days)
            (PyStr "PharmaCorp") 0.02)%Q.
Proof.
  assert (∀ b f,
            Sim.model_bundle
              (Sim.mk_simulator (0.2%Q, 1.5%Q) 3
                 (Some (Sim.mk_bundle
                          (Sim.DecisionFunction (λ _ _, Some (-0.3)%Q)) None))
                 Examples.today_demo) = Some b →
            Sim.b_model b ≠ Sim.PredictProba f) as H1.
  { intros b f H. simpl in H. injection H as <-. discriminate. }
  assert (∀ b f, Sim.model_bundle Examples.sim_no_model = Some b →
                 Sim.b_model b ≠ Sim.PredictProba f) as H2.
  { intros b f H. simpl in H. discriminate H. }
  split.
  - exact (proj1 (ml_score_range Examples.exp_series Examples.no_pandas_text
                    (Sim.mk_simulator (0.2%Q, 1.5%Q) 3
                       (Some (Sim.mk_bundle
                                (Sim.DecisionFunction (λ _ _, Some (-0.3)%Q))
                                None))
                       Examples.today_demo)
                    (Sim.s_expiry Examples.row_30_days) (PyStr "PharmaCorp")
                    0.02 H1)).
  - exact (proj1 (ml_score_range Examples.exp_series Examples.no_pandas_text
                    Examples.sim_no_model (Sim.s_expiry Examples.row_30_days)
                    (PyStr "PharmaCorp") 0.02 H2)).
Defined.

Lemma fallback_ignores_future_expiry_witness :
  Sim.days_to Examples.no_pandas_text Examples.sim_no_model
    (Sim.s_expiry Examples.row_30_days) = Some 30
  ∧ Sim.days_to Examples.no_pandas_text Examples.sim_no_model
      (Sim.s_expiry Examples.row_400_days) = Some 400
  ∧ Sim.fallback_score Examples.exp_series Examples.no_pandas_text
      Examples.sim_no_model (Sim.s_expiry Examples.row_30_days)
      (PyStr "PharmaCorp") 0.02
    = Sim.fallback_score Examples.exp_series Examples.no_pandas_text
        Examples.sim_no_model (Sim.s_expiry Examples.row_400_days)
        (PyStr "PharmaCorp") 0.02.
Proof.
  assert (0 ≤ 30) as H30 by lia. assert (0 ≤ 400) as H400 by lia.
  split; [reflexivity|]. split; [reflexivity|].
  exact (proj1 (fallback_ignores_future_expiry Examples.exp_series
                  Examples.no_pandas_text Examples.sim_no_model
                  (Sim.s_expiry Examples.row_30_days)
                  (Sim.s_expiry Examples.row_400_days) 30 400
                  (PyStr "PharmaCorp") 0.02 eq_refl H30 eq_refl H400)).
Defined.

Lemma simulated_duration_bounds_witness :
  (0.95 * (Sim.hardware_latency Examples.sim_no_model).1
   <= Sim.e_duration
        (Sim.simulate_hardware_test Examples.exp_series
           Examples.no_pandas_text Examples.str_of_us Examples.sim_no_model
           "2025-11-25T00:00:00Z" Examples.calm_draws Examples.row_30_days))%Q.
Proof.
  assert (0 <= (Sim.hardware_latency Examples.sim_no_model).1)%Q as H1
    by (vm_compute; discriminate).
  assert ((Sim.hardware_latency Examples.sim_no_model).1
          <= (Sim.hardware_latency Examples.sim_no_model).2)%Q as H2
    by (vm_compute; discriminate).
  assert (0 <= Sim.u_latency Examples.calm_draws)%Q as H3
    by (vm_compute; discriminate).
  assert (Sim.u_latency Examples.calm_draws <= 1)%Q as H4
    by (vm_compute; discriminate).
  assert (0 <= Sim.u_jitter Examples.calm_draws)%Q as H5
    by (vm_compute; discriminate).
  assert (Sim.u_jitter Examples.calm_draws <= 1)%Q as H6
    by (vm_compute; discriminate).
  exact (proj1 (simulated_duration_bounds Examples.exp_series
                  Examples.no_pandas_text Examples.str_of_us
                  Examples.sim_no_model "2025-11-25T00:00:00Z"
                  Examples.calm_draws Examples.row_30_days H1 H2 H3 H4 H5
                  H6)).
Defined.

Lemma events_within_max_tests_witness :
  ∃ w, Sim.threads (Sim.run Examples.two_streams Sim.initial) !! 1%nat
       = Some w
       ∧ length (Sim.events_of (Sim.w_out w)) = Sim.w_count w
       ∧ Sim.w_count w = 2%nat.
Proof.
  assert (Sim.w_count
            <$> Sim.threads (Sim.run Examples.two_streams Sim.initial) !! 1%nat
          = Some 2%nat) as Hc by (vm_compute; reflexivity).
  destruct (Sim.threads (Sim.run Examples.two_streams Sim.initial) !! 1%nat)
    as [w|] eqn:E; [|discriminate Hc].
  exists w. split; [reflexivity|]. split.
  - exact (proj1 (events_within_max_tests Examples.two_streams 1 w E)).
  - injection Hc as Hc. exact Hc.
Defined.



Lemma registry_agrees_with_threads_witness :
  Sim.ids_fresh Examples.two_streams Sim.initial
  ∧ ∃ th w,
      Sim.threads (Sim.run Examples.two_streams Sim.initial) !! th = Some w
      ∧ Sim.w_stream_id w = "s-1" ∧ Sim.w_pc w ≠ Sim.PcDone.
Proof.
  assert (Sim.ids_fresh Examples.two_streams Sim.initial) as Hf.
  { vm_compute. repeat split. }
  split; [exact Hf|].
  apply (proj1 (proj1 (registry_agrees_with_threads Examples.two_streams Hf)
                  "s-1")).
  assert (is_Some (Sim.i_thread
                     <$> Sim.running_streams
                           (Sim.run Examples.two_streams Sim.initial)
                         !! "s-1")) as Hs by (vm_compute; eexists; reflexivity).
  destruct (Sim.running_streams (Sim.run Examples.two_streams Sim.initial)
              !! "s-1") as [info|]; [eexists; reflexivity|].
  destruct Hs as [x Hx]. discriminate Hx.
Defined.

